(** * A shallow embedding of the GSS dashboard (src/app.py)

    The program is a Python script: it reads a CSV into a pandas data
    frame, cleans it, computes five static plotly figures, builds a Dash
    layout and registers one callback, [update_graph].

    Modelling choices, all taken from the way the script is written.

    - A data frame is column oriented, as in pandas: an ordered list of
      named columns, each a dtype and a list of cells; a cell is
      [None] (NaN) or a scalar.
    - A float64 is modelled by the rational it denotes.  Comparisons of
      floats are exact, so [Qle_bool] and [Qeq_bool] are the program's
      comparisons.  What depends on the rounding of float arithmetic,
      the mean of a group, [round], the bin edges and interval labels
      of [pd.cut], is not computed here: these operations are the
      fields of the class [Float64], and everything is stated for every
      instance of it.  [Ideal] is the instance of exact arithmetic, on
      which the definitions can be run.
    - Python raises; fallible operations return [Result].
    - Data frames are mutable objects.  Python variables hold references
      into a heap of frames, so that [df = gss_clean.copy()] followed by
      [df['education_binned'] = ...] can be told apart from a mutation of
      [gss_clean].  Module level names live in a dictionary of globals
      and are looked up by name when a statement runs.
    - plotly figures are modelled by the chart specification the call
      builds (kind, data frame, encodings, labels, layout updates). *)

From Stdlib Require Import List String Ascii Bool Arith ZArith QArith Qround Lia Lqa.
From Stdlib Require Import Sorted OrderedTypeEx.
Import ListNotations.
Close Scope Q_scope.
Open Scope string_scope.

Set Implicit Arguments.
Set Warnings "-register-all".

(** ** Exceptions *)

Inductive PyError : Type :=
| KeyError (key : string)
| TypeError (msg : string)
| ValueError (msg : string)
| NameError (name : string).

Inductive Result (A : Type) : Type :=
| Ok (a : A)
| Raise (e : PyError).

Arguments Ok {A} a.
Arguments Raise {A} e.

Definition rbind {A B} (r : Result A) (k : A -> Result B) : Result B :=
  match r with
  | Ok a => k a
  | Raise e => Raise e
  end.

Declare Scope result_scope.
Delimit Scope result_scope with result.
Notation "x <-? r ;; k" := (rbind r (fun x => k))
  (at level 61, r at next level, right associativity) : result_scope.

Fixpoint rmap {A B} (f : A -> Result B) (l : list A) : Result (list B) :=
  match l with
  | [] => Ok []
  | a :: l' =>
      match f a with
      | Ok b => match rmap f l' with
                | Ok bs => Ok (b :: bs)
                | Raise e => Raise e
                end
      | Raise e => Raise e
      end
  end.

Definition is_ok {A} (r : Result A) : bool :=
  match r with Ok _ => true | Raise _ => false end.

(** ** Strings: [str.title], [str.replace], [float(str)] *)

Module PyStr.

Definition is_upper (c : ascii) : bool :=
  let n := nat_of_ascii c in (65 <=? n)%nat && (n <=? 90)%nat.

Definition is_lower (c : ascii) : bool :=
  let n := nat_of_ascii c in (97 <=? n)%nat && (n <=? 122)%nat.

Definition to_upper (c : ascii) : ascii :=
  if is_lower c then ascii_of_nat (nat_of_ascii c - 32) else c.

Definition to_lower (c : ascii) : ascii :=
  if is_upper c then ascii_of_nat (nat_of_ascii c + 32) else c.

(** [s.title()]: the first cased character after an uncased one is put
    in upper case, every other cased character in lower case. *)
Fixpoint title_from (prev_cased : bool) (s : string) : string :=
  match s with
  | EmptyString => EmptyString
  | String c r =>
      if is_upper c || is_lower c
      then String (if prev_cased then to_lower c else to_upper c) (title_from true r)
      else String c (title_from false r)
  end.

Definition title (s : string) : string := title_from false s.

(** [s.replace(old, new)], occurrences taken left to right without
    overlap.  [skip] counts the characters of a match still to drop. *)
Fixpoint replace_from (old new : string) (skip : nat) (s : string) : string :=
  match s with
  | EmptyString => EmptyString
  | String c r =>
      match skip with
      | S k => replace_from old new k r
      | O =>
          if prefix old s
          then new ++ replace_from old new (String.length old - 1) r
          else String c (replace_from old new 0 r)
      end
  end.

Fixpoint interleave (new s : string) : string :=
  match s with
  | EmptyString => new
  | String c r => new ++ String c (interleave new r)
  end.

Definition replace (old new s : string) : string :=
  match old with
  | EmptyString => interleave new s
  | _ => replace_from old new 0 s
  end.

Definition digit_of (c : ascii) : option Z :=
  let n := nat_of_ascii c in
  if (48 <=? n)%nat && (n <=? 57)%nat then Some (Z.of_nat (n - 48)) else None.

(** Reads a run of decimal digits: the number read so far, how many
    digits it has, and what is left of the string. *)
Fixpoint digits (s : string) (acc : Z) (cnt : nat) : Z * nat * string :=
  match s with
  | EmptyString => (acc, cnt, s)
  | String c r =>
      match digit_of c with
      | Some d => digits r (10 * acc + d)%Z (S cnt)
      | None => (acc, cnt, s)
      end
  end.

Definition unsigned_float (s : string) : option Q :=
  let '(ip, ni, rest) := digits s 0%Z 0 in
  match rest with
  | EmptyString => if (0 <? ni)%nat then Some (inject_Z ip) else None
  | String "." r =>
      let '(fp, nf, rest') := digits r 0%Z 0 in
      match rest' with
      | EmptyString =>
          if (0 <? ni + nf)%nat
          then Some (Qred (Qmake (ip * 10 ^ Z.of_nat nf + fp) (Z.to_pos (10 ^ Z.of_nat nf))))
          else None
      | _ => None
      end
  | _ => None
  end.

(** [float(s)] on the decimal literals a CSV of survey data holds: an
    optional sign, digits, an optional fraction.  Anything else is the
    [ValueError] of Python (exponents and the words inf and nan, which
    Python also reads, are outside this fragment). *)
Definition to_float (s : string) : option Q :=
  match s with
  | String "-" r => option_map Qopp (unsigned_float r)
  | String "+" r => unsigned_float r
  | _ => unsigned_float s
  end.

End PyStr.

(** ** Scalars, columns and data frames *)

Inductive scalar : Type :=
| SStr (s : string)
| SNum (q : Q)
| SCat (code : nat).

(** A cell is a scalar or NaN. *)
Definition cell : Type := option scalar.

Definition notna (c : cell) : bool :=
  match c with Some _ => true | None => false end.

(** The label of a category: a string given by the caller of [pd.cut],
    or the right-closed interval [(lo, hi]] that [pd.cut] makes up. *)
Inductive label : Type :=
| LStr (s : string)
| LInterval (lo hi : Q).

Inductive dtype : Type :=
| object
| float64
| int64
| category (categories : list label).

Record Column : Type := mkColumn { col_dtype : dtype; cells : list cell }.

(** [df_index] holds the named index levels a group-by leaves behind;
    it is empty for the default positional index. *)
Record DataFrame : Type := mkDF {
  df_index : list (string * Column);
  df_cols : list (string * Column)
}.

Definition scalar_eqb (a b : scalar) : bool :=
  match a, b with
  | SStr x, SStr y => String.eqb x y
  | SNum x, SNum y => Qeq_bool x y
  | SCat x, SCat y => Nat.eqb x y
  | _, _ => false
  end.

Definition scalar_rank (a : scalar) : nat :=
  match a with SNum _ => 0 | SStr _ => 1 | SCat _ => 2 end.

(** The order group-by sorts its keys in: strings by code point,
    numbers by value, categories by code. *)
Definition scalar_leb (a b : scalar) : bool :=
  match a, b with
  | SStr x, SStr y => String.leb x y
  | SNum x, SNum y => Qle_bool x y
  | SCat x, SCat y => Nat.leb x y
  | _, _ => Nat.leb (scalar_rank a) (scalar_rank b)
  end.

Fixpoint key_eqb (k1 k2 : list scalar) : bool :=
  match k1, k2 with
  | [], [] => true
  | a :: k1', b :: k2' => scalar_eqb a b && key_eqb k1' k2'
  | _, _ => false
  end.

Fixpoint lookup {A} (name : string) (l : list (string * A)) : option A :=
  match l with
  | [] => None
  | (n, a) :: l' => if String.eqb n name then Some a else lookup name l'
  end.

(** A dictionary store: the first binding of the name is replaced, a
    new name goes to the end (Python dictionaries and pandas columns
    keep insertion order). *)
Fixpoint store {A} (name : string) (a : A) (l : list (string * A)) : list (string * A) :=
  match l with
  | [] => [(name, a)]
  | (n, b) :: l' => if String.eqb n name then (n, a) :: l' else (n, b) :: store name a l'
  end.

Definition dict_of {A} (items : list (string * A)) : list (string * A) :=
  fold_left (fun d kv => store (fst kv) (snd kv) d) items [].

Definition names {A} (l : list (string * A)) : list string := map fst l.

Definition mem (s : string) (l : list string) : bool := existsb (String.eqb s) l.

(** ** Float arithmetic

    The operations of numpy and pandas whose result depends on how
    float64 rounds.  Each is a function of the values it is given, and
    nothing more is said of it. *)

Class Float64 : Type := {
  (** The mean pandas computes of the values of a group, given in the
      order of the rows; the list is not empty. *)
  fmean : list Q -> Q;
  (** [np.round(x, decimals)]. *)
  fround : nat -> Q -> Q;
  (** The [i]-th of the [n + 1] edges [pd.cut] computes for [bins=n]
      over data whose least value is [mn] and whose greatest is [mx]. *)
  cut_edge : Q -> Q -> nat -> nat -> Q;
  (** An edge as the label of a category shows it, rounded to the
      precision pandas infers from the edges. *)
  label_edge : list Q -> Q -> Q
}.

Module Pandas.

Import PyStr.
Local Open Scope result_scope.

Definition n_rows (df : DataFrame) : nat :=
  match df_cols df with
  | [] => 0
  | (_, c) :: _ => List.length (cells c)
  end.

Definition column (name : string) (df : DataFrame) : Result Column :=
  match lookup name (df_cols df) with
  | Some c => Ok c
  | None => Raise (KeyError name)
  end.

(** [df[[c1, ..., cn]]]: a new frame with the listed columns. *)
Definition select (cols : list string) (df : DataFrame) : Result DataFrame :=
  cs <-? rmap (fun n => c <-? column n df ;; Ok (n, c)) cols ;;
  Ok (mkDF (df_index df) cs).

(** [df.rename(mapping, axis=1)]: names absent from the mapping, and
    keys of the mapping absent from the frame, are left alone. *)
Definition rename (mapping : list (string * string)) (df : DataFrame) : DataFrame :=
  mkDF (df_index df)
       (map (fun nc => (match lookup (fst nc) mapping with
                        | Some n' => n'
                        | None => fst nc
                        end, snd nc)) (df_cols df)).

(** [s.replace({old: new})] on the values of a column. *)
Definition replace_values (mapping : list (string * string)) (c : Column) : Column :=
  mkColumn (col_dtype c)
    (map (fun x => match x with
                   | Some (SStr s) =>
                       match lookup s mapping with
                       | Some s' => Some (SStr s')
                       | None => x
                       end
                   | _ => x
                   end) (cells c)).

Definition cell_to_float (x : cell) : Result cell :=
  match x with
  | None => Ok None
  | Some (SNum q) => Ok (Some (SNum q))
  | Some (SStr s) =>
      match to_float s with
      | Some q => Ok (Some (SNum q))
      | None => Raise (ValueError ("could not convert string to float: " ++ s))
      end
  | Some (SCat _) => Raise (TypeError "cannot convert category to float")
  end.

(** [s.astype('float')]. *)
Definition astype_float (c : Column) : Result Column :=
  xs <-? rmap cell_to_float (cells c) ;;
  Ok (mkColumn float64 xs).

(** [df[name] = col] and [df.name = col]. *)
Definition setitem (name : string) (c : Column) (df : DataFrame) : DataFrame :=
  mkDF (df_index df) (store name c (df_cols df)).

(** The rows of a list of columns, as tuples of cells. *)
Definition rows_of (cols : list Column) (n : nat) : list (list cell) :=
  map (fun i => map (fun c => nth i (cells c) None) cols) (seq 0 n).

Fixpoint filter_mask {A} (mask : list bool) (l : list A) : list A :=
  match mask, l with
  | b :: mask', a :: l' => if b then a :: filter_mask mask' l' else filter_mask mask' l'
  | _, _ => []
  end.

Definition filter_rows (mask : list bool) (df : DataFrame) : DataFrame :=
  mkDF (df_index df)
       (map (fun nc => (fst nc, mkColumn (col_dtype (snd nc)) (filter_mask mask (cells (snd nc)))))
            (df_cols df)).

(** [df.dropna(subset=names)]: keeps the rows with no NaN in the listed
    columns. *)
Definition dropna_subset (subset : list string) (df : DataFrame) : Result DataFrame :=
  cs <-? rmap (fun n => column n df) subset ;;
  Ok (filter_rows (map (forallb notna) (rows_of cs (n_rows df))) df).

(** [df.dropna()]: all columns. *)
Definition dropna (df : DataFrame) : DataFrame :=
  filter_rows (map (forallb notna) (rows_of (map snd (df_cols df)) (n_rows df))) df.

(** The values of a numeric column; [TypeError] on a column of strings
    or categories, as arithmetic and comparison on them raise. *)
Definition as_numeric (c : Column) : Result (list (option Q)) :=
  match col_dtype c with
  | object => Raise (TypeError "unsupported operand type: str")
  | category _ => Raise (TypeError "unsupported operand type: category")
  | _ =>
      rmap (fun x => match x with
                     | None => Ok None
                     | Some (SNum q) => Ok (Some q)
                     | Some _ => Raise (TypeError "unsupported operand type: str")
                     end) (cells c)
  end.

Fixpoint present {A} (l : list (option A)) : list A :=
  match l with
  | [] => []
  | Some a :: l' => a :: present l'
  | None :: l' => present l'
  end.

(** *** [pd.cut] *)

Fixpoint increasing (bins : list Q) : bool :=
  match bins with
  | a :: ((b :: _) as r) => negb (Qle_bool b a) && increasing r
  | _ => true
  end.

(** The position of the right-closed bin [(lo, hi]] that holds [v];
    [None] when [v] is in no bin (the lowest edge is not included). *)
Fixpoint bin_of (bins : list Q) (v : Q) (i : nat) : option nat :=
  match bins with
  | lo :: ((hi :: _) as r) =>
      if negb (Qle_bool v lo) && Qle_bool v hi then Some i else bin_of r v (S i)
  | _ => None
  end.

Definition cut_cell (bins : list Q) (x : option Q) : cell :=
  match x with
  | None => None
  | Some v => option_map SCat (bin_of bins v 0)
  end.

(** [pd.cut(col, bins=bins, labels=labels, right=True)]. *)
Definition cut (c : Column) (bins : list Q) (labels : list string) : Result Column :=
  xs <-? as_numeric c ;;
  if negb (increasing bins)
  then Raise (ValueError "bins must increase monotonically.")
  else if negb (List.length labels =? List.length bins - 1)%nat
  then Raise (ValueError "Bin labels must be one fewer than the number of bin edges")
  else Ok (mkColumn (category (map LStr labels)) (map (cut_cell bins) xs)).

Definition Qmin' (a b : Q) : Q := if Qle_bool a b then a else b.
Definition Qmax' (a b : Q) : Q := if Qle_bool a b then b else a.

Fixpoint intervals (edges : list Q) : list label :=
  match edges with
  | lo :: ((hi :: _) as r) => LInterval lo hi :: intervals r
  | _ => []
  end.

(** The [n + 1] edges of [pd.cut(col, bins=n)]. *)
Definition cut_edges {fl : Float64} (mn mx : Q) (n : nat) : list Q :=
  map (cut_edge mn mx n) (seq 0 (S n)).

(** [pd.cut(col, bins=n)] with an integer [n]: the range of the data is
    cut at [n + 1] edges, a value gets the right-closed bin that holds
    it, and the categories are the intervals of the edges as rounded
    for the labels.  The edges [np.linspace] returns never decrease, so
    that they are distinct, as pandas requires, exactly when they
    increase. *)
Definition cut_equal_width {fl : Float64} (c : Column) (n : nat) : Result Column :=
  xs <-? as_numeric c ;;
  match n, present xs with
  | O, _ => Raise (ValueError "`bins` should be a positive integer.")
  | _, [] =>
      Raise (ValueError (match xs with
                         | [] => "Cannot cut empty array"
                         | _ => "Bin edges must be unique"
                         end))
  | _, v :: vs =>
      let mn := fold_left Qmin' vs v in
      let mx := fold_left Qmax' vs v in
      let edges := cut_edges mn mx n in
      if negb (increasing edges)
      then Raise (ValueError "Bin edges must be unique")
      else Ok (mkColumn (category (intervals (map (label_edge edges) edges)))
                        (map (cut_cell edges) xs))
  end.

(** *** Group-by *)

Fixpoint insert_uniq (x : scalar) (l : list scalar) : list scalar :=
  match l with
  | [] => [x]
  | y :: l' =>
      if scalar_eqb x y then l
      else if scalar_leb x y then x :: l
      else y :: insert_uniq x l'
  end.

Definition sort_uniq (l : list scalar) : list scalar := fold_right insert_uniq [] l.

(** The strict order the levels come out in. *)
Definition scalar_ltb (a b : scalar) : bool :=
  scalar_leb a b && negb (scalar_eqb a b).

(** Keys of several columns are ordered column by column. *)
Fixpoint key_lt (k1 k2 : list scalar) : Prop :=
  match k1, k2 with
  | a :: k1', b :: k2' =>
      scalar_ltb a b = true \/ (scalar_eqb a b = true /\ key_lt k1' k2')
  | _, _ => False
  end.

Definition is_categorical (c : Column) : bool :=
  match col_dtype c with category _ => true | _ => false end.

(** The codes of a categorical column are positions in its list of
    categories. *)
Definition typed (c : Column) : bool :=
  match col_dtype c with
  | category cats =>
      forallb (fun x => match x with
                        | None => true
                        | Some (SCat code) => (code <? List.length cats)%nat
                        | Some _ => false
                        end) (cells c)
  | _ => true
  end.

(** The levels of one grouping column: its sorted distinct values; for
    a categorical column grouped with [observed=False], every category
    whether it occurs or not. *)
Definition levels (observed : bool) (c : Column) : list scalar :=
  match col_dtype c with
  | category cats =>
      if observed then sort_uniq (present (cells c))
      else map SCat (seq 0 (List.length cats))
  | _ => sort_uniq (present (cells c))
  end.

Fixpoint product (ls : list (list scalar)) : list (list scalar) :=
  match ls with
  | [] => [[]]
  | l :: ls' => flat_map (fun a => map (cons a) (product ls')) l
  end.

(** The key of a row; a row with NaN in a grouping column is in no
    group ([dropna=True], the default of [groupby]). *)
Fixpoint key_of (row : list cell) : option (list scalar) :=
  match row with
  | [] => Some []
  | Some a :: r => option_map (cons a) (key_of r)
  | None :: _ => None
  end.

Definition row_has_key (k : list scalar) (row : list cell) : bool :=
  match key_of row with
  | Some k' => key_eqb k k'
  | None => false
  end.

Definition group_size (rows : list (list cell)) (k : list scalar) : nat :=
  List.length (filter (row_has_key k) rows).

(** The keys of the result, in order.  Group ids are the positions in
    the product of the levels; only the ids that occur are kept, unless
    a categorical grouper asks for the unobserved ones too. *)
Definition group_index (observed : bool) (cols : list Column) (n : nat) : list (list scalar) :=
  let combos := product (map (levels observed) cols) in
  if existsb is_categorical cols && negb observed
  then combos
  else filter (fun k => (0 <? group_size (rows_of cols n) k)%nat) combos.

Definition key_columns (keys : list string) (cols : list Column) (index : list (list scalar))
  : list (string * Column) :=
  map (fun j => (nth j keys EmptyString,
                 mkColumn (col_dtype (nth j cols (mkColumn object [])))
                          (map (fun k => nth_error k j) index)))
      (seq 0 (List.length keys)).

(** A pandas Series that carries a named index, as [size()] returns. *)
Record Series : Type := mkSeries {
  s_index : list (string * Column);
  s_values : Column
}.

(** [df.groupby(keys).size()].  [observed] is the default of the
    installed pandas for categorical groupers. *)
Definition groupby_size (observed : bool) (keys : list string) (df : DataFrame) : Result Series :=
  cols <-? rmap (fun n => column n df) keys ;;
  let rows := rows_of cols (n_rows df) in
  let index := group_index observed cols (n_rows df) in
  Ok (mkSeries (key_columns keys cols index)
               (mkColumn int64
                  (map (fun k => Some (SNum (inject_Z (Z.of_nat (group_size rows k))))) index))).

Fixpoint insert_levels (lv cols : list (string * Column)) : Result (list (string * Column)) :=
  match lv with
  | [] => Ok cols
  | (n, c) :: lv' =>
      cols' <-? insert_levels lv' cols ;;
      if mem n (names cols')
      then Raise (ValueError ("cannot insert " ++ n ++ ", already exists"))
      else Ok ((n, c) :: cols')
  end.

(** [series.reset_index(name=name)]. *)
Definition series_reset_index (name : string) (s : Series) : Result DataFrame :=
  cols <-? insert_levels (s_index s) [(name, s_values s)] ;;
  Ok (mkDF [] cols).

(** [df.reset_index()]. *)
Definition reset_index (df : DataFrame) : Result DataFrame :=
  cols <-? insert_levels (df_index df) (df_cols df) ;;
  Ok (mkDF [] cols).

(** [mean] skips NaN; the mean of no value is NaN. *)
Definition mean {fl : Float64} (xs : list (option Q)) : cell :=
  match present xs with
  | [] => None
  | v :: vs => Some (SNum (fmean (v :: vs)))
  end.

Inductive AggFunc : Type := agg_mean.

Definition aggregate {fl : Float64} (f : AggFunc) (xs : list (option Q)) : cell :=
  match f with agg_mean => mean xs end.

(** [df.groupby(key).agg({col: f, ...})]: one row per group, the key
    as index, one column per entry of the dictionary. *)
Definition groupby_agg {fl : Float64} (observed : bool) (key : string)
    (spec : list (string * AggFunc)) (df : DataFrame) : Result DataFrame :=
  kc <-? column key df ;;
  let rows := rows_of [kc] (n_rows df) in
  let index := group_index observed [kc] (n_rows df) in
  cols <-? rmap (fun cf =>
                   c <-? column (fst cf) df ;;
                   xs <-? as_numeric c ;;
                   Ok (fst cf,
                       mkColumn float64
                         (map (fun k => aggregate (snd cf)
                                          (filter_mask (map (row_has_key k) rows) xs))
                              index)))
                (dict_of spec) ;;
  Ok (mkDF (key_columns [key] [kc] index) cols).

Definition is_float (c : Column) : bool :=
  match col_dtype c with float64 => true | _ => false end.

(** [df.round(decimals)]: the float columns are rounded, the others and
    the index are left as they are. *)
Definition round {fl : Float64} (decimals : nat) (df : DataFrame) : DataFrame :=
  mkDF (df_index df)
       (map (fun nc =>
               (fst nc,
                if is_float (snd nc)
                then mkColumn float64
                       (map (fun x => match x with
                                      | Some (SNum q) => Some (SNum (fround decimals q))
                                      | _ => x
                                      end) (cells (snd nc)))
                else snd nc))
            (df_cols df)).

(** [df.rename(columns=mapping)]. *)
Definition rename_columns := rename.

End Pandas.

(** ** Exact arithmetic

    The instance of [Float64] in which nothing is rounded but what the
    program asks to round: the mean is the exact quotient, [round]
    goes to the nearest multiple of [10^-decimals] with ties to the
    even one, the edges are evenly spaced and the labels show them to
    three decimals.  It is what float64 computes up to its rounding
    errors, and serves to run the definitions. *)

Module Ideal.

Import Pandas.

Fixpoint Qsum (xs : list Q) : Q :=
  match xs with
  | [] => 0%Q
  | x :: xs' => (x + Qsum xs')%Q
  end.

Definition mean (xs : list Q) : Q :=
  Qred (Qsum xs / inject_Z (Z.of_nat (List.length xs))).

Definition round_half_even (decimals : nat) (q : Q) : Q :=
  let s := inject_Z (10 ^ Z.of_nat decimals) in
  let y := (q * s)%Q in
  let f := Qfloor y in
  let r := (y - inject_Z f)%Q in
  let n := if Qeq_bool r (1 # 2) then (if Z.even f then f else f + 1)%Z
           else if Qle_bool r (1 # 2) then f else (f + 1)%Z in
  Qred (inject_Z n / s).

Definition Qabs' (q : Q) : Q := if Qle_bool 0 q then q else Qopp q.

(** [np.linspace(lo, hi, n + 1)]. *)
Definition linspace (lo hi : Q) (n : nat) : list Q :=
  map (fun i => Qred (lo + inject_Z (Z.of_nat i) * ((hi - lo) / inject_Z (Z.of_nat n)))%Q)
      (seq 0 (S n)).

(** [n] bins of equal width over the range of the data, the range
    widened by 0.1% so that the minimum falls in the first bin. *)
Definition equal_width_edges (mn mx : Q) (n : nat) : list Q :=
  if Qeq_bool mn mx
  then
    let lo := (if Qeq_bool mn 0 then mn - (1 # 1000) else mn - (1 # 1000) * Qabs' mn)%Q in
    let hi := (if Qeq_bool mx 0 then mx + (1 # 1000) else mx + (1 # 1000) * Qabs' mx)%Q in
    linspace lo hi n
  else
    match linspace mn mx n with
    | e0 :: es => Qred (e0 - (mx - mn) * (1 # 1000))%Q :: es
    | [] => []
    end.

#[export] Instance arithmetic : Float64 := {
  fmean := mean;
  fround := round_half_even;
  cut_edge := fun mn mx n i => nth i (equal_width_edges mn mx n) 0%Q;
  label_edge := fun _ e => round_half_even 3 e
}.

End Ideal.

(** ** [pd.read_csv] *)

Module CSV.

Import PyStr Pandas.

(** The content of the CSV file once split into fields: the header and
    one list of fields per record. *)
Record RawCSV : Type := mkCSV {
  header : list string;
  records : list (list string)
}.

(** The markers pandas reads as NaN whatever [na_values] says. *)
Definition default_na_values : list string :=
  [ EmptyString; "#N/A"; "#N/A N/A"; "#NA"; "-1.#IND"; "-1.#QNAN"; "-NaN"; "-nan";
    "1.#IND"; "1.#QNAN"; "<NA>"; "N/A"; "NA"; "NULL"; "NaN"; "None"; "n/a"; "nan"; "null" ].

Definition is_na (na_values : list string) (field : string) : bool :=
  mem field na_values || mem field default_na_values.

Definition read_field_float (na_values : list string) (field : string) : cell :=
  if is_na na_values field then None else option_map SNum (to_float field).

Definition read_field_object (na_values : list string) (field : string) : cell :=
  if is_na na_values field then None else Some (SStr field).

(** A column whose fields are all numbers or NA markers is a float
    column; one field that is neither makes it a column of strings. *)
Definition read_column (na_values : list string) (fields : list string) : Column :=
  if forallb (fun f => is_na na_values f || notna (option_map SNum (to_float f))) fields
  then mkColumn float64 (map (read_field_float na_values) fields)
  else mkColumn object (map (read_field_object na_values) fields).

Definition read_csv (na_values : list string) (csv : RawCSV) : DataFrame :=
  mkDF []
       (map (fun j => (nth j (header csv) EmptyString,
                       read_column na_values
                         (map (fun r => nth j r EmptyString) (records csv))))
            (seq 0 (List.length (header csv)))).

End CSV.

(** ** plotly figures *)

Inductive PyVal : Type :=
| PStr (s : string)
| PInt (z : Z)
| PBool (b : bool).

Inductive ChartKind : Type := table_chart | scatter_chart | box_chart | bar_chart.

(** The specification of a chart: what kind it is, the frame it draws
    and how columns are mapped to its axes, colours and facets. *)
Record Figure : Type := mkFigure {
  fig_kind : ChartKind;
  fig_data : DataFrame;
  fig_x : option string;
  fig_y : option string;
  fig_color : option string;
  fig_facet_col : option string;
  fig_facet_col_wrap : option nat;
  fig_hover_data : list string;
  fig_labels : list (string * string);
  fig_barmode : option string;
  fig_color_discrete_map : list (string * string);
  fig_layout : list (string * PyVal)
}.

Module Plotly.

Import Pandas.
Local Open Scope result_scope.

Definition opt_list {A} (o : option A) : list A :=
  match o with Some a => [a] | None => [] end.

(** plotly express refuses a column name that the frame does not have. *)
Definition check_columns (df : DataFrame) (cols : list string) : Result unit :=
  _ <-? rmap (fun n =>
                if mem n (names (df_cols df)) then Ok tt
                else Raise (ValueError ("Value of argument is not the name of a column: " ++ n)))
             cols ;;
  Ok tt.

Definition express (kind : ChartKind) (df : DataFrame) (x y color facet_col : option string)
    (facet_col_wrap : option nat) (hover_data : list string) (labels : list (string * string))
    (barmode : option string) (color_discrete_map : list (string * string)) : Result Figure :=
  _ <-? check_columns df (opt_list x ++ opt_list y ++ opt_list color ++ opt_list facet_col
                          ++ hover_data)%list ;;
  Ok (mkFigure kind df x y color facet_col facet_col_wrap hover_data labels barmode
               color_discrete_map []).

(** [px.scatter(df, x=, y=, color=, hover_data=, labels=)]. *)
Definition scatter (df : DataFrame) (x y color : string) (hover_data : list string)
    (labels : list (string * string)) : Result Figure :=
  express scatter_chart df (Some x) (Some y) (Some color) None None hover_data labels None [].

(** [px.box(df, x=, y=, color=, labels=)]. *)
Definition box (df : DataFrame) (x y color : string) (labels : list (string * string))
  : Result Figure :=
  express box_chart df (Some x) (Some y) (Some color) None None [] labels None [].

(** [px.box(df, x=, y=, color=, facet_col=, facet_col_wrap=,
    color_discrete_map=, labels=)]. *)
Definition facet_box (df : DataFrame) (x y color facet_col : string) (wrap : nat)
    (color_discrete_map labels : list (string * string)) : Result Figure :=
  express box_chart df (Some x) (Some y) (Some color) (Some facet_col) (Some wrap) [] labels
          None color_discrete_map.

(** [px.bar(df, x=, y=, color=, barmode=, labels=)]. *)
Definition bar (df : DataFrame) (x y color barmode : string) (labels : list (string * string))
  : Result Figure :=
  express bar_chart df (Some x) (Some y) (Some color) None None [] labels (Some barmode) [].

(** [ff.create_table(df)]: the header and the rows of the frame. *)
Definition create_table (df : DataFrame) : Figure :=
  mkFigure table_chart df None None None None None [] [] None [] [].

(** [fig.update_layout(k1=v1, ...)]. *)
Definition update_layout (settings : list (string * PyVal)) (fig : Figure) : Figure :=
  mkFigure (fig_kind fig) (fig_data fig) (fig_x fig) (fig_y fig) (fig_color fig)
           (fig_facet_col fig) (fig_facet_col_wrap fig) (fig_hover_data fig) (fig_labels fig)
           (fig_barmode fig) (fig_color_discrete_map fig)
           (fold_left (fun d kv => store (fst kv) (snd kv) d) settings (fig_layout fig)).

End Plotly.

(** ** Dash components and the application object *)

Definition Style : Type := list (string * string).

Inductive Component : Type :=
| Div (style : Style) (children : list Component)
| H1 (text : string) (style : Style)
| H2 (text : string)
| H3 (text : string) (style : Style)
| H4 (text : string)
| Label (text : string)
| Hr
| Details (children : list Component)
| Summary (text : string)
| Markdown (text : string)
| Dropdown (id : string) (options : list (string * string)) (value : string)
| Graph (id : option string) (figure : option Figure).

(** [Output(id, prop)] and [Input(id, prop)]. *)
Definition Dependency : Type := (string * string)%type.

Record Callback : Type := mkCallback {
  cb_output : Dependency;
  cb_inputs : list Dependency;
  cb_function : string
}.

Record App : Type := mkApp {
  app_name : string;
  app_stylesheets : list string;
  app_layout : option Component;
  app_callbacks : list Callback
}.

(** ** Python objects, the heap of frames and the globals *)

Definition loc : Type := nat.

Inductive PyObj : Type :=
| PFrame (l : loc)
| PFigure (f : Figure)
| PList (l : list string)
| PText (s : string)
| PApp (a : App)
| PServer (of_app : string)
| PFunction (name : string).

Record State : Type := mkState {
  globals : list (string * PyObj);
  heap : list DataFrame
}.

Definition M (A : Type) : Type := State -> Result A * State.

Definition ret {A} (a : A) : M A := fun st => (Ok a, st).

Definition bind {A B} (m : M A) (k : A -> M B) : M B :=
  fun st =>
    match m st with
    | (Ok a, st') => k a st'
    | (Raise e, st') => (Raise e, st')
    end.

Definition raise {A} (e : PyError) : M A := fun st => (Raise e, st).

Definition lift {A} (r : Result A) : M A := fun st => (r, st).

Declare Scope py_scope.
Delimit Scope py_scope with py.
Notation "x <- m ;; k" := (bind m (fun x => k))
  (at level 61, m at next level, right associativity) : py_scope.
Notation "m ;;; k" := (bind m (fun _ => k))
  (at level 61, right associativity) : py_scope.

Fixpoint update_nth {A} (n : nat) (a : A) (l : list A) : list A :=
  match l, n with
  | [], _ => []
  | _ :: l', O => a :: l'
  | b :: l', S k => b :: update_nth k a l'
  end.

Module Py.

Local Open Scope py_scope.

(** Reading a name that no statement has bound raises [NameError]. *)
Definition get_global (name : string) : M PyObj :=
  fun st =>
    match lookup name (globals st) with
    | Some v => (Ok v, st)
    | None => (Raise (NameError name), st)
    end.

Definition set_global (name : string) (v : PyObj) : M unit :=
  fun st => (Ok tt, mkState (store name v (globals st)) (heap st)).

(** A new frame object. *)
Definition alloc (df : DataFrame) : M loc :=
  fun st => (Ok (List.length (heap st)), mkState (globals st) (heap st ++ [df])%list).

Definition read (l : loc) : M DataFrame :=
  fun st =>
    match nth_error (heap st) l with
    | Some df => (Ok df, st)
    | None => (Raise (ValueError "no such object"), st)
    end.

(** In-place change of the frame object at [l]. *)
Definition write (l : loc) (df : DataFrame) : M unit :=
  fun st => (Ok tt, mkState (globals st) (update_nth l df (heap st))).

Definition get_frame (name : string) : M loc :=
  v <- get_global name ;;
  match v with
  | PFrame l => ret l
  | _ => raise (TypeError (name ++ " is not a DataFrame"))
  end.

Definition get_figure (name : string) : M Figure :=
  v <- get_global name ;;
  match v with
  | PFigure f => ret f
  | _ => raise (TypeError (name ++ " is not a Figure"))
  end.

Definition get_list (name : string) : M (list string) :=
  v <- get_global name ;;
  match v with
  | PList l => ret l
  | _ => raise (TypeError (name ++ " is not a list"))
  end.

Definition get_text (name : string) : M string :=
  v <- get_global name ;;
  match v with
  | PText s => ret s
  | _ => raise (TypeError (name ++ " is not a str"))
  end.

Definition get_app (name : string) : M App :=
  v <- get_global name ;;
  match v with
  | PApp a => ret a
  | _ => raise (TypeError (name ++ " is not a Dash app"))
  end.

(** The frame a global name refers to. *)
Definition frame_of (name : string) : M DataFrame :=
  l <- get_frame name ;; read l.

(** [name = <a new frame>]. *)
Definition bind_frame (name : string) (df : DataFrame) : M unit :=
  l <- alloc df ;; set_global name (PFrame l).

End Py.

(** ** The script *)

Module Dashboard.

Import PyStr Pandas Plotly CSV Py.
Local Open Scope py_scope.

Definition na_values : list string :=
  [ "IAP"; "IAP,DK,NA,uncodeable"; "NOT SURE"; "DK"; "IAP, DK, NA, uncodeable"; ".a";
    "CAN'T CHOOSE" ].

Definition mycols : list string :=
  [ "id"; "wtss"; "sex"; "educ"; "region"; "age"; "coninc";
    "prestg10"; "mapres10"; "papres10"; "sei10"; "satjob";
    "fechld"; "fefam"; "fepol"; "fepresch"; "meovrwrk" ].

Definition rename_mapping : list (string * string) :=
  [ ("wtss", "weight"); ("educ", "education"); ("coninc", "income");
    ("prestg10", "job_prestige"); ("mapres10", "mother_job_prestige");
    ("papres10", "father_job_prestige"); ("sei10", "socioeconomic_index");
    ("fechld", "relationship"); ("fefam", "male_breadwinner");
    ("fehire", "hire_women"); ("fejobaff", "preference_hire_women");
    ("fepol", "men_bettersuited"); ("fepresch", "child_suffer");
    ("meovrwrk", "men_overwork") ].

Definition markdown_text : string :=
"
### The Gender Wage Gap

According to analysis from the [Pew Research Center](https://www.pewresearch.org/short-reads/2025/03/04/gender-pay-gap-in-us-has-narrowed-slightly-over-2-decades/), the gap has narrowed only slightly over the past two decades, with women earning about 82 cents for every dollar earned by men in 2022. Research from UVA's [Darden School of Business](https://news.darden.virginia.edu/2024/04/04/why-the-gender-pay-gap-persists-in-american-businesses/) suggests that factors such as differences in industry, work experience, and education levels contribute to this disparity, though a significant portion remains unexplained and may be attributed to gender discrimination.

### About the General Social Survey (GSS)

The data for this dashboard comes from the [General Social Survey (GSS)](https://gss.norc.org/us/en/gss/about-the-gss.html), one of the most influential social science projects in the United States. Since 1972, the GSS has collected data on American society to monitor and explain trends in attitudes, behaviors, and attributes. It is conducted by NORC at the University of Chicago and provides a wealth of information on a wide range of topics, making it an invaluable resource for understanding societal change.
".

Definition xaxis_options : list string :=
  [ "satjob"; "relationship"; "male_breadwinner"; "men_bettersuited"; "child_suffer";
    "men_overwork" ].

Definition color_options : list string := [ "sex"; "region"; "education" ].

Definition external_stylesheets : list string :=
  [ "https://codepen.io/chriddyp/pen/bWLwgP.css" ].

Section Script.

(** What [groupby] does with the categories of a categorical grouper
    that no row has: [observed=False] was the default of pandas until
    version 3, [observed=True] is the default since. *)
Variable observed : bool.

(** The name the module is imported under, [__name__]. *)
Variable module_name : string.

(** The float arithmetic of the installed numpy and pandas. *)
Context {fl : Float64}.

(** Lines 11 to 26: load and clean.  [csv] is the content of the file
    behind the URL. *)
Definition load_and_clean (csv : RawCSV) : M unit :=
  bind_frame "gss" (read_csv na_values csv) ;;;
  set_global "mycols" (PList mycols) ;;;
  (gss <- frame_of "gss" ;;
   cols <- get_list "mycols" ;;
   sel <- lift (select cols gss) ;;
   bind_frame "gss_clean" sel) ;;;
  (g <- frame_of "gss_clean" ;;
   bind_frame "gss_clean" (rename rename_mapping g)) ;;;
  (l <- get_frame "gss_clean" ;;
   g <- read l ;;
   age <- lift (column "age" g) ;;
   write l (setitem "age" (replace_values [("89 or older", "89")] age) g)) ;;;
  (l <- get_frame "gss_clean" ;;
   g <- read l ;;
   age <- lift (column "age" g) ;;
   age' <- lift (astype_float age) ;;
   write l (setitem "age" age' g)).

(** Lines 42 to 50: the table of means by sex. *)
Definition table_figure : M unit :=
  (g <- frame_of "gss_clean" ;;
   a <- lift (groupby_agg observed "sex"
                [ ("income", agg_mean); ("job_prestige", agg_mean);
                  ("socioeconomic_index", agg_mean); ("education", agg_mean) ] g) ;;
   r <- lift (reset_index (round 2 a)) ;;
   bind_frame "summary_df" r) ;;;
  (s <- frame_of "summary_df" ;;
   bind_frame "summary_df"
     (rename_columns
        [ ("sex", "Sex"); ("income", "Mean Income"); ("job_prestige", "Mean Job Prestige");
          ("socioeconomic_index", "Mean Socioeconomic Index");
          ("education", "Mean Education (Years)") ] s)) ;;;
  (s <- frame_of "summary_df" ;;
   set_global "table_fig" (PFigure (create_table s))).

(** Lines 53 to 56. *)
Definition scatter_figure : M unit :=
  (g <- frame_of "gss_clean" ;;
   sel <- lift (select [ "job_prestige"; "income"; "sex"; "education"; "socioeconomic_index" ] g) ;;
   bind_frame "scatter_data" (dropna sel)) ;;;
  (d <- frame_of "scatter_data" ;;
   f <- lift (scatter d "job_prestige" "income" "sex" [ "education"; "socioeconomic_index" ]
                (dict_of [ ("job_prestige", "Job Prestige Score"); ("income", "Annual Income");
                           ("sex", "Sex") ])) ;;
   set_global "scatter_fig" (PFigure f)).

(** Lines 59 to 63. *)
Definition box_figures : M unit :=
  (g <- frame_of "gss_clean" ;;
   sel <- lift (select [ "income"; "job_prestige"; "sex" ] g) ;;
   bind_frame "box_data" (dropna sel)) ;;;
  (d <- frame_of "box_data" ;;
   f <- lift (box d "sex" "income" "sex"
                (dict_of [ ("income", "Annual Income"); ("sex", EmptyString) ])) ;;
   set_global "income_boxplot_fig" (PFigure f)) ;;;
  (f <- get_figure "income_boxplot_fig" ;;
   set_global "income_boxplot_fig" (PFigure (update_layout [ ("showlegend", PBool false) ] f))) ;;;
  (d <- frame_of "box_data" ;;
   f <- lift (box d "sex" "job_prestige" "sex"
                (dict_of [ ("job_prestige", "Job Prestige Score"); ("sex", EmptyString) ])) ;;
   set_global "prestige_boxplot_fig" (PFigure f)) ;;;
  (f <- get_figure "prestige_boxplot_fig" ;;
   set_global "prestige_boxplot_fig" (PFigure (update_layout [ ("showlegend", PBool false) ] f))).

(** Lines 66 to 72.  Line 72 rewrites the text of the facet titles,
    which a chart specification does not hold. *)
Definition facet_figure : M unit :=
  (g <- frame_of "gss_clean" ;;
   sel <- lift (select [ "income"; "sex"; "job_prestige" ] g) ;;
   bind_frame "facet_df" sel) ;;;
  (l <- get_frame "facet_df" ;;
   d <- read l ;;
   jp <- lift (column "job_prestige" d) ;;
   c <- lift (cut_equal_width jp 6) ;;
   write l (setitem "prestige_category" c d)) ;;;
  (d <- frame_of "facet_df" ;;
   bind_frame "facet_df" (dropna d)) ;;;
  (d <- frame_of "facet_df" ;;
   f <- lift (facet_box d "sex" "income" "sex" "prestige_category" 2
                (dict_of [ ("male", "blue"); ("female", "red") ])
                (dict_of [ ("income", "Annual Income"); ("sex", EmptyString) ])) ;;
   set_global "facet_fig" (PFigure f)).

Definition static_figures : M unit :=
  set_global "markdown_text" (PText markdown_text) ;;;
  table_figure ;;; scatter_figure ;;; box_figures ;;; facet_figure.

Definition dark : Style := [ ("backgroundColor", "#111111"); ("color", "#7FDBFF") ].
Definition centered : Style := [ ("textAlign", "center") ].
Definition left_panel : Style := [ ("width", "24%"); ("float", "left"); ("padding", "1%") ].
Definition right_panel : Style := [ ("width", "72%"); ("float", "right"); ("padding", "1%") ].
Definition half : Style :=
  [ ("width", "49%"); ("display", "inline-block"); ("vertical-align", "top") ].

(** Lines 86 to 109, the expression assigned to [app.layout]. *)
Definition layout (markdown : string) (xaxis color : list string)
    (table_fig scatter_fig income_boxplot_fig prestige_boxplot_fig facet_fig : Figure)
  : Component :=
  Div dark
    [ H1 "GSS 2018: Gender, Occupation, and Income" centered;
      Div left_panel
        [ H3 "Dashboard Context & Controls" centered;
          Details [ Summary "About This Dashboard"; Markdown markdown ];
          Hr;
          H4 "Bar Plot Controls";
          Label "Select a Survey Question:";
          Dropdown "xaxis-dropdown"
                   (map (fun i => (title (replace "_" " " i), i)) xaxis)
                   "male_breadwinner";
          Label "Group By:";
          Dropdown "color-dropdown" (map (fun i => (title i, i)) color) "sex" ];
      Div right_panel
        [ H2 "Key Metrics by Gender"; Graph None (Some table_fig);
          H2 "Attitudes on Social Issues"; Graph (Some "interactive-bar-graph") None;
          H2 "Income vs. Job Prestige"; Graph None (Some scatter_fig);
          Div []
            [ Div half [ H2 "Income Distribution"; Graph None (Some income_boxplot_fig) ];
              Div half [ H2 "Job Prestige Distribution"; Graph None (Some prestige_boxplot_fig) ] ];
          H2 "Income by Job Prestige Level"; Graph None (Some facet_fig) ] ].

(** Lines 75 to 115: the option lists, the application object, its
    layout and the registration of the callback. *)
Definition build_app : M unit :=
  set_global "xaxis_options" (PList xaxis_options) ;;;
  set_global "color_options" (PList color_options) ;;;
  set_global "external_stylesheets" (PList external_stylesheets) ;;;
  (css <- get_list "external_stylesheets" ;;
   set_global "app" (PApp (mkApp module_name css None []))) ;;;
  (a <- get_app "app" ;;
   set_global "server" (PServer (app_name a))) ;;;
  (md <- get_text "markdown_text" ;;
   xo <- get_list "xaxis_options" ;;
   co <- get_list "color_options" ;;
   tf <- get_figure "table_fig" ;;
   sf <- get_figure "scatter_fig" ;;
   bi <- get_figure "income_boxplot_fig" ;;
   bp <- get_figure "prestige_boxplot_fig" ;;
   ff <- get_figure "facet_fig" ;;
   a <- get_app "app" ;;
   set_global "app"
     (PApp (mkApp (app_name a) (app_stylesheets a)
                  (Some (layout md xo co tf sf bi bp ff)) (app_callbacks a)))) ;;;
  (a <- get_app "app" ;;
   set_global "app"
     (PApp (mkApp (app_name a) (app_stylesheets a) (app_layout a)
                  (app_callbacks a
                   ++ [ mkCallback ("interactive-bar-graph", "figure")
                                   [ ("xaxis-dropdown", "value"); ("color-dropdown", "value") ]
                                   "update_graph" ])%list))) ;;;
  set_global "update_graph" (PFunction "update_graph").

(** Line 138. *)
Definition production_server : M unit :=
  a <- get_app "app_final" ;;
  set_global "server" (PServer (app_name a)).

(** The module, top to bottom. *)
Definition module (csv : RawCSV) : M unit :=
  load_and_clean csv ;;; static_figures ;;; build_app ;;; production_server.

Definition empty_state : State := mkState [] [].

(** Lines 116 to 135. *)
Definition update_graph (xaxis_col color_col : string) : M Figure :=
  g <- frame_of "gss_clean" ;;
  df <- alloc g ;;
  color_col_plot <-
    (if String.eqb color_col "education"
     then
       let bins := [ 0; 8; 12; 16; 25 ]%Q in
       let labels := [ "<9 years"; "9-12 years"; "13-16 years"; ">16 years" ] in
       d <- read df ;;
       education <- lift (column "education" d) ;;
       binned <- lift (cut education bins labels) ;;
       write df (setitem "education_binned" binned d) ;;;
       ret "education_binned"
     else ret color_col) ;;
  d <- read df ;;
  plot <- lift (dropna_subset [ xaxis_col; color_col_plot ] d) ;;
  df_plot <- alloc plot ;;
  d <- read df_plot ;;
  sizes <- lift (groupby_size observed [ xaxis_col; color_col_plot ] d) ;;
  grouped <- lift (series_reset_index "count" sizes) ;;
  grouped_df <- alloc grouped ;;
  d <- read grouped_df ;;
  fig <- lift (bar d xaxis_col "count" color_col_plot "group"
                 (dict_of [ (xaxis_col, title (replace "_" " " xaxis_col));
                            ("count", "Number of Respondents");
                            (color_col_plot, title (replace "_binned" EmptyString color_col)) ])) ;;
  ret (update_layout [ ("transition_duration", PInt 500); ("plot_bgcolor", PStr "#222222");
                       ("paper_bgcolor", PStr "#111111"); ("font_color", PStr "#FFFFFF") ] fig).

(** The script up to the registration of the callback: the state in
    which Dash can call [update_graph]. *)
Definition startup (csv : RawCSV) : M unit :=
  load_and_clean csv ;;; static_figures ;;; build_app.

(** *** The callback read without the heap

    [update_graph] only reads [gss_clean]; every frame it writes to is
    one it has made.  Its result is therefore a function of the two
    arguments and of the cleaned table, written here on frames as values
    and proved equal to [update_graph] below. *)

Local Open Scope result_scope.

Definition education_bins : list Q := [ 0; 8; 12; 16; 25 ]%Q.

Definition education_labels : list string :=
  [ "<9 years"; "9-12 years"; "13-16 years"; ">16 years" ].

(** Lines 117 to 124: the copy with its colour column. *)
Definition colored_frame (color_col : string) (g : DataFrame) : Result (DataFrame * string) :=
  if String.eqb color_col "education"
  then
    education <-? column "education" g ;;
    binned <-? cut education education_bins education_labels ;;
    Ok (setitem "education_binned" binned g, "education_binned")
  else Ok (g, color_col).

(** Lines 126 and 127. *)
Definition grouped_frame (xaxis_col color_col : string) (g : DataFrame) : Result DataFrame :=
  dc <-? colored_frame color_col g ;;
  plot <-? dropna_subset [ xaxis_col; snd dc ] (fst dc) ;;
  sizes <-? groupby_size observed [ xaxis_col; snd dc ] plot ;;
  series_reset_index "count" sizes.

Definition bar_figure (xaxis_col color_col : string) (g : DataFrame) : Result Figure :=
  dc <-? colored_frame color_col g ;;
  grouped <-? grouped_frame xaxis_col color_col g ;;
  fig <-? bar grouped xaxis_col "count" (snd dc) "group"
            (dict_of [ (xaxis_col, title (replace "_" " " xaxis_col));
                       ("count", "Number of Respondents");
                       (snd dc, title (replace "_binned" EmptyString color_col)) ]) ;;
  Ok (update_layout [ ("transition_duration", PInt 500); ("plot_bgcolor", PStr "#222222");
                      ("paper_bgcolor", PStr "#111111"); ("font_color", PStr "#FFFFFF") ] fig).

End Script.

(** *** The module level values as functions of the data

    Each name the script binds to a frame or a figure, as a function of
    what it is computed from.  The lemmas of [Startup] show that these
    are the values the statements above leave in the globals. *)

Section Values.

Variable observed : bool.
Context {fl : Float64}.

Local Open Scope result_scope.

(** Lines 11 to 26. *)
Definition gss_clean (csv : RawCSV) : Result DataFrame :=
  sel <-? select mycols (read_csv na_values csv) ;;
  let renamed := rename rename_mapping sel in
  age <-? column "age" renamed ;;
  let replaced := setitem "age" (replace_values [("89 or older", "89")] age) renamed in
  age1 <-? column "age" replaced ;;
  age2 <-? astype_float age1 ;;
  Ok (setitem "age" age2 replaced).

Definition summary_df (g : DataFrame) : Result DataFrame :=
  a <-? groupby_agg observed "sex"
          [ ("income", agg_mean); ("job_prestige", agg_mean);
            ("socioeconomic_index", agg_mean); ("education", agg_mean) ] g ;;
  r <-? reset_index (round 2 a) ;;
  Ok (rename_columns
        [ ("sex", "Sex"); ("income", "Mean Income"); ("job_prestige", "Mean Job Prestige");
          ("socioeconomic_index", "Mean Socioeconomic Index");
          ("education", "Mean Education (Years)") ] r).

Definition table_fig (g : DataFrame) : Result Figure :=
  s <-? summary_df g ;; Ok (create_table s).

Definition scatter_data (g : DataFrame) : Result DataFrame :=
  sel <-? select [ "job_prestige"; "income"; "sex"; "education"; "socioeconomic_index" ] g ;;
  Ok (dropna sel).

Definition scatter_fig (g : DataFrame) : Result Figure :=
  d <-? scatter_data g ;;
  scatter d "job_prestige" "income" "sex" [ "education"; "socioeconomic_index" ]
          (dict_of [ ("job_prestige", "Job Prestige Score"); ("income", "Annual Income");
                     ("sex", "Sex") ]).

Definition box_data (g : DataFrame) : Result DataFrame :=
  sel <-? select [ "income"; "job_prestige"; "sex" ] g ;;
  Ok (dropna sel).

Definition income_boxplot_fig (g : DataFrame) : Result Figure :=
  d <-? box_data g ;;
  f <-? box d "sex" "income" "sex"
          (dict_of [ ("income", "Annual Income"); ("sex", EmptyString) ]) ;;
  Ok (update_layout [ ("showlegend", PBool false) ] f).

Definition prestige_boxplot_fig (g : DataFrame) : Result Figure :=
  d <-? box_data g ;;
  f <-? box d "sex" "job_prestige" "sex"
          (dict_of [ ("job_prestige", "Job Prestige Score"); ("sex", EmptyString) ]) ;;
  Ok (update_layout [ ("showlegend", PBool false) ] f).

Definition facet_df (g : DataFrame) : Result DataFrame :=
  sel <-? select [ "income"; "sex"; "job_prestige" ] g ;;
  jp <-? column "job_prestige" sel ;;
  c <-? cut_equal_width jp 6 ;;
  Ok (dropna (setitem "prestige_category" c sel)).

Definition facet_fig (g : DataFrame) : Result Figure :=
  d <-? facet_df g ;;
  facet_box d "sex" "income" "sex" "prestige_category" 2
            (dict_of [ ("male", "blue"); ("female", "red") ])
            (dict_of [ ("income", "Annual Income"); ("sex", EmptyString) ]).

End Values.

(** The application object once the layout is set and the callback is
    registered. *)
Definition app (module_name : string) (table scatter income prestige facet : Figure) : App :=
  mkApp module_name external_stylesheets
        (Some (layout markdown_text xaxis_options color_options
                      table scatter income prestige facet))
        [ mkCallback ("interactive-bar-graph", "figure")
                     [ ("xaxis-dropdown", "value"); ("color-dropdown", "value") ]
                     "update_graph" ].

(** What holds of the state a run ends in, when it ends without an
    exception. *)
Definition on_success {A} (run : Result A * State) (P : A -> State -> Prop) : Prop :=
  match run with
  | (Ok a, st) => P a st
  | (Raise _, _) => True
  end.

(** The global names that hold a figure. *)
Definition figures_in (st : State) : list string :=
  flat_map (fun nv => match snd nv with
                      | PFigure _ => [ fst nv ]
                      | _ => []
                      end) (globals st).

(** The table the global [gss_clean] refers to. *)
Definition gss_clean_frame (st : State) : option DataFrame :=
  match lookup "gss_clean" (globals st) with
  | Some (PFrame l) => nth_error (heap st) l
  | _ => None
  end.

Definition figure_named (name : string) (st : State) : option Figure :=
  match lookup name (globals st) with
  | Some (PFigure f) => Some f
  | _ => None
  end.

Definition app_of (st : State) : option App :=
  match lookup "app" (globals st) with
  | Some (PApp a) => Some a
  | _ => None
  end.

(** All the columns of a frame have its number of rows. *)
Definition well_formed (df : DataFrame) : bool :=
  forallb (fun nc => (List.length (cells (snd nc)) =? n_rows df)%nat) (df_cols df).

End Dashboard.

(** ** The Dash runtime: properties of the page and the firing of callbacks *)

Module Dash.

Import Py.
Local Open Scope py_scope.

Fixpoint components (c : Component) : list Component :=
  c :: match c with
       | Div _ children => flat_map components children
       | Details children => flat_map components children
       | _ => []
       end.

Inductive PropVal : Type :=
| VText (s : string)
| VFigure (f : Figure).

(** Dash names a property [id.prop]. *)
Definition prop_key (d : Dependency) : string := fst d ++ "." ++ snd d.

Definition own_props (c : Component) : list (string * PropVal) :=
  match c with
  | Dropdown id _ v => [ (prop_key (id, "value"), VText v) ]
  | Graph (Some id) (Some f) => [ (prop_key (id, "figure"), VFigure f) ]
  | _ => []
  end.

(** The properties of the page as the layout sets them. *)
Definition initial_props (layout : Component) : list (string * PropVal) :=
  flat_map own_props (components layout).

Definition dropdowns (layout : Component)
  : list (string * list (string * string) * string) :=
  flat_map (fun c => match c with
                     | Dropdown id options v => [ (id, options, v) ]
                     | _ => []
                     end) (components layout).

Definition graphs (layout : Component) : list (option string * option Figure) :=
  flat_map (fun c => match c with
                     | Graph id f => [ (id, f) ]
                     | _ => []
                     end) (components layout).

Section Runtime.

Variable observed : bool.

(** The functions a callback can name: the script defines one. *)
Definition call_function (name : string) (args : list PropVal) : M PropVal :=
  if String.eqb name "update_graph"
  then
    match args with
    | [ VText xaxis_col; VText color_col ] =>
        f <- Dashboard.update_graph observed xaxis_col color_col ;;
        ret (VFigure f)
    | _ => raise (TypeError "update_graph() takes 2 positional arguments")
    end
  else raise (NameError name).

(** One callback: its function is called on the current values of its
    inputs, and what it returns replaces the output property. *)
Definition run_callback (cb : Callback) (page : list (string * PropVal))
  : M (list (string * PropVal)) :=
  args <- lift (rmap (fun d => match lookup (prop_key d) page with
                               | Some v => Ok v
                               | None => Raise (KeyError (prop_key d))
                               end) (cb_inputs cb)) ;;
  v <- call_function (cb_function cb) args ;;
  ret (store (prop_key (cb_output cb)) v page).

Fixpoint run_callbacks (cbs : list Callback) (page : list (string * PropVal))
  : M (list (string * PropVal)) :=
  match cbs with
  | [] => ret page
  | cb :: cbs' => page' <- run_callback cb page ;; run_callbacks cbs' page'
  end.

Definition dep_eqb (a b : Dependency) : bool :=
  String.eqb (fst a) (fst b) && String.eqb (snd a) (snd b).

Definition triggered (changed : Dependency) (app : App) : list Callback :=
  filter (fun cb => existsb (dep_eqb changed) (cb_inputs cb)) (app_callbacks app).

(** The user changes a property: the callbacks that list it as an input
    fire. *)
Definition on_change (app : App) (changed : Dependency) (v : PropVal)
    (page : list (string * PropVal)) : M (list (string * PropVal)) :=
  run_callbacks (triggered changed app) (store (prop_key changed) v page).

(** When the page loads, Dash calls every callback once, on the
    properties the layout sets; an application without a layout cannot
    be served. *)
Definition on_load (app : App) : M (list (string * PropVal)) :=
  match app_layout app with
  | Some l => run_callbacks (app_callbacks app) (initial_props l)
  | None => raise (ValueError "The layout was None at the time that run was called")
  end.

End Runtime.

End Dash.

(** ** The vocabulary of the specification

    What the specification says of the tables, written on row numbers:
    the cell of a column in a row, the rows a value occurs in, the rows
    left after a drop. *)

Module Spec.

Import Pandas.

Definition cell_at (name : string) (df : DataFrame) (i : nat) : cell :=
  match lookup name (df_cols df) with
  | Some c => nth i (cells c) None
  | None => None
  end.

(** The cell holds the value [v]. *)
Definition cell_is (v : scalar) (c : cell) : bool :=
  match c with
  | Some a => scalar_eqb v a
  | None => false
  end.

(** The rows that are missing neither in column [x] nor in column
    [color]. *)
Definition remaining (x color : string) (df : DataFrame) : list nat :=
  filter (fun i => notna (cell_at x df i) && notna (cell_at color df i)) (seq 0 (n_rows df)).

(** The number of remaining rows with exactly the two values. *)
Definition rows_with (x color : string) (df : DataFrame) (xv cv : scalar) : nat :=
  List.length (filter (fun i => cell_is xv (cell_at x df i) && cell_is cv (cell_at color df i))
                      (remaining x color df)).

Definition dtype_at (name : string) (df : DataFrame) : dtype :=
  match lookup name (df_cols df) with
  | Some c => col_dtype c
  | None => object
  end.

(** The keys [groupby] finds in the remaining rows, in its order. *)
Definition plot_index (observed : bool) (x color : string) (df : DataFrame)
  : list (list scalar) :=
  group_index observed
    [ mkColumn (dtype_at x df) (map (cell_at x df) (remaining x color df));
      mkColumn (dtype_at color df) (map (cell_at color df) (remaining x color df)) ]
    (List.length (remaining x color df)).

(** The frame with one row per key and the columns [x], [color] and
    [count]: what [size().reset_index(name='count')] returns on the
    remaining rows. *)
Definition grouped (x color : string) (df : DataFrame) (index : list (list scalar))
  : DataFrame :=
  mkDF []
    [ (x, mkColumn (dtype_at x df) (map (fun k => nth_error k 0) index));
      (color, mkColumn (dtype_at color df) (map (fun k => nth_error k 1) index));
      ("count",
       mkColumn int64
         (map (fun k => Some (SNum (inject_Z (Z.of_nat
                 (group_size (map (fun j => [cell_at x df j; cell_at color df j])
                                  (remaining x color df)) k)))))
              index)) ].

(** The rows that are missing in none of the listed columns. *)
Definition complete (cols : list string) (df : DataFrame) : list nat :=
  filter (fun i => forallb (fun c => notna (cell_at c df i)) cols) (seq 0 (n_rows df)).

(** The cell holds the count [n]. *)
Definition count_cell (n : nat) : cell := Some (SNum (inject_Z (Z.of_nat n))).

Definition number (c : cell) : option Q :=
  match c with
  | Some (SNum q) => Some q
  | _ => None
  end.

(** The rows whose [key] is [k]. *)
Definition rows_where (key : string) (k : scalar) (df : DataFrame) : list nat :=
  filter (fun i => cell_is k (cell_at key df i)) (seq 0 (n_rows df)).

(** The numbers column [col] holds in the rows [rows], in their order;
    a missing value contributes nothing. *)
Definition numbers_at (col : string) (df : DataFrame) (rows : list nat) : list Q :=
  flat_map (fun i => match cell_at col df i with
                     | Some (SNum q) => [ q ]
                     | _ => []
                     end) rows.

(** The numbers of column [col] in the rows whose [key] is [k]. *)
Definition group_values (key : string) (k : scalar) (col : string) (df : DataFrame) : list Q :=
  numbers_at col df (rows_where key k df).

(** The mean of the numbers [vs] rounded to [decimals] places; missing
    when there is no number. *)
Definition rounded_mean {fl : Float64} (decimals : nat) (vs : list Q) : cell :=
  match vs with
  | [] => None
  | _ => Some (SNum (fround decimals (fmean vs)))
  end.

(** The table [t] holds in each row a sex that occurs in [g] and, for
    that sex, the rounded means of the four columns over the rows of
    [g] with that sex. *)
Definition means_by_sex {fl : Float64} (g t : DataFrame) : Prop :=
  forall i, i < n_rows t ->
    exists s,
      cell_at "Sex" t i = Some s /\
      (exists j, j < n_rows g /\ cell_at "sex" g j = Some s) /\
      cell_at "Mean Income" t i = rounded_mean 2 (group_values "sex" s "income" g) /\
      cell_at "Mean Job Prestige" t i =
        rounded_mean 2 (group_values "sex" s "job_prestige" g) /\
      cell_at "Mean Socioeconomic Index" t i =
        rounded_mean 2 (group_values "sex" s "socioeconomic_index" g) /\
      cell_at "Mean Education (Years)" t i =
        rounded_mean 2 (group_values "sex" s "education" g).

(** Every sex of [g] has a row in the table [t]. *)
Definition every_sex_listed (g t : DataFrame) : Prop :=
  forall j s, j < n_rows g -> cell_at "sex" g j = Some s ->
    exists i s', i < n_rows t /\ cell_at "Sex" t i = Some s' /\ scalar_eqb s' s = true.

(** [m] is the least, the greatest, of the numbers [vs]. *)
Definition least (vs : list Q) (m : Q) : Prop :=
  In m vs /\ forall v, In v vs -> (m <= v)%Q.

Definition greatest (vs : list Q) (m : Q) : Prop :=
  In m vs /\ forall v, In v vs -> (v <= m)%Q.

(** [q] lies in the [k]-th bin of the edges, the interval from the
    [k]-th edge, excluded, to the next one, included. *)
Definition in_bin (edges : list Q) (k : nat) (q : Q) : bool :=
  match nth_error edges k, nth_error edges (S k) with
  | Some lo, Some hi => negb (Qle_bool q lo) && Qle_bool q hi
  | _, _ => false
  end.

(** The cell holds a number that lies in one of the bins. *)
Definition binned (edges : list Q) (c : cell) : bool :=
  match c with
  | Some (SNum q) => existsb (fun k => in_bin edges k q) (seq 0 (List.length edges - 1))
  | _ => false
  end.

(** The rows the faceted plot draws: income and sex are known and the
    job prestige score lies in one of the bins. *)
Definition faceted (edges : list Q) (df : DataFrame) : list nat :=
  filter (fun i => notna (cell_at "income" df i) && notna (cell_at "sex" df i)
                   && binned edges (cell_at "job_prestige" df i))
         (seq 0 (n_rows df)).

(** An education of exactly 0 years, or of more than 25. *)
Definition outside_bins (c : cell) : bool :=
  match c with
  | Some (SNum q) => Qeq_bool q 0 || negb (Qle_bool q 25)
  | _ => false
  end.

(** The seventeen columns kept, each with the name it has in the source
    file and the name it has after cleaning. *)
Definition cleaned_columns : list (string * string) :=
  [ ("id", "id"); ("wtss", "weight"); ("sex", "sex"); ("educ", "education");
    ("region", "region"); ("age", "age"); ("coninc", "income");
    ("prestg10", "job_prestige"); ("mapres10", "mother_job_prestige");
    ("papres10", "father_job_prestige"); ("sei10", "socioeconomic_index");
    ("satjob", "satjob"); ("fechld", "relationship"); ("fefam", "male_breadwinner");
    ("fepol", "men_bettersuited"); ("fepresch", "child_suffer");
    ("meovrwrk", "men_overwork") ].

(** What cleaning makes of a cell of the age column. *)
Definition cleaned_age (c : cell) : option cell :=
  match c with
  | None => Some None
  | Some (SNum q) => Some (Some (SNum q))
  | Some (SStr s) =>
      if String.eqb s "89 or older" then Some (Some (SNum 89))
      else option_map (fun q => Some (SNum q)) (PyStr.to_float s)
  | Some (SCat _) => None
  end.

(** The bin of a number of years of education, for the right-closed
    bins (0,8], (8,12], (12,16] and (16,25]. *)
Definition education_bin (q : Q) : option nat :=
  if Qle_bool q 0 then None
  else if Qle_bool q 8 then Some 0
  else if Qle_bool q 12 then Some 1
  else if Qle_bool q 16 then Some 2
  else if Qle_bool q 25 then Some 3
  else None.

(** What the callback needs of the cleaned table: its columns have one
    length, its categorical codes are in range, the columns the
    dropdowns name exist and the years of education are numbers. *)
Record ready (g : DataFrame) : Prop := {
  ready_wf : Dashboard.well_formed g = true;
  ready_typed : forall n c, column n g = Ok c -> typed c = true;
  ready_plain : forall n c, column n g = Ok c -> is_categorical c = false;
  ready_xaxis : forall x, In x Dashboard.xaxis_options -> exists X, column x g = Ok X;
  ready_color : forall c, In c [ "sex"; "region" ] -> exists C, column c g = Ok C;
  ready_education : exists educ xs,
      column "education" g = Ok educ /\ as_numeric educ = Ok xs;
  ready_names : names (df_cols g) = map snd cleaned_columns
}.

End Spec.

(** ** A small survey file, for running the definitions *)

Module Sample.

Import CSV Ideal.

Definition csv : RawCSV :=
  mkCSV
    ([ "year" ] ++ Dashboard.mycols ++ [ "fehire" ])%list
    [ [ "2018"; "1"; "2.5"; "male"; "14"; "new england"; "43"; "50000";
        "47"; "31"; "45"; "65.3"; "very satisfied";
        "strongly agree"; "disagree"; "agree"; "disagree"; "agree"; "IAP" ];
      [ "2018"; "2"; "1"; "female"; "0"; "pacific"; "89 or older"; "22782.5";
        "22"; "IAP"; "52"; "14.8"; "IAP";
        "agree"; "agree"; "DK"; "strongly disagree"; "neither agree nor disagree"; "agree" ];
      [ "2018"; "3"; "1.5"; "female"; "16"; "pacific"; "30"; "61000";
        "64"; "40"; ".a"; "70.1"; "very satisfied";
        "agree"; "disagree"; "disagree"; "disagree"; "agree"; "agree" ];
      [ "2018"; "4"; "0.5"; "female"; "20"; "mountain"; "51"; "IAP";
        "80"; "55"; "60"; "88"; "moderately satisfied";
        "strongly agree"; "strongly disagree"; "disagree"; "CAN'T CHOOSE"; "disagree"; "IAP" ];
      [ "2018"; "5"; "1"; "male"; "12"; "mountain"; "27"; "33000.25";
        "16"; "IAP"; "30"; "21.5"; "a little dissatisfied";
        "disagree"; "agree"; "NOT SURE"; "agree"; "agree"; "disagree" ];
      [ "2018"; "6"; "1"; "male"; "IAP"; "pacific"; "60"; "45000";
        "35"; "28"; "33"; "40"; "very satisfied";
        "agree"; "disagree"; "agree"; "agree"; "IAP, DK, NA, uncodeable"; "agree" ] ].

(** The state the script leaves on this file, short of its last line. *)
Definition state : State :=
  snd (Dashboard.startup true "app" csv Dashboard.empty_state).

(** The cleaned table of this file. *)
Definition table : DataFrame :=
  match Dashboard.gss_clean_frame state with
  | Some g => g
  | None => mkDF [] []
  end.

(** The state after the cleaning alone. *)
Definition cleaned_state : State :=
  snd (Dashboard.load_and_clean csv Dashboard.empty_state).

(** The page as the layout sets it, once the user has picked values in
    both dropdowns. *)
Definition page : list (string * Dash.PropVal) :=
  [ ("xaxis-dropdown.value", Dash.VText "satjob");
    ("color-dropdown.value", Dash.VText "region") ].

End Sample.

Unset Implicit Arguments.

(** * Verification *)

(** ** Dictionaries and the heap *)

Section Stores.

Context {A : Type}.

Lemma lookup_store_eq (n : string) (v : A) (l : list (string * A)) :
  lookup n (store n v l) = Some v.
Proof.
  induction l as [|[m w] l IH]; simpl.
  - now rewrite String.eqb_refl.
  - destruct (String.eqb m n) eqn:E; simpl; rewrite E; auto.
Qed.

Lemma lookup_store_ne (n m : string) (v : A) (l : list (string * A)) :
  m <> n -> lookup n (store m v l) = lookup n l.
Proof.
  intros Hne. induction l as [|[k w] l IH]; simpl.
  - apply String.eqb_neq in Hne. now rewrite Hne.
  - destruct (String.eqb k m) eqn:E; simpl.
    + apply String.eqb_eq in E. subst k.
      apply String.eqb_neq in Hne. now rewrite Hne.
    + destruct (String.eqb k n); auto.
Qed.

Lemma names_store_in (n : string) (v : A) (l : list (string * A)) (m : string) :
  In m (names (store n v l)) <-> m = n \/ In m (names l).
Proof.
  unfold names. induction l as [|[k w] l IH]; simpl.
  - intuition.
  - destruct (String.eqb k n) eqn:E; simpl.
    + apply String.eqb_eq in E. subst. intuition.
    + rewrite IH. intuition.
Qed.

Lemma lookup_in_names (n : string) (l : list (string * A)) :
  In n (names l) <-> lookup n l <> None.
Proof.
  unfold names. induction l as [|[k w] l IH]; simpl.
  - intuition.
  - destruct (String.eqb k n) eqn:E.
    + apply String.eqb_eq in E. subst. split; [discriminate | auto].
    + apply String.eqb_neq in E. rewrite <- IH. intuition.
Qed.

Lemma mem_In (s : string) (l : list string) : mem s l = true <-> In s l.
Proof.
  unfold mem. rewrite existsb_exists. split.
  - intros (x & Hx & E). apply String.eqb_eq in E. now subst.
  - intros H. exists s. split; auto. apply String.eqb_refl.
Qed.

Lemma update_nth_app (h ext : list A) (k : nat) (a : A) :
  update_nth (List.length h + k) a (h ++ ext) = (h ++ update_nth k a ext)%list.
Proof. induction h; simpl; [reflexivity | now rewrite IHh]. Qed.

Lemma nth_error_ext (h ext : list A) (k : nat) :
  nth_error (h ++ ext) (List.length h + k) = nth_error ext k.
Proof. induction h; simpl; auto. Qed.

End Stores.

(** ** Running statements

    States are kept in the shape [mkState gl (h ++ ext)]: [h] is the
    heap the run started from, [ext] the objects made since. *)

Module Run.

Import Py.

Lemma alloc_ext gl h ext d :
  alloc d (mkState gl (h ++ ext)) =
  (Ok (List.length h + List.length ext), mkState gl (h ++ (ext ++ [d]))).
Proof. unfold alloc; simpl. now rewrite length_app, app_assoc. Qed.

Lemma read_ext gl h ext k :
  read (List.length h + k) (mkState gl (h ++ ext)) =
  match nth_error ext k with
  | Some d => (Ok d, mkState gl (h ++ ext))
  | None => (Raise (ValueError "no such object"), mkState gl (h ++ ext))
  end.
Proof. unfold read; simpl. now rewrite nth_error_ext. Qed.

Lemma read_old gl h ext l g :
  nth_error h l = Some g ->
  read l (mkState gl (h ++ ext)) = (Ok g, mkState gl (h ++ ext)).
Proof.
  intros H. unfold read; simpl.
  rewrite nth_error_app1, H; auto.
  apply nth_error_Some. congruence.
Qed.

Lemma write_ext gl h ext k d :
  write (List.length h + k) d (mkState gl (h ++ ext)) =
  (Ok tt, mkState gl (h ++ update_nth k d ext)).
Proof. unfold write; simpl. now rewrite update_nth_app. Qed.

Lemma get_global_eq n gl hp :
  get_global n (mkState gl hp) =
  match lookup n gl with
  | Some v => (Ok v, mkState gl hp)
  | None => (Raise (NameError n), mkState gl hp)
  end.
Proof. reflexivity. Qed.

Lemma set_global_eq n v gl hp :
  set_global n v (mkState gl hp) = (Ok tt, mkState (store n v gl) hp).
Proof. reflexivity. Qed.

Lemma bind_eq {A B} (m : M A) (k : A -> M B) st :
  bind m k st = match m st with
                | (Ok a, st') => k a st'
                | (Raise e, st') => (Raise e, st')
                end.
Proof. reflexivity. Qed.

Lemma bind_lift {A B} (r : Result A) (k : A -> M B) st :
  bind (lift r) k st = match r with
                       | Ok a => k a st
                       | Raise e => (Raise e, st)
                       end.
Proof. now destruct r. Qed.

Lemma ret_eq {A} (a : A) st : ret a st = (Ok a, st).
Proof. reflexivity. Qed.

Lemma raise_eq {A} e st : @raise A e st = (Raise e, st).
Proof. reflexivity. Qed.

End Run.

Ltac name_neq := let H := fresh in intro H; discriminate H.

(** One step of a run: unfold the statement at the head, use what is
    known of the globals and of the heap, and split on the outcome of a
    pandas or plotly call. *)
Ltac run_step :=
  first
    [ match goal with
      | |- context [bind (lift ?r) ?k ?st] =>
          rewrite (Run.bind_lift r k st);
          let E := fresh "E" in destruct r eqn:E
      end
    | rewrite Run.bind_eq
    | rewrite Run.ret_eq
    | rewrite Run.raise_eq
    | rewrite Run.alloc_ext
    | rewrite Run.read_ext
    | rewrite Run.write_ext
    | rewrite Run.get_global_eq
    | rewrite Run.set_global_eq
    | rewrite lookup_store_eq
    | rewrite lookup_store_ne by name_neq
    | match goal with
      | H : lookup ?n ?gl = _ |- context [lookup ?n ?gl] => rewrite H
      | H : nth_error ?h ?l = Some _ |- context [Py.read ?l (mkState _ (?h ++ _))] =>
          erewrite Run.read_old by exact H
      end
    | progress cbn [fst snd globals heap List.length nth_error update_nth app Nat.add] ].

Ltac run := repeat run_step.

Module UpdateGraph.

Import Pandas Plotly Py Dashboard.

Lemma run_pure observed x c gl h l g :
  lookup "gss_clean" gl = Some (PFrame l) ->
  nth_error h l = Some g ->
  exists ext,
    update_graph observed x c (mkState gl h) =
    (bar_figure observed x c g, mkState gl (h ++ ext)).
Proof.
  intros Hl Hg.
  replace (mkState gl h) with (mkState gl (h ++ [])) by now rewrite app_nil_r.
  unfold update_graph, frame_of, get_frame.
  destruct (String.eqb c "education") eqn:Ec; run.
  all: unfold bar_figure, grouped_frame, colored_frame, education_bins, education_labels, rbind.
  all: rewrite Ec.
  all: repeat match goal with H : ?x = _ |- context [?x] => rewrite H end.
  all: cbn [fst snd].
  all: repeat match goal with H : ?x = _ |- context [?x] => rewrite H end.
  all: eexists; reflexivity.
Qed.

End UpdateGraph.

(** ** Lists, columns and frames *)

Module Facts.

Import Pandas Spec.

Lemma scalar_eqb_refl a : scalar_eqb a a = true.
Proof.
  destruct a; simpl.
  - apply String.eqb_refl.
  - apply Qeq_bool_refl.
  - apply Nat.eqb_refl.
Qed.

Lemma scalar_eqb_sym a b : scalar_eqb a b = scalar_eqb b a.
Proof.
  destruct a, b; simpl; auto.
  - apply String.eqb_sym.
  - apply Qeq_bool_comm.
  - apply Nat.eqb_sym.
Qed.

Lemma rmap_length {A B} (f : A -> Result B) l bs :
  rmap f l = Ok bs -> List.length bs = List.length l.
Proof.
  revert bs. induction l as [|a l IH]; simpl; intros bs H.
  - now inversion H.
  - destruct (f a); [|discriminate].
    destruct (rmap f l); [|discriminate].
    inversion H; subst; simpl. now rewrite (IH _ eq_refl).
Qed.

Lemma rmap_map {A B} (f : A -> Result B) (g : A -> B) l :
  (forall a, In a l -> f a = Ok (g a)) -> rmap f l = Ok (map g l).
Proof.
  induction l as [|a l IH]; simpl; intros H; auto.
  rewrite (H a) by auto. rewrite IH; auto.
Qed.

Lemma rmap_inv {A B} (f : A -> Result B) l bs :
  rmap f l = Ok bs -> Forall2 (fun a b => f a = Ok b) l bs.
Proof.
  revert bs. induction l as [|a l IH]; simpl; intros bs H.
  - inversion H. constructor.
  - destruct (f a) eqn:E; [|discriminate].
    destruct (rmap f l); [|discriminate].
    inversion H; subst. constructor; auto.
Qed.

Lemma as_numeric_cells c xs :
  as_numeric c = Ok xs -> xs = map number (cells c).
Proof.
  unfold as_numeric. intros H.
  assert (G : rmap (fun x : cell =>
                      match x with
                      | None => Ok None
                      | Some (SNum q) => Ok (Some q)
                      | Some _ => Raise (TypeError "unsupported operand type: str")
                      end) (cells c) = Ok xs)
    by (destruct (col_dtype c); try discriminate; exact H).
  clear H. revert xs G. induction (cells c) as [|x l IH]; simpl; intros xs G.
  - now inversion G.
  - destruct x as [[s|q|k]|]; try discriminate.
    + destruct (rmap _ l); [|discriminate]. inversion G; subst.
      simpl. now rewrite (IH _ eq_refl).
    + destruct (rmap _ l); [|discriminate]. inversion G; subst.
      simpl. now rewrite (IH _ eq_refl).
Qed.

Lemma cut_cells c bins labels b :
  cut c bins labels = Ok b ->
  b = mkColumn (category (map LStr labels)) (map (cut_cell bins) (map number (cells c))).
Proof.
  unfold cut, rbind. destruct (as_numeric c) as [xs|] eqn:E; [|discriminate].
  apply as_numeric_cells in E. subst xs.
  destruct (negb (increasing bins)); [discriminate|].
  destruct (negb _); [discriminate|].
  now inversion 1.
Qed.

Lemma cut_ok c xs :
  as_numeric c = Ok xs ->
  exists b, cut c Dashboard.education_bins Dashboard.education_labels = Ok b.
Proof.
  intros E. unfold cut, rbind. rewrite E. eexists. reflexivity.
Qed.

Lemma filter_mask_map {A B} (p : A -> bool) (f : A -> B) l :
  filter_mask (map p l) (map f l) = map f (filter p l).
Proof.
  induction l as [|a l IH]; simpl; auto.
  destruct (p a); simpl; now rewrite IH.
Qed.

Lemma map_nth_seq {A} (l : list A) (d : A) :
  map (fun i => nth i l d) (seq 0 (List.length l)) = l.
Proof.
  induction l as [|a l IH]; simpl; auto.
  f_equal. rewrite <- seq_shift, map_map. exact IH.
Qed.

Lemma nth_map_lt {A B} (f : A -> B) (l : list A) i (d : B) (d' : A) :
  i < List.length l -> nth i (map f l) d = f (nth i l d').
Proof.
  intros H. rewrite (nth_indep _ d (f d')) by now rewrite length_map.
  apply map_nth.
Qed.

Lemma lookup_map {A B} (f : A -> B) n (l : list (string * A)) :
  lookup n (map (fun nc => (fst nc, f (snd nc))) l) = option_map f (lookup n l).
Proof.
  induction l as [|[m a] l IH]; simpl; auto.
  destruct (String.eqb m n); auto.
Qed.

Lemma lookup_In {A} n (l : list (string * A)) a :
  lookup n l = Some a -> In (n, a) l.
Proof.
  induction l as [|[m b] l IH]; simpl; [discriminate|].
  destruct (String.eqb m n) eqn:E.
  - apply String.eqb_eq in E. inversion 1; subst. auto.
  - auto.
Qed.

Lemma column_lookup n d c : column n d = Ok c <-> lookup n (df_cols d) = Some c.
Proof.
  unfold column. destruct (lookup n (df_cols d)); split; congruence.
Qed.

Lemma cell_at_column n d c i :
  column n d = Ok c -> cell_at n d i = nth i (cells c) None.
Proof.
  intros H. apply column_lookup in H. unfold cell_at. now rewrite H.
Qed.

Lemma well_formed_length d n c :
  Dashboard.well_formed d = true -> column n d = Ok c ->
  List.length (cells c) = n_rows d.
Proof.
  unfold Dashboard.well_formed. intros W H.
  apply column_lookup, lookup_In in H.
  rewrite forallb_forall in W. specialize (W _ H). simpl in W.
  now apply Nat.eqb_eq in W.
Qed.

Lemma column_cells n d c :
  Dashboard.well_formed d = true -> column n d = Ok c ->
  cells c = map (cell_at n d) (seq 0 (n_rows d)).
Proof.
  intros W H. rewrite <- (well_formed_length _ _ _ W H).
  rewrite <- (map_nth_seq (cells c) None) at 1.
  apply map_ext. intros i. symmetry. now apply cell_at_column.
Qed.

(** *** [dropna] on two columns *)

Section Drop.

Variables (d : DataFrame) (x y : string) (X Y : Column).
Hypothesis W : Dashboard.well_formed d = true.
Hypothesis HX : column x d = Ok X.
Hypothesis HY : column y d = Ok Y.

Lemma dropna_two :
  dropna_subset [x; y] d =
  Ok (filter_rows
        (map (fun i => notna (cell_at x d i) && notna (cell_at y d i)) (seq 0 (n_rows d)))
        d).
Proof.
  unfold dropna_subset, rbind. simpl. rewrite HX, HY.
  do 2 f_equal. unfold rows_of. rewrite map_map.
  apply map_ext. intros i. simpl.
  rewrite (cell_at_column _ _ _ _ HX), (cell_at_column _ _ _ _ HY).
  now rewrite andb_true_r.
Qed.

Lemma column_filter_rows (p : nat -> bool) n c :
  column n d = Ok c ->
  column n (filter_rows (map p (seq 0 (n_rows d))) d) =
  Ok (mkColumn (col_dtype c) (map (cell_at n d) (filter p (seq 0 (n_rows d))))).
Proof.
  intros H. unfold column, filter_rows. simpl.
  rewrite (lookup_map (fun c => mkColumn (col_dtype c) (filter_mask _ (cells c)))).
  apply column_lookup in H as H'. rewrite H'. simpl.
  rewrite (column_cells _ _ _ W H). now rewrite filter_mask_map.
Qed.

Lemma n_rows_filter_rows (p : nat -> bool) :
  n_rows (filter_rows (map p (seq 0 (n_rows d))) d) =
  List.length (filter p (seq 0 (n_rows d))).
Proof.
  apply column_lookup in HX as H'.
  unfold n_rows at 1, filter_rows. simpl.
  destruct (df_cols d) as [|[m c] l] eqn:E; [discriminate|].
  simpl.
  assert (Hc : column m d = Ok c).
  { apply column_lookup. rewrite E. simpl. now rewrite String.eqb_refl. }
  rewrite (column_cells _ _ _ W Hc), filter_mask_map. now rewrite length_map.
Qed.

End Drop.

Lemma rows_of_two dx dy (f g : nat -> cell) (R : list nat) :
  rows_of [mkColumn dx (map f R); mkColumn dy (map g R)] (List.length R) =
  map (fun j => [f j; g j]) R.
Proof.
  unfold rows_of. simpl.
  transitivity (map (fun j => [f j; g j]) (map (fun i => nth i R 0) (seq 0 (List.length R)))).
  - rewrite map_map. apply map_ext_in. intros i Hi. apply in_seq in Hi.
    now rewrite !(nth_map_lt _ _ _ _ 0) by lia.
  - now rewrite map_nth_seq.
Qed.

Lemma row_has_key_two xv cv a b :
  row_has_key [xv; cv] [a; b] = cell_is xv a && cell_is cv b.
Proof.
  unfold row_has_key. destruct a as [a|], b as [b|]; simpl; auto.
  - now rewrite andb_true_r.
  - now rewrite andb_false_r.
Qed.

(** *** Levels and group keys *)

Lemma insert_uniq_sound x l y : In y (insert_uniq x l) -> y = x \/ In y l.
Proof.
  induction l as [|z l IH]; simpl.
  - intuition.
  - destruct (scalar_eqb x z); [auto|].
    destruct (scalar_leb x z); simpl; intuition.
Qed.

Lemma insert_uniq_keeps x l y : In y l -> In y (insert_uniq x l).
Proof.
  induction l as [|z l IH]; simpl; [tauto|].
  destruct (scalar_eqb x z); [auto|].
  destruct (scalar_leb x z); simpl; intuition.
Qed.

Lemma insert_uniq_has x l : exists y, In y (insert_uniq x l) /\ scalar_eqb x y = true.
Proof.
  induction l as [|z l IH]; simpl.
  - exists x. split; auto. apply scalar_eqb_refl.
  - destruct (scalar_eqb x z) eqn:E.
    + exists z. simpl. auto.
    + destruct (scalar_leb x z).
      * exists x. simpl. split; auto. apply scalar_eqb_refl.
      * destruct IH as (y & Hy & Ey). exists y. simpl. auto.
Qed.

Lemma sort_uniq_sound l a : In a (sort_uniq l) -> In a l.
Proof.
  induction l as [|x l IH]; simpl; [tauto|].
  intros H. apply insert_uniq_sound in H. intuition.
Qed.

Lemma sort_uniq_complete l a :
  In a l -> exists a', In a' (sort_uniq l) /\ scalar_eqb a a' = true.
Proof.
  induction l as [|x l IH]; simpl; [tauto|].
  intros [->|H].
  - apply insert_uniq_has.
  - destruct (IH H) as (a' & Ha & E). exists a'. split; auto.
    now apply insert_uniq_keeps.
Qed.

Lemma present_In {A} (l : list (option A)) a : In a (present l) <-> In (Some a) l.
Proof.
  induction l as [|[b|] l IH]; simpl.
  - tauto.
  - rewrite IH. split; intros [H|H]; auto; left; congruence.
  - rewrite IH. split; [auto|]. intros [H|H]; [discriminate|auto].
Qed.

Lemma product_two l1 l2 k :
  In k (product [l1; l2]) <-> exists a b, k = [a; b] /\ In a l1 /\ In b l2.
Proof.
  simpl. rewrite in_flat_map. split.
  - intros (a & Ha & Hk). apply in_map_iff in Hk as (r & <- & Hr).
    apply in_flat_map in Hr as (b & Hb & Hr).
    simpl in Hr. destruct Hr as [<-|[]]. eauto.
  - intros (a & b & -> & Ha & Hb). exists a. split; auto.
    apply in_map. apply in_flat_map. exists b. simpl. auto.
Qed.

Lemma group_index_sound o cols n k :
  In k (group_index o cols n) -> In k (product (map (levels o) cols)).
Proof.
  unfold group_index. destruct (_ && _); auto.
  intros H. now apply filter_In in H.
Qed.

Lemma group_index_complete o cols n k :
  In k (product (map (levels o) cols)) ->
  0 < group_size (rows_of cols n) k ->
  In k (group_index o cols n).
Proof.
  unfold group_index. intros H G. destruct (_ && _); auto.
  apply filter_In. split; auto. now apply Nat.ltb_lt.
Qed.

(** A value of a column is, up to equality of scalars, one of its
    levels; for a categorical column that needs its codes to be codes of
    its categories. *)
Lemma levels_complete o c a :
  typed c = true -> In (Some a) (cells c) ->
  exists a', In a' (levels o c) /\ scalar_eqb a' a = true.
Proof.
  intros T H.
  assert (S : exists a', In a' (sort_uniq (present (cells c))) /\ scalar_eqb a' a = true).
  { destruct (sort_uniq_complete (present (cells c)) a) as (a' & Ha & E).
    - now apply present_In.
    - exists a'. split; auto. now rewrite scalar_eqb_sym. }
  unfold levels. unfold typed in T.
  destruct (col_dtype c) as [| | |cats]; auto.
  destruct o; auto.
  rewrite forallb_forall in T. specialize (T _ H). simpl in T.
  destruct a as [s|q|code]; try discriminate.
  exists (SCat code). split; [|apply scalar_eqb_refl].
  apply in_map, in_seq. apply Nat.ltb_lt in T. lia.
Qed.

End Facts.

(** ** The order of the keys *)

Module Order.

Import Pandas Facts.

Lemma string_leb_lt a b : String.leb a b = false -> String.compare b a = Lt.
Proof.
  unfold String.leb. rewrite String.compare_antisym.
  destruct (String.compare b a); simpl; congruence.
Qed.

Lemma string_compare_trans a b c :
  String.compare a b = Lt -> String.compare b c = Lt -> String.compare a c = Lt.
Proof.
  intros H1 H2. apply String_as_OT.cmp_lt.
  apply String_as_OT.lt_trans with b; now apply String_as_OT.cmp_lt.
Qed.

Lemma string_ltb_spec a b :
  String.leb a b && negb (String.eqb a b) = true <-> String.compare a b = Lt.
Proof.
  unfold String.leb. destruct (String.compare a b) eqn:C; simpl.
  - apply String.compare_eq_iff in C. subst. rewrite String.eqb_refl. simpl.
    split; discriminate.
  - split; auto. intros _.
    destruct (String.eqb_spec a b) as [->|]; auto.
    assert (X : String.compare b b = Eq) by (apply String_as_OT.cmp_eq; reflexivity).
    congruence.
  - split; discriminate.
Qed.

Lemma Q_ltb_spec a b : Qle_bool a b && negb (Qeq_bool a b) = true <-> (a < b)%Q.
Proof.
  rewrite andb_true_iff, negb_true_iff, Qle_bool_iff.
  rewrite <- not_true_iff_false, Qeq_bool_iff. split.
  - intros [L N]. apply Qle_lt_or_eq in L as [L|L]; [auto | contradiction].
  - intros L. split; [now apply Qlt_le_weak | now apply Qlt_not_eq].
Qed.

Lemma nat_ltb_spec a b : Nat.leb a b && negb (Nat.eqb a b) = true <-> a < b.
Proof.
  rewrite andb_true_iff, negb_true_iff, Nat.leb_le, Nat.eqb_neq. lia.
Qed.

Lemma scalar_ltb_not_eqb a b : scalar_ltb a b = true -> scalar_eqb a b = false.
Proof.
  unfold scalar_ltb. intros H. apply andb_prop in H as [_ H].
  now apply negb_true_iff.
Qed.

Lemma scalar_ltb_trans a b c :
  scalar_ltb a b = true -> scalar_ltb b c = true -> scalar_ltb a c = true.
Proof.
  unfold scalar_ltb.
  destruct a as [x|x|x], b as [y|y|y], c as [z|z|z]; simpl;
    try discriminate; try reflexivity.
  - rewrite !string_ltb_spec. apply string_compare_trans.
  - rewrite !Q_ltb_spec. apply Qlt_trans.
  - rewrite !nat_ltb_spec. lia.
Qed.

(** The order is total: what is not below is strictly above. *)
Lemma scalar_leb_false a b : scalar_leb a b = false -> scalar_ltb b a = true.
Proof.
  unfold scalar_ltb.
  destruct a as [x|x|x], b as [y|y|y]; simpl; try discriminate; try reflexivity.
  - intros H. apply string_ltb_spec. now apply string_leb_lt.
  - intros H. apply Q_ltb_spec.
    apply Qnot_le_lt. intros L. apply Qle_bool_iff in L. congruence.
  - intros H. apply nat_ltb_spec. apply Nat.leb_gt in H. lia.
Qed.

Lemma insert_uniq_sorted x l :
  StronglySorted (fun a b => scalar_ltb a b = true) l ->
  StronglySorted (fun a b => scalar_ltb a b = true) (insert_uniq x l).
Proof.
  induction 1 as [|y l S IH F]; simpl.
  - repeat constructor.
  - destruct (scalar_eqb x y) eqn:E; [now constructor|].
    destruct (scalar_leb x y) eqn:L.
    + assert (XY : scalar_ltb x y = true) by (unfold scalar_ltb; now rewrite L, E).
      constructor; [now constructor|].
      constructor; auto.
      eapply Forall_impl; [|exact F]. intros z. now apply scalar_ltb_trans.
    + constructor; auto.
      apply Forall_forall. intros z Hz.
      apply insert_uniq_sound in Hz as [->|Hz].
      * now apply scalar_leb_false.
      * rewrite Forall_forall in F. auto.
Qed.

Lemma sort_uniq_sorted l :
  StronglySorted (fun a b => scalar_ltb a b = true) (sort_uniq l).
Proof.
  induction l as [|x l IH]; simpl; [constructor | now apply insert_uniq_sorted].
Qed.

Lemma codes_sorted start n :
  StronglySorted (fun a b => scalar_ltb a b = true) (map SCat (seq start n)).
Proof.
  revert start. induction n as [|n IH]; intros start; simpl; constructor; auto.
  apply Forall_forall. intros z Hz. apply in_map_iff in Hz as (k & <- & Hk).
  apply in_seq in Hk. unfold scalar_ltb. simpl. apply nat_ltb_spec. lia.
Qed.

Lemma levels_sorted o c :
  StronglySorted (fun a b => scalar_ltb a b = true) (levels o c).
Proof.
  unfold levels. destruct (col_dtype c); try apply sort_uniq_sorted.
  destruct o; [apply sort_uniq_sorted | apply codes_sorted].
Qed.

Lemma key_lt_not_eqb k1 k2 : key_lt k1 k2 -> key_eqb k1 k2 = false.
Proof.
  revert k2. induction k1 as [|a k1 IH]; intros [|b k2]; simpl; try tauto.
  intros [H|[E H]].
  - now rewrite (scalar_ltb_not_eqb _ _ H).
  - rewrite E. simpl. auto.
Qed.

Lemma key_eqb_sym k1 k2 : key_eqb k1 k2 = key_eqb k2 k1.
Proof.
  revert k2. induction k1 as [|a k1 IH]; intros [|b k2]; simpl; auto.
  now rewrite scalar_eqb_sym, IH.
Qed.

Lemma StronglySorted_app {A} (R : A -> A -> Prop) l1 l2 :
  StronglySorted R l1 -> StronglySorted R l2 ->
  (forall a b, In a l1 -> In b l2 -> R a b) ->
  StronglySorted R (l1 ++ l2).
Proof.
  induction 1 as [|a l1 S IH F]; simpl; intros S2 H; auto.
  constructor.
  - apply IH; auto.
  - apply Forall_app. split; auto.
    apply Forall_forall. intros b Hb. apply H; auto.
Qed.

Lemma StronglySorted_map {A B} (R : A -> A -> Prop) (R' : B -> B -> Prop) (f : A -> B) l :
  (forall a b, R a b -> R' (f a) (f b)) ->
  StronglySorted R l -> StronglySorted R' (map f l).
Proof.
  intros H. induction 1 as [|a l S IH F]; simpl; constructor; auto.
  apply Forall_forall. intros b Hb. apply in_map_iff in Hb as (c & <- & Hc).
  rewrite Forall_forall in F. auto.
Qed.

Lemma StronglySorted_filter {A} (R : A -> A -> Prop) (p : A -> bool) l :
  StronglySorted R l -> StronglySorted R (filter p l).
Proof.
  induction 1 as [|a l S IH F]; simpl; [constructor|].
  destruct (p a); auto. constructor; auto.
  apply Forall_forall. intros b Hb. apply filter_In in Hb as [Hb _].
  rewrite Forall_forall in F. auto.
Qed.

(** The product of sorted levels is sorted: group ids come out in the
    order of the keys. *)
Lemma product_sorted ls :
  Forall (StronglySorted (fun a b => scalar_ltb a b = true)) ls ->
  StronglySorted key_lt (product ls).
Proof.
  induction 1 as [|l ls S F IH]; simpl.
  - repeat constructor.
  - induction S as [|a l S IHl Fa]; simpl; [constructor|].
    apply StronglySorted_app; auto.
    + apply StronglySorted_map with (R := key_lt); auto.
      intros k1 k2 H. simpl. right. split; auto. apply scalar_eqb_refl.
    + intros k1 k2 H1 H2.
      apply in_map_iff in H1 as (r1 & <- & _).
      apply in_flat_map in H2 as (b & Hb & H2).
      apply in_map_iff in H2 as (r2 & <- & _).
      simpl. left. rewrite Forall_forall in Fa. auto.
Qed.

Lemma group_index_sorted o cols n : StronglySorted key_lt (group_index o cols n).
Proof.
  assert (P : StronglySorted key_lt (product (map (levels o) cols))).
  { apply product_sorted. apply Forall_forall. intros l Hl.
    apply in_map_iff in Hl as (c & <- & _). apply levels_sorted. }
  unfold group_index. destruct (_ && _); auto.
  now apply StronglySorted_filter.
Qed.

Lemma StronglySorted_nth {A} (R : A -> A -> Prop) l i j a b :
  StronglySorted R l -> i < j ->
  nth_error l i = Some a -> nth_error l j = Some b -> R a b.
Proof.
  intros S. revert i j. induction S as [|x l S IH F]; intros i j L Hi Hj.
  - destruct i; discriminate.
  - destruct j as [|j]; [lia|]. simpl in Hj.
    destruct i as [|i]; simpl in Hi.
    + inversion Hi; subst. rewrite Forall_forall in F.
      apply F. eapply nth_error_In; eauto.
    + apply (IH i j); auto. lia.
Qed.

(** No key occurs twice in the result of a group-by. *)
Lemma group_index_unique o cols n i j k1 k2 :
  nth_error (group_index o cols n) i = Some k1 ->
  nth_error (group_index o cols n) j = Some k2 ->
  key_eqb k1 k2 = true -> i = j.
Proof.
  intros Hi Hj E.
  pose proof (group_index_sorted o cols n) as S.
  destruct (Nat.lt_total i j) as [L|[L|L]]; auto; exfalso.
  - pose proof (StronglySorted_nth _ _ _ _ _ _ S L Hi Hj) as R.
    apply key_lt_not_eqb in R. congruence.
  - pose proof (StronglySorted_nth _ _ _ _ _ _ S L Hj Hi) as R.
    apply key_lt_not_eqb in R. rewrite key_eqb_sym in R. congruence.
Qed.

End Order.

(** ** Group-by-size of two columns after the drop *)

Module Grouping.

Import Pandas Spec Facts Order.
Local Open Scope result_scope.

Lemma filter_map_comm {A B} (f : A -> B) (p : B -> bool) l :
  filter p (map f l) = map f (filter (fun a => p (f a)) l).
Proof.
  induction l as [|a l IH]; simpl; auto.
  destruct (p (f a)); simpl; now rewrite IH.
Qed.

Lemma typed_sub c (l : list cell) :
  typed c = true -> (forall a, In (Some a) l -> In (Some a) (cells c)) ->
  typed (mkColumn (col_dtype c) l) = true.
Proof.
  unfold typed. simpl. destruct (col_dtype c); auto.
  rewrite !forallb_forall. intros T S [a|] H; auto.
  apply (T (Some a)). auto.
Qed.

Section Two.

Variables (o : bool) (d : DataFrame) (x y : string) (X Y : Column).
Hypothesis W : Dashboard.well_formed d = true.
Hypothesis HX : column x d = Ok X.
Hypothesis HY : column y d = Ok Y.
Hypothesis Nx : mem x [y; "count"] = false.
Hypothesis Ny : mem y ["count"] = false.

Lemma dtype_at_column n c : column n d = Ok c -> dtype_at n d = col_dtype c.
Proof. intros H. apply column_lookup in H. unfold dtype_at. now rewrite H. Qed.

Lemma grouped_eq :
  (plot <-? dropna_subset [x; y] d ;;
   sizes <-? groupby_size o [x; y] plot ;;
   series_reset_index "count" sizes) = Ok (grouped x y d (plot_index o x y d)).
Proof.
  erewrite dropna_two by eauto. unfold rbind at 1.
  unfold groupby_size. simpl rmap.
  erewrite !column_filter_rows by eauto.
  unfold rbind at 1.
  erewrite n_rows_filter_rows by eauto.
  fold (remaining x y d).
  unfold plot_index, grouped.
  rewrite (dtype_at_column _ _ HX), (dtype_at_column _ _ HY).
  unfold rbind. rewrite rows_of_two.
  unfold series_reset_index, rbind, key_columns.
  cbn [s_index s_values List.length seq map nth insert_levels names fst snd].
  unfold rbind. cbn [map fst names]. rewrite Ny.
  cbn [map fst names]. rewrite Nx.
  reflexivity.
Qed.

Lemma names_distinct : String.eqb x y = false /\ String.eqb x "count" = false
                       /\ String.eqb y "count" = false.
Proof.
  unfold mem in Nx, Ny. simpl in Nx, Ny.
  rewrite !orb_false_r in *. apply orb_false_elim in Nx as [A B]. auto.
Qed.

Lemma count_rows_with a b :
  group_size (map (fun j => [cell_at x d j; cell_at y d j]) (remaining x y d)) [a; b] =
  rows_with x y d a b.
Proof.
  unfold group_size, rows_with. rewrite filter_map_comm, length_map.
  f_equal. apply filter_ext. intros j. apply row_has_key_two.
Qed.

Lemma index_pairs k :
  In k (plot_index o x y d) -> exists a b, k = [a; b].
Proof.
  intros H. apply group_index_sound in H. simpl map in H.
  apply product_two in H as (a & b & -> & _). eauto.
Qed.

Lemma grouped_rows index i :
  (forall k, In k index -> exists a b, k = [a; b]) ->
  i < n_rows (grouped x y d index) ->
  exists xv cv,
    nth_error index i = Some [xv; cv] /\
    cell_at x (grouped x y d index) i = Some xv /\
    cell_at y (grouped x y d index) i = Some cv /\
    cell_at "count" (grouped x y d index) i =
    Some (SNum (inject_Z (Z.of_nat (rows_with x y d xv cv)))).
Proof.
  destruct names_distinct as (Exy & Exc & Eyc).
  intros P Hi. unfold n_rows, grouped in Hi. simpl in Hi. rewrite length_map in Hi.
  destruct (nth_error index i) as [k|] eqn:Ek.
  2:{ apply nth_error_None in Ek. lia. }
  destruct (P k (nth_error_In _ _ Ek)) as (a & b & ->).
  exists a, b. split; auto.
  unfold cell_at, grouped. simpl.
  rewrite String.eqb_refl, Exy, String.eqb_refl, Exc, Eyc. simpl.
  rewrite !(nth_map_lt _ _ _ _ []) by lia.
  rewrite (nth_error_nth _ _ _ Ek). simpl.
  rewrite count_rows_with. auto.
Qed.

(** A reported pair is reported once. *)
Lemma grouped_unique i i' xv cv xv' cv' :
  cell_at x (grouped x y d (plot_index o x y d)) i = Some xv ->
  cell_at y (grouped x y d (plot_index o x y d)) i = Some cv ->
  cell_at x (grouped x y d (plot_index o x y d)) i' = Some xv' ->
  cell_at y (grouped x y d (plot_index o x y d)) i' = Some cv' ->
  scalar_eqb xv xv' = true -> scalar_eqb cv cv' = true -> i = i'.
Proof.
  destruct names_distinct as (Exy & Exc & Eyc).
  assert (K : forall n a b,
             cell_at x (grouped x y d (plot_index o x y d)) n = Some a ->
             cell_at y (grouped x y d (plot_index o x y d)) n = Some b ->
             nth_error (plot_index o x y d) n = Some [a; b]).
  { intros n a b. unfold cell_at, grouped. simpl.
    rewrite String.eqb_refl, Exy, String.eqb_refl. simpl.
    destruct (nth_error (plot_index o x y d) n) as [k|] eqn:Ek.
    - rewrite !(nth_map_lt _ _ _ _ [])
        by (apply nth_error_Some; rewrite Ek; discriminate).
      rewrite (nth_error_nth _ _ _ Ek).
      destruct (index_pairs k (nth_error_In _ _ Ek)) as (a0 & b0 & ->). simpl.
      intros A B. inversion A; inversion B; subst. reflexivity.
    - apply nth_error_None in Ek.
      rewrite nth_overflow by now rewrite length_map. discriminate. }
  intros A B A' B' E1 E2.
  apply (Order.group_index_unique _ _ _ i i' [xv; cv] [xv'; cv'] (K _ _ _ A B) (K _ _ _ A' B')).
  simpl. now rewrite E1, E2.
Qed.

Lemma grouped_complete j :
  typed X = true -> typed Y = true ->
  In j (remaining x y d) ->
  exists i xv cv,
    nth_error (plot_index o x y d) i = Some [xv; cv] /\
    cell_is xv (cell_at x d j) = true /\
    cell_is cv (cell_at y d j) = true.
Proof.
  intros TX TY Hj.
  assert (Hj' := Hj). unfold remaining in Hj'. apply filter_In in Hj' as (Hn & Hp).
  apply andb_prop in Hp as (Hx & Hy).
  destruct (cell_at x d j) as [a|] eqn:Ea; [|discriminate].
  destruct (cell_at y d j) as [b|] eqn:Eb; [|discriminate].
  set (X' := mkColumn (dtype_at x d) (map (cell_at x d) (remaining x y d))).
  set (Y' := mkColumn (dtype_at y d) (map (cell_at y d) (remaining x y d))).
  apply in_seq in Hn.
  assert (SX : forall a0, In (Some a0) (map (cell_at x d) (remaining x y d)) ->
                          In (Some a0) (cells X)).
  { intros a0 H. apply in_map_iff in H as (i & Hi & Hr).
    apply filter_In in Hr as (Hr & _). apply in_seq in Hr.
    rewrite (cell_at_column _ _ _ _ HX) in Hi. rewrite <- Hi.
    apply nth_In. rewrite (well_formed_length _ _ _ W HX). lia. }
  assert (SY : forall a0, In (Some a0) (map (cell_at y d) (remaining x y d)) ->
                          In (Some a0) (cells Y)).
  { intros a0 H. apply in_map_iff in H as (i & Hi & Hr).
    apply filter_In in Hr as (Hr & _). apply in_seq in Hr.
    rewrite (cell_at_column _ _ _ _ HY) in Hi. rewrite <- Hi.
    apply nth_In. rewrite (well_formed_length _ _ _ W HY). lia. }
  destruct (levels_complete o X' a) as (a' & La & Ea').
  { unfold X'. rewrite (dtype_at_column _ _ HX). apply typed_sub; auto. }
  { simpl. rewrite <- Ea. now apply in_map. }
  destruct (levels_complete o Y' b) as (b' & Lb & Eb').
  { unfold Y'. rewrite (dtype_at_column _ _ HY). apply typed_sub; auto. }
  { simpl. rewrite <- Eb. now apply in_map. }
  assert (K : In [a'; b'] (plot_index o x y d)).
  { unfold plot_index. apply group_index_complete.
    - simpl map. apply product_two. eauto.
    - fold X' Y'. unfold X', Y'. rewrite rows_of_two. rewrite count_rows_with.
      unfold rows_with.
      assert (In j (filter (fun i => cell_is a' (cell_at x d i) && cell_is b' (cell_at y d i))
                           (remaining x y d))).
      { apply filter_In. split; auto. rewrite Ea, Eb. simpl. now rewrite Ea', Eb'. }
      destruct (filter _ (remaining x y d)); [contradiction | simpl; lia]. }
  apply In_nth_error in K as (i & Hi).
  exists i, a', b'. simpl. auto.
Qed.

End Two.

End Grouping.

(** ** The state the script leaves behind *)

Module Startup.

Import Pandas Plotly CSV Py Dashboard.

(** From the empty state every name and every object of the heap is
    known, and the statements run by computation; only the outcome of
    a call into pandas or plotly has to be split on. *)
Ltac compute_state :=
  lazy [startup load_and_clean static_figures table_figure scatter_figure
        box_figures facet_figure build_app production_server module empty_state
        frame_of bind_frame get_frame get_figure get_list get_text get_app
        bind ret lift raise get_global set_global alloc read write
        lookup store String.eqb Ascii.eqb Bool.eqb fst snd globals heap
        Datatypes.length nth_error update_nth Datatypes.app on_success
        app_name app_stylesheets app_layout app_callbacks
        gss_clean_frame figure_named figures_in app_of flat_map].

Ltac split_call :=
  match goal with
  | |- context [match ?r with Ok _ => _ | Raise _ => _ end] =>
      let E := fresh "E" in destruct r eqn:E
  end.

Ltac run_script := compute_state; repeat (split_call; compute_state).

Ltac use_equations :=
  unfold rbind;
  repeat match goal with
         | H : ?x = Ok _ |- context [?x] => rewrite H
         end.

Section Arithmetic.

Context {fl : Float64}.

Lemma startup_run observed name csv :
  on_success (startup observed name csv empty_state)
    (fun _ st =>
       exists g tf sf bi bp ff,
         gss_clean csv = Ok g /\
         table_fig observed g = Ok tf /\
         scatter_fig g = Ok sf /\
         income_boxplot_fig g = Ok bi /\
         prestige_boxplot_fig g = Ok bp /\
         facet_fig g = Ok ff /\
         gss_clean_frame st = Some g /\
         figure_named "table_fig" st = Some tf /\
         figure_named "scatter_fig" st = Some sf /\
         figure_named "income_boxplot_fig" st = Some bi /\
         figure_named "prestige_boxplot_fig" st = Some bp /\
         figure_named "facet_fig" st = Some ff /\
         figures_in st = [ "table_fig"; "scatter_fig"; "income_boxplot_fig";
                           "prestige_boxplot_fig"; "facet_fig" ] /\
         app_of st = Some (app name tf sf bi bp ff) /\
         lookup "update_graph" (globals st) = Some (PFunction "update_graph") /\
         lookup "app_final" (globals st) = None).
Proof.
  run_script; auto.
  do 6 eexists.
  repeat match goal with |- _ /\ _ => split end;
    try reflexivity.
  all: unfold gss_clean, table_fig, summary_df, scatter_fig, scatter_data,
         income_boxplot_fig, prestige_boxplot_fig, box_data, facet_fig, facet_df.
  all: use_equations; try reflexivity.
Qed.

(** The same run, continued by line 138. *)
Lemma module_run observed name csv :
  exists st,
    module observed name csv empty_state =
    (match fst (startup observed name csv empty_state) with
     | Ok _ => Raise (NameError "app_final")
     | Raise e => Raise e
     end, st).
Proof.
  run_script; eexists; reflexivity.
Qed.

End Arithmetic.

End Startup.

(** ** The cleaned table *)

Module Cleaning.

Import Pandas CSV Dashboard Spec Facts.

Lemma select_inv cols df sel :
  select cols df = Ok sel ->
  df_index sel = df_index df /\
  Forall2 (fun n nc => fst nc = n /\ lookup n (df_cols df) = Some (snd nc)) cols (df_cols sel).
Proof.
  unfold select, rbind. intros H.
  destruct (rmap _ cols) as [cs|] eqn:E; [|discriminate].
  inversion H; subst; clear H. simpl. split; auto.
  apply rmap_inv in E.
  induction E as [|n [m c] cols cs H E IH]; constructor; auto.
  unfold rbind in H. destruct (column n df) eqn:C; [|discriminate].
  inversion H; subst. simpl. split; auto. now apply column_lookup.
Qed.

(** Every column [read_csv] makes has one cell per record and is a
    column of floats or of strings. *)
Lemma read_csv_column na csv n c :
  lookup n (df_cols (read_csv na csv)) = Some c ->
  List.length (cells c) = List.length (records csv) /\ is_categorical c = false.
Proof.
  intros H. apply lookup_In in H. unfold read_csv in H. simpl in H.
  apply in_map_iff in H as (j & Hj & _). inversion Hj; subst; clear Hj.
  unfold read_column. destruct (forallb _ _); simpl; rewrite !length_map; auto.
Qed.

Lemma replace_values_length m c :
  List.length (cells (replace_values m c)) = List.length (cells c).
Proof. unfold replace_values. simpl. apply length_map. Qed.

Lemma astype_float_inv c c' :
  astype_float c = Ok c' ->
  col_dtype c' = float64 /\ Forall2 (fun x y => cell_to_float x = Ok y) (cells c) (cells c').
Proof.
  unfold astype_float, rbind. destruct (rmap _ _) eqn:E; [|discriminate].
  inversion 1; subst; simpl. split; auto. now apply rmap_inv.
Qed.

Ltac invert_columns :=
  repeat match goal with
         | H : Forall2 _ (_ :: _) _ |- _ => inversion H; subst; clear H
         | H : Forall2 _ [] _ |- _ => inversion H; subst; clear H
         | H : fst ?p = _ /\ _ |- _ =>
             let n := fresh "n" in let c := fresh "c" in
             destruct p as [n c]; simpl in H; destruct H as [-> H]
         end.

Lemma clean_explicit csv g :
  gss_clean csv = Ok g ->
  exists id wtss sex educ region age coninc prestg10 mapres10 papres10 sei10 satjob
         fechld fefam fepol fepresch meovrwrk age',
    let src n := lookup n (df_cols (read_csv na_values csv)) in
    (src "id" = Some id /\ src "wtss" = Some wtss /\ src "sex" = Some sex /\
     src "educ" = Some educ /\ src "region" = Some region /\ src "age" = Some age /\
     src "coninc" = Some coninc /\ src "prestg10" = Some prestg10 /\
     src "mapres10" = Some mapres10 /\ src "papres10" = Some papres10 /\
     src "sei10" = Some sei10 /\ src "satjob" = Some satjob /\
     src "fechld" = Some fechld /\ src "fefam" = Some fefam /\
     src "fepol" = Some fepol /\ src "fepresch" = Some fepresch /\
     src "meovrwrk" = Some meovrwrk) /\
    astype_float (replace_values [("89 or older", "89")] age) = Ok age' /\
    g = mkDF []
          [ ("id", id); ("weight", wtss); ("sex", sex); ("education", educ);
            ("region", region); ("age", age'); ("income", coninc);
            ("job_prestige", prestg10); ("mother_job_prestige", mapres10);
            ("father_job_prestige", papres10); ("socioeconomic_index", sei10);
            ("satjob", satjob); ("relationship", fechld); ("male_breadwinner", fefam);
            ("men_bettersuited", fepol); ("child_suffer", fepresch);
            ("men_overwork", meovrwrk) ].
Proof.
  unfold gss_clean, rbind. intros H.
  destruct (select mycols _) as [[idx cols]|] eqn:S; [|discriminate].
  apply select_inv in S as [I S]. simpl in I, S. unfold mycols in S.
  invert_columns.
  lazy [rename setitem column lookup store map fst snd df_cols df_index rename_mapping
        String.eqb Ascii.eqb Bool.eqb] in H.
  match type of H with
  | match ?r with Ok _ => _ | Raise _ => _ end = _ => destruct r eqn:A; [|discriminate]
  end.
  inversion H; subst; clear H.
  do 18 eexists. cbv zeta.
  split; [repeat split; eassumption|].
  split; [eassumption | reflexivity].
Qed.

End Cleaning.

(** ** The table the callback works on *)

Module Table.

Import Pandas Plotly CSV Dashboard Spec Facts Cleaning.

Ltac split_in H :=
  repeat match type of H with
         | context [match ?r with Ok _ => _ | Raise _ => _ end] =>
             let E := fresh "E" in destruct r eqn:E; try discriminate H
         end.

Section Arithmetic.

Context {fl : Float64}.

Lemma Forall2_In_l {A B} (P : A -> B -> Prop) l l' a :
  Forall2 P l l' -> In a l -> exists b, In b l' /\ P a b.
Proof.
  induction 1 as [|x y l l' H F IH]; simpl; [tauto|].
  intros [->|I]; [eauto|]. destruct (IH I) as (b & Hb & Pb). eauto.
Qed.

(** A group-by-mean reads each aggregated column as numbers. *)
Lemma groupby_agg_numeric observed key spec g a col f :
  groupby_agg observed key spec g = Ok a ->
  In (col, f) (dict_of spec) ->
  exists c xs, column col g = Ok c /\ as_numeric c = Ok xs.
Proof.
  unfold groupby_agg. unfold rbind at 1. intros H I.
  destruct (column key g) as [kc|]; [|discriminate].
  unfold rbind at 1 in H.
  destruct (rmap _ (dict_of spec)) as [cols|] eqn:R; [|discriminate].
  apply rmap_inv in R.
  destruct (Forall2_In_l _ _ _ _ R I) as (b & _ & Hb).
  unfold rbind in Hb. simpl in Hb.
  destruct (column col g) as [c|] eqn:C; [|discriminate].
  destruct (as_numeric c) as [xs|] eqn:N; [|discriminate].
  eauto.
Qed.

(** The table of means can only be computed on a numeric education
    column. *)
Lemma education_numeric observed g tf educ :
  table_fig observed g = Ok tf ->
  column "education" g = Ok educ ->
  exists xs, as_numeric educ = Ok xs.
Proof.
  unfold table_fig, summary_df. unfold rbind at 1 2. intros H C.
  destruct (groupby_agg _ _ _ g) as [a|] eqn:A; [|discriminate].
  destruct (groupby_agg_numeric _ _ _ _ _ "education" agg_mean A) as (c & xs & Hc & N).
  { lazy [dict_of fold_left store fst snd String.eqb Ascii.eqb Bool.eqb]. simpl. auto. }
  rewrite C in Hc. inversion Hc; subst. eauto.
Qed.

Lemma bin_of_bound bins v i k :
  bin_of bins v i = Some k -> k < i + (List.length bins - 1).
Proof.
  revert i. induction bins as [|lo bins IH]; simpl; [discriminate|].
  destruct bins as [|hi bins]; [discriminate|]. intros i.
  destruct (negb (Qle_bool v lo) && Qle_bool v hi).
  - inversion 1; subst. simpl. lia.
  - intros H. apply IH in H. simpl in *. lia.
Qed.

Lemma cut_typed c bins labels b :
  cut c bins labels = Ok b -> typed b = true.
Proof.
  intros H.
  assert (L : List.length labels = List.length bins - 1).
  { unfold cut, rbind in H. destruct (as_numeric c); [|discriminate].
    destruct (negb (increasing bins)); [discriminate|].
    destruct (List.length labels =? List.length bins - 1)%nat eqn:E; [|discriminate].
    now apply Nat.eqb_eq in E. }
  apply cut_cells in H. subst b. unfold typed. simpl.
  rewrite forallb_forall. intros x Hx.
  apply in_map_iff in Hx as ([v|] & <- & _); simpl; auto.
  destruct (bin_of bins v 0) as [k|] eqn:E; simpl; auto.
  apply bin_of_bound in E. rewrite length_map. apply Nat.ltb_lt. lia.
Qed.

Lemma not_categorical_typed c : is_categorical c = false -> typed c = true.
Proof. unfold is_categorical, typed. destruct (col_dtype c); auto; discriminate. Qed.

Lemma startup_ready observed csv g tf :
  gss_clean csv = Ok g -> table_fig observed g = Ok tf -> ready g.
Proof.
  intros C T.
  destruct (clean_explicit _ _ C) as
    (id & wtss & sex & educ & region & age & coninc & prestg10 & mapres10 & papres10
     & sei10 & satjob & fechld & fefam & fepol & fepresch & meovrwrk & age' & S & A & ->).
  cbv zeta in S.
  assert (AL : List.length (cells age') = List.length (records csv)
               /\ is_categorical age' = false).
  { apply astype_float_inv in A as [D F].
    apply Forall2_length in F. rewrite replace_values_length in F.
    split.
    - rewrite <- F. apply (read_csv_column na_values csv "age"). tauto.
    - unfold is_categorical. now rewrite D. }
  assert (R : forall n c, In (n, c)
                [ ("id", id); ("weight", wtss); ("sex", sex); ("education", educ);
                  ("region", region); ("age", age'); ("income", coninc);
                  ("job_prestige", prestg10); ("mother_job_prestige", mapres10);
                  ("father_job_prestige", papres10); ("socioeconomic_index", sei10);
                  ("satjob", satjob); ("relationship", fechld); ("male_breadwinner", fefam);
                  ("men_bettersuited", fepol); ("child_suffer", fepresch);
                  ("men_overwork", meovrwrk) ] ->
              List.length (cells c) = List.length (records csv)
              /\ is_categorical c = false).
  { intros n c H. simpl in H.
    repeat (destruct H as [H|H];
            [inversion H; subst; first [exact AL | eapply read_csv_column; apply S]|]).
    contradiction. }
  constructor.
  - unfold well_formed. apply forallb_forall. intros [n c] H. simpl.
    apply Nat.eqb_eq. unfold n_rows. simpl df_cols.
    rewrite (proj1 (R _ _ H)). symmetry. apply (R "id" id). simpl. auto.
  - intros n c H. apply column_lookup, lookup_In in H.
    apply not_categorical_typed. apply (R _ _ H).
  - intros n c H. apply column_lookup, lookup_In in H. apply (R _ _ H).
  - intros x Hx. simpl in Hx.
    repeat (destruct Hx as [<-|Hx]; [eexists; reflexivity|]). contradiction.
  - intros c Hc. simpl in Hc.
    repeat (destruct Hc as [<-|Hc]; [eexists; reflexivity|]). contradiction.
  - exists educ.
    destruct (education_numeric observed _ tf educ T eq_refl) as (xs & N).
    eauto.
  - reflexivity.
Qed.

End Arithmetic.

End Table.

(** ** The frame the callback groups *)

Module Colored.

Import Pandas Plotly Dashboard Spec Facts Table.

Lemma In_store {A} m (c : A) l n c' :
  In (n, c') (store m c l) -> (n, c') = (m, c) \/ In (n, c') l.
Proof.
  induction l as [|[k w] l IH]; simpl.
  - intuition.
  - destruct (String.eqb k m) eqn:E; simpl.
    + apply String.eqb_eq in E. subst. intuition.
    + intuition.
Qed.

Lemma column_setitem_same m c g : column m (setitem m c g) = Ok c.
Proof. unfold column, setitem. simpl. now rewrite lookup_store_eq. Qed.

Lemma column_setitem_other n m c g :
  m <> n -> column n (setitem m c g) = column n g.
Proof. intros H. unfold column, setitem. simpl. now rewrite lookup_store_ne. Qed.

Lemma cell_at_setitem_other n m c g i :
  m <> n -> cell_at n (setitem m c g) i = cell_at n g i.
Proof. intros H. unfold cell_at, setitem. simpl. now rewrite lookup_store_ne. Qed.

Lemma n_rows_setitem m c g n0 c0 rest :
  df_cols g = (n0, c0) :: rest -> n0 <> m -> n_rows (setitem m c g) = n_rows g.
Proof.
  intros E H. unfold n_rows, setitem. simpl. rewrite E. simpl.
  apply String.eqb_neq in H. now rewrite H.
Qed.

Lemma ready_first g :
  ready g -> exists c0 rest, df_cols g = ("id", c0) :: rest.
Proof.
  intros R. pose proof (@ready_names g R) as N.
  destruct (df_cols g) as [|[n c0] rest]; [discriminate|].
  simpl in N. inversion N; subst. eauto.
Qed.

Lemma ready_fresh g n :
  ready g -> ~ In n (map snd cleaned_columns) -> column n g = Raise (KeyError n).
Proof.
  intros R H. unfold column.
  destruct (lookup n (df_cols g)) eqn:E; auto.
  exfalso. apply H. rewrite <- (@ready_names g R).
  apply lookup_in_names. congruence.
Qed.

(** What lines 117 to 124 leave in [df], for the three colours. *)
Lemma colored_ready g c :
  ready g -> In c color_options ->
  exists d ccp Y,
    colored_frame c g = Ok (d, ccp) /\
    ccp = (if String.eqb c "education" then "education_binned" else c) /\
    well_formed d = true /\
    n_rows d = n_rows g /\
    column ccp d = Ok Y /\ typed Y = true /\
    (forall x, In x xaxis_options ->
               exists X, column x d = Ok X /\ typed X = true /\
                         (forall i, cell_at x d i = cell_at x g i) /\
                         mem x [ccp; "count"] = false) /\
    mem ccp ["count"] = false /\
    (forall i, cell_at ccp d i =
               if String.eqb c "education"
               then cut_cell education_bins (number (cell_at "education" g i))
               else cell_at c g i).
Proof.
  intros R Hc.
  assert (XA : forall x other, In x xaxis_options ->
                 In other [ "sex"; "region"; "education_binned" ] ->
                 mem x [other; "count"] = false).
  { intros x other Hx Ho. simpl in Hx, Ho.
    repeat (destruct Hx as [<-|Hx]; [|]); try contradiction;
      repeat (destruct Ho as [<-|Ho]; [|]); try contradiction; reflexivity. }
  simpl in Hc. destruct Hc as [<-|[<-|[<-|[]]]].
  - destruct (@ready_color g R "sex") as (C & HC); [simpl; auto|].
    exists g, "sex", C. unfold colored_frame. simpl.
    repeat split; auto.
    + apply (@ready_wf g R).
    + apply (@ready_typed g R _ _ HC).
    + intros x Hx. destruct (@ready_xaxis g R x Hx) as (X & HX).
      exists X. repeat split; auto.
      * apply (@ready_typed g R _ _ HX).
      * apply XA; simpl; auto.
  - destruct (@ready_color g R "region") as (C & HC); [simpl; auto|].
    exists g, "region", C. unfold colored_frame. simpl.
    repeat split; auto.
    + apply (@ready_wf g R).
    + apply (@ready_typed g R _ _ HC).
    + intros x Hx. destruct (@ready_xaxis g R x Hx) as (X & HX).
      exists X. repeat split; auto.
      * apply (@ready_typed g R _ _ HX).
      * apply XA; simpl; auto.
  - destruct (@ready_education g R) as (educ & xs & HE & N).
    destruct (cut_ok educ xs N) as (b & Hb).
    destruct (@ready_first g R) as (c0 & rest & F).
    assert (NR : n_rows (setitem "education_binned" b g) = n_rows g).
    { apply (n_rows_setitem _ _ _ _ _ _ F). discriminate. }
    exists (setitem "education_binned" b g), "education_binned", b.
    unfold colored_frame, rbind. simpl String.eqb. cbv iota.
    rewrite HE, Hb.
    pose proof (cut_cells _ _ _ _ Hb) as Cb.
    split; [reflexivity|]. split; [reflexivity|].
    split; [|split; [exact NR|split; [apply column_setitem_same|split;
             [apply (cut_typed _ _ _ _ Hb)|split; [|split; [reflexivity|]]]]]].
    + unfold well_formed. apply forallb_forall. intros [n c] H. simpl.
      apply Nat.eqb_eq. rewrite NR.
      unfold setitem in H. simpl in H. apply In_store in H as [H|H].
      * inversion H; subst n c. rewrite Cb. simpl. rewrite !length_map.
        apply (well_formed_length g "education" educ (@ready_wf g R) HE).
      * assert (HC : In (n, c) (df_cols g)) by exact H.
        pose proof (@ready_wf g R) as W. unfold well_formed in W.
        rewrite forallb_forall in W. specialize (W _ HC). simpl in W.
        now apply Nat.eqb_eq in W.
    + intros x Hx. destruct (@ready_xaxis g R x Hx) as (X & HX).
      assert (NE : "education_binned" <> x).
      { simpl in Hx. intros <-.
        repeat (destruct Hx as [Hx|Hx]; [discriminate Hx|]). contradiction. }
      exists X. split; [|split; [|split]].
      * now rewrite column_setitem_other.
      * apply (@ready_typed g R _ _ HX).
      * intros i. now apply cell_at_setitem_other.
      * apply XA; simpl; auto.
    + intros i. unfold cell_at at 1. unfold setitem. simpl df_cols.
      rewrite lookup_store_eq. rewrite Cb. simpl cells.
      rewrite (cell_at_column _ _ _ i HE).
      destruct (Nat.lt_ge_cases i (List.length (cells educ))) as [L|L].
      * rewrite (nth_map_lt _ _ _ _ None) by now rewrite length_map.
        f_equal. now apply nth_map_lt.
      * rewrite nth_overflow by now rewrite !length_map.
        rewrite (nth_overflow (cells educ)) by assumption. reflexivity.
Qed.

End Colored.

(** ** The figure the callback returns *)

Module Callback.

Import Pandas Plotly Py Dashboard Spec Facts Table Colored.

Lemma gss_clean_frame_inv st g :
  gss_clean_frame st = Some g ->
  exists l, lookup "gss_clean" (globals st) = Some (PFrame l) /\
            nth_error (heap st) l = Some g.
Proof.
  unfold gss_clean_frame. destruct (lookup "gss_clean" (globals st)) as [[l| | | | | |]|];
    try discriminate. eauto.
Qed.

(** The callback returns what [bar_figure] computes from the cleaned
    table, leaves the globals alone and only adds objects to the heap. *)
Lemma run observed x c st g :
  gss_clean_frame st = Some g ->
  exists ext,
    update_graph observed x c st =
    (bar_figure observed x c g, mkState (globals st) (heap st ++ ext)).
Proof.
  intros H. apply gss_clean_frame_inv in H as (l & Hl & Hg).
  destruct st as [gl h]. simpl in *.
  now apply (UpdateGraph.run_pure observed x c gl h l g).
Qed.

Lemma frame_kept st g ext :
  gss_clean_frame st = Some g ->
  gss_clean_frame (mkState (globals st) (heap st ++ ext)) = Some g.
Proof.
  intros H. apply gss_clean_frame_inv in H as (l & Hl & Hg).
  unfold gss_clean_frame. simpl. rewrite Hl.
  rewrite nth_error_app1; auto. apply nth_error_Some. congruence.
Qed.

Lemma bar_grouped x y d index labels :
  bar (grouped x y d index) x "count" y "group" labels =
  Ok (mkFigure bar_chart (grouped x y d index) (Some x) (Some "count") (Some y)
               None None [] labels (Some "group") [] []).
Proof.
  unfold bar, express, check_columns, rbind, grouped, mem. simpl.
  rewrite !String.eqb_refl. simpl. rewrite !orb_true_r. reflexivity.
Qed.

Lemma grouped_frame_ready observed g x c d color :
  ready g -> In x xaxis_options -> In c color_options ->
  colored_frame c g = Ok (d, color) ->
  grouped_frame observed x c g = Ok (grouped x color d (plot_index observed x color d)).
Proof.
  intros R Hx Hc E.
  destruct (colored_ready g c R Hc) as
    (d' & color' & Y & E' & _ & W & _ & HY & _ & HXs & Ny & _).
  rewrite E in E'. inversion E'; subst d' color'; clear E'.
  destruct (HXs x Hx) as (X & HX & _ & _ & Nx).
  unfold grouped_frame. rewrite E. unfold rbind at 1. cbn [fst snd].
  exact (Grouping.grouped_eq observed d x color X Y W HX HY Nx Ny).
Qed.

(** For a table the script has cleaned and an offered pair, the figure
    is the bar chart of [grouped]. *)
Lemma bar_figure_ready observed g x c d color :
  ready g -> In x xaxis_options -> In c color_options ->
  colored_frame c g = Ok (d, color) ->
  bar_figure observed x c g =
  Ok (update_layout
        [ ("transition_duration", PInt 500); ("plot_bgcolor", PStr "#222222");
          ("paper_bgcolor", PStr "#111111"); ("font_color", PStr "#FFFFFF") ]
        (mkFigure bar_chart (grouped x color d (plot_index observed x color d))
                  (Some x) (Some "count") (Some color) None None []
                  (dict_of [ (x, PyStr.title (PyStr.replace "_" " " x));
                             ("count", "Number of Respondents");
                             (color, PyStr.title (PyStr.replace "_binned" EmptyString c)) ])
                  (Some "group") [] [])).
Proof.
  intros R Hx Hc E.
  unfold bar_figure.
  rewrite (grouped_frame_ready observed g x c d color R Hx Hc E), E.
  unfold rbind. cbn [fst snd]. rewrite bar_grouped. reflexivity.
Qed.

End Callback.

Module CallbackRows.

Import Pandas Plotly Py Dashboard Spec Facts Table Colored Callback.

Lemma fig_data_update_layout s f : fig_data (update_layout s f) = fig_data f.
Proof. reflexivity. Qed.

(** What holds of the figure of the callback, for a cleaned table and
    an offered pair of values. *)
Lemma callback_figure observed g x c :
  ready g -> In x xaxis_options -> In c color_options ->
  exists d color fig,
    colored_frame c g = Ok (d, color) /\
    bar_figure observed x c g = Ok fig /\
    color = (if String.eqb c "education" then "education_binned" else c) /\
    (fig_kind fig = bar_chart /\ fig_x fig = Some x /\ fig_y fig = Some "count" /\
     fig_color fig = Some color /\ fig_barmode fig = Some "group") /\
    n_rows d = n_rows g /\
    (forall i, cell_at x d i = cell_at x g i) /\
    (forall i, cell_at color d i =
               if String.eqb c "education"
               then cut_cell education_bins (number (cell_at "education" g i))
               else cell_at c g i) /\
    (forall i, i < n_rows (fig_data fig) ->
       exists xv cv,
         cell_at x (fig_data fig) i = Some xv /\
         cell_at color (fig_data fig) i = Some cv /\
         cell_at "count" (fig_data fig) i =
         Some (SNum (inject_Z (Z.of_nat (rows_with x color d xv cv))))) /\
    (forall j, In j (remaining x color d) ->
       exists i xv cv,
         i < n_rows (fig_data fig) /\
         cell_at x (fig_data fig) i = Some xv /\
         cell_at color (fig_data fig) i = Some cv /\
         cell_is xv (cell_at x d j) = true /\
         cell_is cv (cell_at color d j) = true) /\
    (forall i i' xv cv xv' cv',
       cell_at x (fig_data fig) i = Some xv ->
       cell_at color (fig_data fig) i = Some cv ->
       cell_at x (fig_data fig) i' = Some xv' ->
       cell_at color (fig_data fig) i' = Some cv' ->
       scalar_eqb xv xv' = true -> scalar_eqb cv cv' = true -> i = i').
Proof.
  intros R Hx Hc.
  destruct (colored_ready g c R Hc) as
    (d & color & Y & E & Ecol & W & NR & HY & TY & HXs & Ny & Cc).
  destruct (HXs x Hx) as (X & HX & TX & Cx & Nx).
  exists d, color. eexists.
  split; [exact E|].
  split; [apply (bar_figure_ready observed g x c d color R Hx Hc E)|].
  split; [exact Ecol|].
  split; [repeat split|].
  split; [exact NR|].
  split; [exact Cx|].
  split; [rewrite Ecol in Cc |- *; exact Cc|].
  rewrite fig_data_update_layout. cbn [fig_data].
  split; [|split].
  3:{ apply (Grouping.grouped_unique observed d x color Nx Ny). }
  - intros i Hi.
    destruct (Grouping.grouped_rows d x color Nx Ny (plot_index observed x color d) i)
      as (xv & cv & _ & A & B & C); auto.
    + intros k Hk. apply (Grouping.index_pairs observed d x color k Hk).
    + exists xv, cv. auto.
  - intros j Hj.
    destruct (Grouping.grouped_complete observed d x color X Y W HX HY j TX TY Hj)
      as (i & xv & cv & Hi & A & B).
    assert (L : i < n_rows (grouped x color d (plot_index observed x color d))).
    { unfold n_rows, grouped. simpl. rewrite length_map.
      apply nth_error_Some. congruence. }
    destruct (Grouping.grouped_rows d x color Nx Ny (plot_index observed x color d) i)
      as (xv' & cv' & Hi' & A' & B' & _); auto.
    + intros k Hk. apply (Grouping.index_pairs observed d x color k Hk).
    + rewrite Hi in Hi'. inversion Hi'; subst xv' cv'.
      exists i, xv, cv. auto.
Qed.

End CallbackRows.

(** ** Frames the statements leave alone *)

Module Frame.

Import Pandas Plotly Py Dashboard Spec Callback.

(** [m] leaves the cleaned table as it found it, whether it returns or
    raises. *)
Lemma keeps_bind {A B} (g : DataFrame) (m : M A) (k : A -> M B) :
  (forall st, gss_clean_frame st = Some g -> gss_clean_frame (snd (m st)) = Some g) ->
  (forall a st, gss_clean_frame st = Some g -> gss_clean_frame (snd (k a st)) = Some g) ->
  forall st, gss_clean_frame st = Some g -> gss_clean_frame (snd (bind m k st)) = Some g.
Proof.
  intros Hm Hk st H. unfold bind. specialize (Hm st H).
  destruct (m st) as [[a|e] st']; simpl in *; auto.
Qed.

Ltac start_run st g H :=
  let l := fresh "l" in
  let Hl := fresh "Hl" in
  let Hg := fresh "Hg" in
  let gl := fresh "gl" in
  let h := fresh "h" in
  apply gss_clean_frame_inv in H as (l & Hl & Hg);
  destruct st as [gl h]; cbn [globals heap] in Hl, Hg;
  replace (mkState gl h) with (mkState gl (h ++ [])) by now rewrite app_nil_r.

Ltac frame_kept :=
  unfold gss_clean_frame; cbn [snd globals heap];
  repeat rewrite lookup_store_ne by name_neq;
  match goal with
  | Hl : lookup "gss_clean" _ = Some (PFrame _) |- _ => rewrite Hl
  end;
  match goal with
  | Hg : nth_error ?h ?l = Some _ |- _ =>
      rewrite nth_error_app1 by (apply nth_error_Some; congruence); exact Hg
  end.

Section Arithmetic.

Context {fl : Float64}.

Lemma table_figure_keeps observed g st :
  gss_clean_frame st = Some g ->
  gss_clean_frame (snd (table_figure observed st)) = Some g.
Proof.
  intros H. start_run st g H.
  unfold table_figure, frame_of, bind_frame, get_frame. run; frame_kept.
Qed.

Lemma scatter_figure_keeps g st :
  gss_clean_frame st = Some g ->
  gss_clean_frame (snd (scatter_figure st)) = Some g.
Proof.
  intros H. start_run st g H.
  unfold scatter_figure, frame_of, bind_frame, get_frame. run; frame_kept.
Qed.

Lemma box_figures_keeps g st :
  gss_clean_frame st = Some g ->
  gss_clean_frame (snd (box_figures st)) = Some g.
Proof.
  intros H. start_run st g H.
  unfold box_figures, frame_of, bind_frame, get_frame, get_figure. run; frame_kept.
Qed.

Lemma facet_figure_keeps g st :
  gss_clean_frame st = Some g ->
  gss_clean_frame (snd (facet_figure st)) = Some g.
Proof.
  intros H. start_run st g H.
  unfold facet_figure, frame_of, bind_frame, get_frame. run; frame_kept.
Qed.

Lemma static_figures_keeps observed g st :
  gss_clean_frame st = Some g ->
  gss_clean_frame (snd (static_figures observed st)) = Some g.
Proof.
  revert st. unfold static_figures.
  apply keeps_bind.
  { intros st H. unfold set_global, gss_clean_frame in *. cbn [snd globals heap].
    rewrite lookup_store_ne by name_neq. exact H. }
  intros _. apply keeps_bind; [apply table_figure_keeps|].
  intros _. apply keeps_bind; [apply scatter_figure_keeps|].
  intros _. apply keeps_bind; [apply box_figures_keeps|].
  intros _. apply facet_figure_keeps.
Qed.

End Arithmetic.

End Frame.

(** ** The bins of the years of education *)

Module Bins.

Import Pandas Dashboard Spec.

Lemma Qle_bool_false x y : Qle_bool x y = false <-> (y < x)%Q.
Proof.
  rewrite <- not_true_iff_false, Qle_bool_iff. split.
  - apply Qnot_le_lt.
  - apply Qlt_not_le.
Qed.

(** [pd.cut] with the bins of line 119 is the binning into
    (0,8], (8,12], (12,16], (16,25]. *)
Lemma cut_cell_bins q :
  cut_cell education_bins (Some q) = option_map SCat (education_bin q).
Proof.
  unfold cut_cell, education_bins, education_bin. simpl bin_of.
  destruct (Qle_bool q 0) eqn:E0, (Qle_bool q 8) eqn:E8, (Qle_bool q 12) eqn:E12,
           (Qle_bool q 16) eqn:E16, (Qle_bool q 25) eqn:E25; simpl; try reflexivity;
    exfalso;
    repeat match goal with
           | H : Qle_bool _ _ = true |- _ => apply Qle_bool_iff in H
           | H : Qle_bool _ _ = false |- _ => apply Qle_bool_false in H
           end; lra.
Qed.

Lemma outside_bins_none c :
  outside_bins c = true -> cut_cell education_bins (number c) = None.
Proof.
  destruct c as [[s|q|k]|]; simpl; try discriminate.
  intros H. change (cut_cell education_bins (Some q) = None).
  rewrite cut_cell_bins. unfold education_bin.
  apply orb_prop in H as [H|H].
  - apply Qeq_bool_iff in H.
    assert (L : Qle_bool q 0 = true) by (apply Qle_bool_iff; lra).
    now rewrite L.
  - apply negb_true_iff, Qle_bool_false in H.
    repeat match goal with
           | |- context [Qle_bool q ?b] =>
               let E := fresh "E" in
               destruct (Qle_bool q b) eqn:E;
               [apply Qle_bool_iff in E; exfalso; lra|]
           end.
    reflexivity.
Qed.

End Bins.

Module CallbackTheorems.

Import Pandas Plotly Py Dashboard Spec Facts Table Colored Callback CallbackRows Frame Bins.

Section Arithmetic.

Context {fl : Float64}.

Lemma startup_facts observed name csv st :
  startup observed name csv empty_state = (Ok tt, st) ->
  exists g tf sf bi bp ff,
    gss_clean csv = Ok g /\
    table_fig observed g = Ok tf /\
    scatter_fig g = Ok sf /\
    income_boxplot_fig g = Ok bi /\
    prestige_boxplot_fig g = Ok bp /\
    facet_fig g = Ok ff /\
    gss_clean_frame st = Some g /\
    figure_named "table_fig" st = Some tf /\
    figure_named "scatter_fig" st = Some sf /\
    figure_named "income_boxplot_fig" st = Some bi /\
    figure_named "prestige_boxplot_fig" st = Some bp /\
    figure_named "facet_fig" st = Some ff /\
    figures_in st = [ "table_fig"; "scatter_fig"; "income_boxplot_fig";
                      "prestige_boxplot_fig"; "facet_fig" ] /\
    app_of st = Some (app name tf sf bi bp ff) /\
    lookup "update_graph" (globals st) = Some (PFunction "update_graph") /\
    lookup "app_final" (globals st) = None.
Proof.
  intros H. pose proof (Startup.startup_run observed name csv) as R.
  rewrite H in R. exact R.
Qed.

Lemma startup_table observed name csv st :
  startup observed name csv empty_state = (Ok tt, st) ->
  exists g, gss_clean_frame st = Some g /\ ready g.
Proof.
  intros H. destruct (startup_facts _ _ _ _ H) as (g & tf & _ & _ & _ & _ & C & T & _ & _ & _ & _ & F & _).
  exists g. split; auto. apply (startup_ready observed csv g tf C T).
Qed.

Lemma filter_filter {A} (p q : A -> bool) l :
  filter p (filter q l) = filter (fun a => q a && p a) l.
Proof.
  induction l as [|a l IH]; simpl; auto.
  destruct (q a); simpl; [destruct (p a)|]; now rewrite IH.
Qed.

(** C1: for every offered pair of dropdown values, [update_graph]
    returns a bar chart over the group-by-size of the cleaned table.
    [d] is the cleaned table with its colour column (the binned years of
    education for 'education', the column itself otherwise).  Every row
    of the chart's data holds an x-axis value, a colour value and the
    number of rows of [d], among those missing in neither column, that
    have exactly these two values; every such row of [d] is counted in
    some row of the chart's data; and no pair of values has two rows. *)
Theorem update_graph_group_by_size observed name csv st0 st x c :
  startup observed name csv empty_state = (Ok tt, st0) ->
  gss_clean_frame st = gss_clean_frame st0 ->
  In x xaxis_options -> In c color_options ->
  exists g d color fig,
    gss_clean_frame st = Some g /\
    fst (update_graph observed x c st) = Ok fig /\
    colored_frame c g = Ok (d, color) /\
    (fig_kind fig = bar_chart /\ fig_x fig = Some x /\ fig_y fig = Some "count" /\
     fig_color fig = Some color /\ fig_barmode fig = Some "group") /\
    n_rows d = n_rows g /\
    (forall i, cell_at x d i = cell_at x g i) /\
    (forall i, cell_at color d i =
               if String.eqb c "education"
               then cut_cell education_bins (number (cell_at "education" g i))
               else cell_at c g i) /\
    (forall i, i < n_rows (fig_data fig) ->
       exists xv cv,
         cell_at x (fig_data fig) i = Some xv /\
         cell_at color (fig_data fig) i = Some cv /\
         cell_at "count" (fig_data fig) i =
         Some (SNum (inject_Z (Z.of_nat (rows_with x color d xv cv))))) /\
    (forall j, In j (remaining x color d) ->
       exists i xv cv,
         i < n_rows (fig_data fig) /\
         cell_at x (fig_data fig) i = Some xv /\
         cell_at color (fig_data fig) i = Some cv /\
         cell_is xv (cell_at x d j) = true /\
         cell_is cv (cell_at color d j) = true) /\
    (forall i i' xv cv xv' cv',
       cell_at x (fig_data fig) i = Some xv ->
       cell_at color (fig_data fig) i = Some cv ->
       cell_at x (fig_data fig) i' = Some xv' ->
       cell_at color (fig_data fig) i' = Some cv' ->
       scalar_eqb xv xv' = true -> scalar_eqb cv cv' = true -> i = i').
Proof.
  intros S E Hx Hc.
  destruct (startup_table _ _ _ _ S) as (g & G & R). rewrite <- E in G.
  destruct (callback_figure observed g x c R Hx Hc)
    as (d & color & fig & C & B & _ & K & NR & Cx & Cc & Rows & Compl & Uniq).
  destruct (run observed x c st g G) as (ext & U).
  exists g, d, color, fig. rewrite U. simpl fst.
  repeat split; try tauto; auto.
Qed.

(** C9: for every pair of values the dropdowns offer, [update_graph]
    returns a figure: the columns it refers to exist in the cleaned
    table, and the binned column is made exactly when the colour is
    'education'. *)
Theorem update_graph_returns observed name csv st0 st x c :
  startup observed name csv empty_state = (Ok tt, st0) ->
  gss_clean_frame st = gss_clean_frame st0 ->
  In x xaxis_options -> In c color_options ->
  exists g fig,
    gss_clean_frame st = Some g /\
    fst (update_graph observed x c st) = Ok fig /\
    (forall n, In n (xaxis_options ++ color_options) -> is_ok (column n g) = true) /\
    fig_x fig = Some x /\
    fig_color fig = Some (if String.eqb c "education" then "education_binned" else c) /\
    mem "education_binned" (names (df_cols (fig_data fig))) = String.eqb c "education".
Proof.
  intros S E Hx Hc.
  destruct (startup_table _ _ _ _ S) as (g & G & R). rewrite <- E in G.
  destruct (colored_ready g c R Hc) as (d & color & Y & C & Ecol & _).
  pose proof (bar_figure_ready observed g x c d color R Hx Hc C) as B.
  destruct (run observed x c st g G) as (ext & U).
  exists g. eexists. rewrite U, B. simpl fst.
  split; [exact G|]. split; [reflexivity|]. split; [|split; [reflexivity|split]].
  - intros n Hn. apply in_app_or in Hn as [Hn|Hn].
    + destruct (@ready_xaxis g R n Hn) as (X & ->). reflexivity.
    + simpl in Hn. destruct Hn as [<-|[<-|[<-|[]]]].
      * destruct (@ready_color g R "sex") as (X & ->); simpl; auto.
      * destruct (@ready_color g R "region") as (X & ->); simpl; auto.
      * destruct (@ready_education g R) as (educ & xs & -> & _). reflexivity.
  - simpl. now rewrite Ecol.
  - subst color. simpl in Hx, Hc.
    repeat (destruct Hx as [<-|Hx]; [|]); try contradiction;
      repeat (destruct Hc as [<-|Hc]; [|]); try contradiction; reflexivity.
Qed.

(** C10: with the colour 'education' the years of education are binned
    into (0,8], (8,12], (12,16], (16,25].  A respondent with exactly 0
    years, or with more than 25, has no bin, is dropped with the rows
    that miss a value, and is in none of the counts of the chart,
    whatever the answer to the survey question. *)
Theorem education_bins_exclude observed name csv st0 st x :
  startup observed name csv empty_state = (Ok tt, st0) ->
  gss_clean_frame st = gss_clean_frame st0 ->
  In x xaxis_options ->
  exists g d fig,
    gss_clean_frame st = Some g /\
    fst (update_graph observed x "education" st) = Ok fig /\
    colored_frame "education" g = Ok (d, "education_binned") /\
    (forall i q, cell_at "education" g i = Some (SNum q) ->
                 cell_at "education_binned" d i = option_map SCat (education_bin q)) /\
    (forall i, outside_bins (cell_at "education" g i) = true ->
               cell_at "education_binned" d i = None /\
               ~ In i (remaining x "education_binned" d)) /\
    (forall i, i < n_rows (fig_data fig) ->
       exists xv cv,
         cell_at x (fig_data fig) i = Some xv /\
         cell_at "education_binned" (fig_data fig) i = Some cv /\
         cell_at "count" (fig_data fig) i =
         Some (SNum (inject_Z (Z.of_nat (List.length
           (filter (fun j => cell_is xv (cell_at x g j)
                             && cell_is cv (cell_at "education_binned" d j)
                             && negb (outside_bins (cell_at "education" g j)))
                   (seq 0 (n_rows g)))))))).
Proof.
  intros S E Hx.
  destruct (startup_table _ _ _ _ S) as (g & G & R). rewrite <- E in G.
  assert (Hc : In "education" color_options) by (simpl; auto).
  destruct (callback_figure observed g x "education" R Hx Hc)
    as (d & color & fig & C & B & Ecol & K & NR & Cx & Cc & Rows & _ & _).
  simpl in Ecol. subst color. simpl in Cc.
  destruct (run observed x "education" st g G) as (ext & U).
  exists g, d, fig. rewrite U. simpl fst.
  split; [exact G|]. split; [exact B|]. split; [exact C|].
  assert (Out : forall i, outside_bins (cell_at "education" g i) = true ->
                          cell_at "education_binned" d i = None).
  { intros i H. rewrite Cc. now apply outside_bins_none. }
  split; [|split].
  - intros i q H. rewrite Cc, H. simpl number. apply cut_cell_bins.
  - intros i H. split; [auto|].
    unfold remaining. rewrite filter_In. intros [_ F].
    rewrite (Out i H) in F. simpl in F. now rewrite andb_false_r in F.
  - intros i Hi. destruct (Rows i Hi) as (xv & cv & A & B' & Cnt).
    exists xv, cv. split; [exact A|]. split; [exact B'|].
    rewrite Cnt. do 4 f_equal.
    unfold rows_with, remaining. rewrite NR, filter_filter.
    f_equal. apply filter_ext. intros j. rewrite Cx.
    destruct (outside_bins (cell_at "education" g j)) eqn:O.
    + rewrite (Out j O). simpl. now rewrite !andb_false_r.
    + simpl. rewrite andb_true_r.
      destruct (cell_at x g j), (cell_at "education_binned" d j); simpl;
        rewrite ?andb_false_r; auto.
Qed.

(** C3: the callback changes no object that was there before it ran,
    and rebinds no global; in particular [gss_clean] is the same table
    before and after, whether the call returns or raises, and with
    'education' as with the other colours.  The computations of the four
    static figures, and all of them in a row, leave [gss_clean] as it
    was too. *)
Theorem gss_clean_not_mutated observed st g :
  gss_clean_frame st = Some g ->
  (forall x c,
     gss_clean_frame (snd (update_graph observed x c st)) = Some g /\
     globals (snd (update_graph observed x c st)) = globals st /\
     forall l df, nth_error (heap st) l = Some df ->
                  nth_error (heap (snd (update_graph observed x c st))) l = Some df) /\
  gss_clean_frame (snd (table_figure observed st)) = Some g /\
  gss_clean_frame (snd (scatter_figure st)) = Some g /\
  gss_clean_frame (snd (box_figures st)) = Some g /\
  gss_clean_frame (snd (facet_figure st)) = Some g /\
  gss_clean_frame (snd (static_figures observed st)) = Some g.
Proof.
  intros G. split; [|repeat split].
  - intros x c. destruct (run observed x c st g G) as (ext & U). rewrite U. simpl snd.
    split; [now apply frame_kept|]. split; [reflexivity|].
    intros l df H. simpl. rewrite nth_error_app1; auto.
    apply nth_error_Some. congruence.
  - now apply table_figure_keeps.
  - now apply scatter_figure_keeps.
  - now apply box_figures_keeps.
  - now apply facet_figure_keeps.
  - now apply static_figures_keeps.
Qed.

(** C4: the figure [update_graph] returns depends on its two arguments
    and on the cleaned table only: two states that hold the same cleaned
    table give the same result, and so does the state an earlier call
    has left. *)
Theorem update_graph_deterministic observed st1 st2 g x c :
  gss_clean_frame st1 = Some g ->
  gss_clean_frame st2 = Some g ->
  fst (update_graph observed x c st1) = fst (update_graph observed x c st2) /\
  forall x' c',
    fst (update_graph observed x c (snd (update_graph observed x' c' st1))) =
    fst (update_graph observed x c st1).
Proof.
  intros G1 G2.
  destruct (run observed x c st1 g G1) as (e1 & U1).
  destruct (run observed x c st2 g G2) as (e2 & U2).
  split; [now rewrite U1, U2|].
  intros x' c'. destruct (run observed x' c' st1 g G1) as (e' & U').
  rewrite U'. simpl snd.
  destruct (run observed x c _ g (frame_kept st1 g e' G1)) as (e3 & U3).
  now rewrite U3, U1.
Qed.

End Arithmetic.

End CallbackTheorems.

(** ** The table of means *)

Module Means.

Import Pandas Plotly Dashboard Spec Facts Table.

Section Arithmetic.

Context {fl : Float64}.

Lemma row_has_key_one s a : row_has_key [s] [a] = cell_is s a.
Proof.
  unfold row_has_key. destruct a as [a|]; simpl; auto.
  now rewrite andb_true_r.
Qed.

Lemma rows_of_one kc n :
  rows_of [kc] n = map (fun i => [nth i (cells kc) None]) (seq 0 n).
Proof. reflexivity. Qed.

Lemma product_one l k : In k (product [l]) <-> exists a, k = [a] /\ In a l.
Proof.
  simpl. rewrite in_flat_map. split.
  - intros (a & Ha & [<-|[]]). eauto.
  - intros (a & -> & Ha). exists a. simpl. auto.
Qed.

Section OneKey.

(** The numbers of a column, as [mean] keeps them, are the numbers the
    column holds in the rows. *)
Lemma present_numbers col d rows :
  present (map (fun i => number (cell_at col d i)) rows) = numbers_at col d rows.
Proof.
  unfold numbers_at. induction rows as [|i rows IH]; [reflexivity|].
  cbn [map flat_map]. destruct (cell_at col d i) as [[s|q|k]|]; simpl; now rewrite IH.
Qed.

Lemma mean_numbers xs :
  mean xs = match present xs with
            | [] => None
            | _ => Some (SNum (fmean (present xs)))
            end.
Proof. unfold mean. now destruct (present xs). Qed.

Variables (observed : bool) (g : DataFrame) (key : string) (kc : Column).
Hypothesis W : well_formed g = true.
Hypothesis HK : column key g = Ok kc.
Hypothesis PK : is_categorical kc = false.

(** The mean of a group, as group-by computes it, is the mean of the
    numbers the column holds in the rows whose key is the key of the
    group. *)
Lemma group_mean col c xs s :
  column col g = Ok c -> as_numeric c = Ok xs ->
  aggregate agg_mean (filter_mask (map (row_has_key [s]) (rows_of [kc] (n_rows g))) xs) =
  match group_values key s col g with
  | [] => None
  | _ => Some (SNum (fmean (group_values key s col g)))
  end.
Proof.
  intros HC N. apply as_numeric_cells in N. subst xs.
  unfold aggregate. rewrite mean_numbers.
  assert (E : present (filter_mask (map (row_has_key [s]) (rows_of [kc] (n_rows g)))
                         (map number (cells c))) = group_values key s col g).
  { unfold group_values, rows_where. rewrite <- present_numbers. f_equal.
    rewrite rows_of_one, map_map.
    rewrite (column_cells _ _ _ W HC), map_map.
    rewrite filter_mask_map. f_equal.
    apply filter_ext. intros i. rewrite row_has_key_one.
    now rewrite (cell_at_column _ _ _ i HK). }
  now rewrite E.
Qed.

Lemma index_keys k :
  In k (group_index observed [kc] (n_rows g)) -> exists s j, k = [s] /\ j < n_rows g /\ cell_at key g j = Some s.
Proof.
  intros H. apply group_index_sound in H. simpl map in H.
  apply product_one in H as (s & -> & Hs).
  unfold levels in Hs. unfold is_categorical in PK.
  assert (S : In s (sort_uniq (present (cells kc))))
    by (destruct (col_dtype kc); try discriminate; exact Hs).
  apply sort_uniq_sound, present_In in S.
  apply In_nth_error in S as (j & Hj).
  exists s, j. split; auto.
  assert (L : j < List.length (cells kc))
    by (apply nth_error_Some; intro Hn;
        pose proof (eq_trans (eq_sym Hn) Hj) as X; discriminate X).
  rewrite (well_formed_length _ _ _ W HK) in L. split; auto.
  rewrite (cell_at_column _ _ _ j HK). now apply nth_error_nth.
Qed.

Lemma index_complete j s :
  j < n_rows g -> cell_at key g j = Some s ->
  exists i s', nth_error (group_index observed [kc] (n_rows g)) i = Some [s'] /\
               scalar_eqb s' s = true.
Proof.
  intros L C.
  assert (I : In (Some s) (cells kc)).
  { rewrite <- C, (cell_at_column _ _ _ j HK). apply nth_In.
    now rewrite (well_formed_length _ _ _ W HK). }
  destruct (levels_complete observed kc s (not_categorical_typed _ PK) I) as (s' & Ls & E).
  assert (K : In [s'] (group_index observed [kc] (n_rows g))).
  { apply group_index_complete.
    - simpl map. apply product_one. eauto.
    - unfold group_size. rewrite rows_of_one.
      assert (In [cell_at key g j]
                 (filter (row_has_key [s'])
                         (map (fun i => [nth i (cells kc) None]) (seq 0 (n_rows g))))).
      { apply filter_In. split.
        - apply in_map_iff. exists j. split.
          + now rewrite (cell_at_column _ _ _ j HK).
          + apply in_seq. lia.
        - rewrite row_has_key_one, C. exact E. }
      destruct (filter _ _); [contradiction | simpl; lia]. }
  apply In_nth_error in K as (i & Hi). eauto.
Qed.

End OneKey.

(** The frame lines 42 to 49 build, written out. *)
Lemma summary_explicit observed g s :
  summary_df observed g = Ok s ->
  exists kc c1 c2 c3 c4 x1 x2 x3 x4,
    column "sex" g = Ok kc /\
    (column "income" g = Ok c1 /\ as_numeric c1 = Ok x1) /\
    (column "job_prestige" g = Ok c2 /\ as_numeric c2 = Ok x2) /\
    (column "socioeconomic_index" g = Ok c3 /\ as_numeric c3 = Ok x3) /\
    (column "education" g = Ok c4 /\ as_numeric c4 = Ok x4) /\
    let index := group_index observed [kc] (n_rows g) in
    let means xs :=
      mkColumn float64
        (map (fun x => match x with
                       | Some (SNum q) => Some (SNum (fround 2 q))
                       | _ => x
                       end)
             (map (fun k => aggregate agg_mean
                              (filter_mask (map (row_has_key k) (rows_of [kc] (n_rows g))) xs))
                  index)) in
    s = mkDF []
          [ ("Sex", mkColumn (col_dtype kc) (map (fun k => nth_error k 0) index));
            ("Mean Income", means x1); ("Mean Job Prestige", means x2);
            ("Mean Socioeconomic Index", means x3);
            ("Mean Education (Years)", means x4) ].
Proof.
  unfold summary_df, groupby_agg. unfold rbind at 1 2. intros H.
  lazy [dict_of fold_left store fst snd String.eqb Ascii.eqb Bool.eqb rmap rbind] in H.
  destruct (column "sex" g) as [kc|] eqn:K; [|discriminate].
  destruct (column "income" g) as [c1|] eqn:C1; [|discriminate].
  destruct (as_numeric c1) as [x1|] eqn:N1; [|discriminate].
  destruct (column "job_prestige" g) as [c2|] eqn:C2; [|discriminate].
  destruct (as_numeric c2) as [x2|] eqn:N2; [|discriminate].
  destruct (column "socioeconomic_index" g) as [c3|] eqn:C3; [|discriminate].
  destruct (as_numeric c3) as [x3|] eqn:N3; [|discriminate].
  destruct (column "education" g) as [c4|] eqn:C4; [|discriminate].
  destruct (as_numeric c4) as [x4|] eqn:N4; [|discriminate].
  exists kc, c1, c2, c3, c4, x1, x2, x3, x4.
  repeat (split; [auto|]). cbv zeta.
  unfold reset_index, round, key_columns in H.
  cbn [rbind insert_levels mem names existsb map fst snd df_index df_cols is_float col_dtype
        cells seq nth Datatypes.length String.eqb Ascii.eqb Bool.eqb orb
        rename_columns rename lookup] in H.
  inversion H; subst; clear H.
  reflexivity.
Qed.

End Arithmetic.

End Means.

(** ** [dropna] over all columns, and the frames the static figures draw *)

Module Drops.

Import Pandas Spec Facts Dashboard Cleaning.

Lemma lookup_NoDup {A} n (c : A) l :
  NoDup (names l) -> In (n, c) l -> lookup n l = Some c.
Proof.
  induction l as [|[m b] l IH]; simpl; [tauto|].
  intros N H. inversion N as [|? ? Nm Nl]; subst.
  destruct H as [H|H].
  - inversion H; subst. now rewrite String.eqb_refl.
  - destruct (String.eqb m n) eqn:E.
    + apply String.eqb_eq in E. subst m. exfalso. apply Nm.
      unfold names. apply in_map_iff. exists (n, c). auto.
    + now apply IH.
Qed.

(** A row is kept when it misses no value, column by column. *)
Lemma dropna_explicit df :
  NoDup (names (df_cols df)) ->
  dropna df =
  filter_rows (map (fun i => forallb (fun c => notna (cell_at c df i)) (names (df_cols df)))
                   (seq 0 (n_rows df))) df.
Proof.
  intros N. unfold dropna, rows_of. rewrite map_map.
  apply (f_equal (fun m => filter_rows m df)).
  apply map_ext. intros i. unfold names.
  assert (G : forall l, incl l (df_cols df) ->
                forallb notna (map (fun c => nth i (cells c) None) (map snd l)) =
                forallb (fun c => notna (cell_at c df i)) (map fst l)).
  { induction l as [|[n c] l IH]; intros I; [reflexivity|].
    cbn [map forallb fst snd].
    rewrite IH by (intros a Ha; apply I; now right).
    assert (E : cell_at n df i = nth i (cells c) None).
    { unfold cell_at. rewrite (lookup_NoDup n c _ N); auto. apply I. now left. }
    now rewrite E. }
  apply G. apply incl_refl.
Qed.

Lemma lookup_first df :
  (df_cols df = [] /\ n_rows df = 0) \/ exists m c l, df_cols df = (m, c) :: l.
Proof.
  unfold n_rows. destruct (df_cols df) as [|[m c] l]; [left; auto | right; eauto].
Qed.

Section Dropped.

Variable df : DataFrame.
Hypothesis W : well_formed df = true.
Hypothesis N : NoDup (names (df_cols df)).

Lemma column_dropna_complete n c :
  column n df = Ok c ->
  column n (dropna df) =
  Ok (mkColumn (col_dtype c) (map (cell_at n df) (complete (names (df_cols df)) df))).
Proof.
  intros H. rewrite (dropna_explicit df N).
  apply (column_filter_rows df W _ n c H).
Qed.

Lemma n_rows_dropna :
  n_rows (dropna df) = List.length (complete (names (df_cols df)) df).
Proof.
  destruct (lookup_first df) as [[E Z]|(m & c & l & E)].
  - unfold complete. rewrite Z. unfold dropna, filter_rows, n_rows. simpl.
    now rewrite E.
  - rewrite (dropna_explicit df N).
    apply (n_rows_filter_rows df m c W).
    apply column_lookup. rewrite E. simpl. now rewrite String.eqb_refl.
Qed.

Lemma cell_at_dropna n c k :
  column n df = Ok c -> k < n_rows (dropna df) ->
  cell_at n (dropna df) k = cell_at n df (nth k (complete (names (df_cols df)) df) 0).
Proof.
  intros H L. rewrite n_rows_dropna in L.
  rewrite (cell_at_column _ _ _ _ (column_dropna_complete n c H)). simpl.
  now apply nth_map_lt.
Qed.

(** What is left has no missing value. *)
Lemma notna_dropna n c k :
  column n df = Ok c -> k < n_rows (dropna df) ->
  notna (cell_at n (dropna df) k) = true.
Proof.
  intros H L. rewrite (cell_at_dropna n c k H L).
  rewrite n_rows_dropna in L.
  pose proof (nth_In (complete (names (df_cols df)) df) 0 L) as I.
  unfold complete in I. apply filter_In in I as [_ I].
  rewrite forallb_forall in I. apply I.
  apply lookup_in_names. apply column_lookup in H. congruence.
Qed.

End Dropped.

(** The frame [g[cols]] has the listed columns of [g]. *)
Lemma select_columns cols g sel :
  well_formed g = true -> cols <> [] -> select cols g = Ok sel ->
  names (df_cols sel) = cols /\
  well_formed sel = true /\
  n_rows sel = n_rows g /\
  (forall c, In c cols -> lookup c (df_cols sel) = lookup c (df_cols g)) /\
  (forall c, In c cols -> exists col, column c g = Ok col).
Proof.
  intros W Ne S. apply select_inv in S as [_ F].
  assert (Nm : names (df_cols sel) = cols).
  { clear Ne. induction F as [|n nc cols cs [E _] F IH]; simpl; auto.
    now rewrite E, IH. }
  assert (Lk : forall c, In c cols -> lookup c (df_cols sel) = lookup c (df_cols g)).
  { clear Ne Nm. intros c. induction F as [|n [m col] cols cs [E L] F IH]; simpl.
    - tauto.
    - simpl in E, L. subst m. intros H.
      destruct (String.eqb n c) eqn:Enc.
      + apply String.eqb_eq in Enc. subst n. now rewrite L.
      + apply IH. destruct H as [H|H]; auto. subst. now rewrite String.eqb_refl in Enc. }
  assert (Ex : forall c, In c cols -> exists col, column c g = Ok col).
  { clear Ne Nm Lk. intros c. induction F as [|n [m col] cols cs [E L] F IH]; simpl.
    - tauto.
    - simpl in E, L. intros [<-|H]; auto. exists col. now apply column_lookup. }
  assert (Len : forall nc, In nc (df_cols sel) -> List.length (cells (snd nc)) = n_rows g).
  { clear Ne Nm Lk Ex. induction F as [|n [m col] cols cs [E L] F IH]; simpl.
    - tauto.
    - simpl in E, L. intros nc [<-|H]; auto. simpl.
      apply (well_formed_length g n col W). now apply column_lookup. }
  assert (NR : n_rows sel = n_rows g).
  { unfold n_rows at 1. destruct (df_cols sel) as [|[m c] l] eqn:E.
    - simpl in Nm. congruence.
    - apply (Len (m, c)). now left. }
  repeat split; auto.
  unfold well_formed. apply forallb_forall. intros nc H.
  apply Nat.eqb_eq. rewrite NR. now apply Len.
Qed.

Lemma complete_ext cols d g :
  n_rows d = n_rows g ->
  (forall c i, In c cols -> cell_at c d i = cell_at c g i) ->
  complete cols d = complete cols g.
Proof.
  intros NR H. unfold complete. rewrite NR. apply filter_ext. intros i.
  induction cols as [|c cols IH]; simpl; auto.
  rewrite H by now left. rewrite IH; auto. intros c' j Hc. apply H. now right.
Qed.

(** [g[cols].dropna()], the frame of the scatter plot and of the two
    box plots: the rows of [g] that miss none of the listed values, in
    the order of [g]. *)
Lemma dropna_select cols g sel :
  well_formed g = true -> cols <> [] -> NoDup cols -> select cols g = Ok sel ->
  names (df_cols (dropna sel)) = cols /\
  n_rows (dropna sel) = List.length (complete cols g) /\
  forall c k, In c cols -> k < n_rows (dropna sel) ->
    cell_at c (dropna sel) k = cell_at c g (nth k (complete cols g) 0) /\
    notna (cell_at c (dropna sel) k) = true.
Proof.
  intros W Ne Nd S.
  destruct (select_columns cols g sel W Ne S) as (Nm & Ws & NR & Lk & Ex).
  assert (Nd' : NoDup (names (df_cols sel))) by now rewrite Nm.
  assert (Ce : complete cols sel = complete cols g).
  { apply complete_ext; auto. intros c i Hc. unfold cell_at. now rewrite Lk. }
  split; [|split].
  - unfold dropna, filter_rows, names. simpl. rewrite map_map. simpl. exact Nm.
  - rewrite (n_rows_dropna sel Ws Nd'), Nm. now rewrite Ce.
  - intros c k Hc Hk.
    assert (C : exists col, column c sel = Ok col).
    { destruct (Ex c Hc) as (col & E). exists col.
      apply column_lookup. rewrite (Lk c Hc). now apply column_lookup. }
    destruct C as (col & C). split.
    + rewrite (cell_at_dropna sel Ws Nd' c col k C Hk), Nm, Ce.
      unfold cell_at. now rewrite Lk.
    + apply (notna_dropna sel Ws Nd' c col k C Hk).
Qed.

End Drops.

(** ** [pd.cut] into bins of equal width *)

Module EqualWidth.

Import Pandas Spec Facts Bins.

Lemma Qmin'_le a b : (Qmin' a b <= a)%Q /\ (Qmin' a b <= b)%Q.
Proof.
  unfold Qmin'. destruct (Qle_bool a b) eqn:E.
  - apply Qle_bool_iff in E. split; [apply Qle_refl | exact E].
  - apply Qle_bool_false in E. split; [now apply Qlt_le_weak | apply Qle_refl].
Qed.

Lemma Qmax'_ge a b : (a <= Qmax' a b)%Q /\ (b <= Qmax' a b)%Q.
Proof.
  unfold Qmax'. destruct (Qle_bool a b) eqn:E.
  - apply Qle_bool_iff in E. split; [exact E | apply Qle_refl].
  - apply Qle_bool_false in E. split; [apply Qle_refl | now apply Qlt_le_weak].
Qed.

Lemma fold_min_le vs : forall v x, In x (v :: vs) -> (fold_left Qmin' vs v <= x)%Q.
Proof.
  induction vs as [|a vs IH]; intros v x H.
  - destruct H as [<-|[]]. apply Qle_refl.
  - cbn [fold_left].
    assert (L : (fold_left Qmin' vs (Qmin' v a) <= Qmin' v a)%Q) by (apply IH; now left).
    destruct (Qmin'_le v a) as [Lv La].
    destruct H as [<-|[<-|H]].
    + eapply Qle_trans; eauto.
    + eapply Qle_trans; eauto.
    + apply IH. now right.
Qed.

Lemma fold_max_ge vs : forall v x, In x (v :: vs) -> (x <= fold_left Qmax' vs v)%Q.
Proof.
  induction vs as [|a vs IH]; intros v x H.
  - destruct H as [<-|[]]. apply Qle_refl.
  - cbn [fold_left].
    assert (L : (Qmax' v a <= fold_left Qmax' vs (Qmax' v a))%Q) by (apply IH; now left).
    destruct (Qmax'_ge v a) as [Lv La].
    destruct H as [<-|[<-|H]].
    + eapply Qle_trans; eauto.
    + eapply Qle_trans; eauto.
    + apply IH. now right.
Qed.

Lemma bin_of_cons lo hi r v i :
  bin_of (lo :: hi :: r) v i =
  if negb (Qle_bool v lo) && Qle_bool v hi then Some i else bin_of (hi :: r) v (S i).
Proof. reflexivity. Qed.

(** The bin [pd.cut] finds for a value is a bin that holds it. *)
Lemma bin_of_in_bin edges : forall v i k,
  bin_of edges v i = Some k ->
  i <= k /\ k - i < List.length edges - 1 /\ in_bin edges (k - i) v = true.
Proof.
  induction edges as [|lo edges IH]; intros v i k H; [discriminate|].
  destruct edges as [|hi edges]; [discriminate|].
  rewrite bin_of_cons in H.
  destruct (negb (Qle_bool v lo) && Qle_bool v hi) eqn:E.
  - inversion H; subst k. rewrite Nat.sub_diag.
    split; [lia|]. split; [simpl; lia|]. exact E.
  - destruct (IH v (S i) k H) as (L & B & I).
    split; [lia|]. split; [simpl in *; lia|].
    replace (k - i) with (S (k - S i)) by lia. exact I.
Qed.

(** A value without a bin lies in no bin. *)
Lemma bin_of_none edges : forall v i k,
  bin_of edges v i = None -> in_bin edges k v = false.
Proof.
  induction edges as [|lo edges IH]; intros v i k H.
  - unfold in_bin. now destruct k.
  - destruct edges as [|hi edges].
    + unfold in_bin. destruct k as [|[|k]]; reflexivity.
    + rewrite bin_of_cons in H.
      destruct (negb (Qle_bool v lo) && Qle_bool v hi) eqn:E; [discriminate|].
      destruct k as [|k]; [exact E|]. exact (IH v (S i) k H).
Qed.

(** A cell is given a bin exactly when it holds a number that lies in
    one of the bins. *)
Lemma notna_cut_cell edges c :
  notna (cut_cell edges (number c)) = binned edges c.
Proof.
  destruct c as [[s|q|k]|]; try reflexivity.
  cbn [number cut_cell binned].
  destruct (bin_of edges q 0) as [k|] eqn:B; cbn [option_map notna].
  - destruct (bin_of_in_bin _ _ _ _ B) as (_ & L & I). rewrite Nat.sub_0_r in L, I.
    symmetry. apply existsb_exists. exists k. split; [apply in_seq; lia | exact I].
  - symmetry. apply not_true_is_false. intros H.
    apply existsb_exists in H as (k & _ & I).
    now rewrite (bin_of_none _ _ _ k B) in I.
Qed.

Lemma cut_cell_bin edges q code :
  cut_cell edges (Some q) = Some (SCat code) ->
  code < List.length edges - 1 /\ in_bin edges code q = true.
Proof.
  cbn [cut_cell]. destruct (bin_of edges q 0) as [k|] eqn:B; [|discriminate].
  inversion 1; subst k.
  destruct (bin_of_in_bin _ _ _ _ B) as (_ & L & I). rewrite Nat.sub_0_r in L, I. auto.
Qed.

(** The least and the greatest as [pd.cut] computes them. *)
Lemma fold_min_In vs : forall v, In (fold_left Qmin' vs v) (v :: vs).
Proof.
  induction vs as [|a vs IH]; intros v; [now left|].
  cbn [fold_left]. destruct (IH (Qmin' v a)) as [E|I].
  - rewrite <- E. unfold Qmin'. destruct (Qle_bool v a); simpl; auto.
  - right. now right.
Qed.

Lemma fold_max_In vs : forall v, In (fold_left Qmax' vs v) (v :: vs).
Proof.
  induction vs as [|a vs IH]; intros v; [now left|].
  cbn [fold_left]. destruct (IH (Qmax' v a)) as [E|I].
  - rewrite <- E. unfold Qmax'. destruct (Qle_bool v a); simpl; auto.
  - right. now right.
Qed.

Lemma fold_min_least v vs : least (v :: vs) (fold_left Qmin' vs v).
Proof. split; [apply fold_min_In | intros x; apply fold_min_le]. Qed.

Lemma fold_max_greatest v vs : greatest (v :: vs) (fold_left Qmax' vs v).
Proof. split; [apply fold_max_In | intros x; apply fold_max_ge]. Qed.

Lemma length_intervals edges : List.length (intervals edges) = List.length edges - 1.
Proof.
  induction edges as [|lo edges IH]; simpl; auto.
  destruct edges as [|hi edges]; simpl in *; auto. rewrite IH. lia.
Qed.

(** A column that arithmetic accepts holds numbers and missing values
    only. *)
Lemma as_numeric_number c xs s :
  as_numeric c = Ok xs -> In (Some s) (cells c) -> exists q, s = SNum q.
Proof.
  unfold as_numeric. intros H.
  assert (G : rmap (fun x : cell =>
                      match x with
                      | None => Ok None
                      | Some (SNum q) => Ok (Some q)
                      | Some _ => Raise (TypeError "unsupported operand type: str")
                      end) (cells c) = Ok xs)
    by (destruct (col_dtype c); try discriminate; exact H).
  clear H. revert xs G. induction (cells c) as [|x l IH]; simpl; intros xs G I.
  - destruct I.
  - destruct x as [[s'|q|k]|]; try discriminate.
    + destruct (rmap _ l) eqn:E; [|discriminate].
      destruct I as [I|I]; [inversion I; eauto | eapply IH; eauto].
    + destruct (rmap _ l) eqn:E; [|discriminate].
      destruct I as [I|I]; [discriminate | eapply IH; eauto].
Qed.

Section Arithmetic.

Context {fl : Float64}.

Lemma length_cut_edges mn mx n : List.length (cut_edges mn mx n) = S n.
Proof. unfold cut_edges. now rewrite length_map, length_seq. Qed.

(** [pd.cut(col, bins=n)], when it returns: the column holds a number,
    the edges run from the least to the greatest of its numbers, and
    each cell is given the bin of its number. *)
Lemma cut_equal_width_inv c n b :
  cut_equal_width c n = Ok b ->
  exists v vs,
    present (map number (cells c)) = v :: vs /\
    (forall s, In (Some s) (cells c) -> exists q, s = SNum q) /\
    b = mkColumn
          (category
             (intervals
                (map (label_edge (cut_edges (fold_left Qmin' vs v) (fold_left Qmax' vs v) n))
                     (cut_edges (fold_left Qmin' vs v) (fold_left Qmax' vs v) n))))
          (map (cut_cell (cut_edges (fold_left Qmin' vs v) (fold_left Qmax' vs v) n))
               (map number (cells c))).
Proof.
  unfold cut_equal_width, rbind. destruct (as_numeric c) as [xs|] eqn:A; [|discriminate].
  apply as_numeric_cells in A as A'. subst xs.
  destruct n as [|n]; [discriminate|].
  destruct (present (map number (cells c))) as [|v vs] eqn:P; [discriminate|].
  destruct (negb (increasing _)); [discriminate|].
  inversion 1; subst b; clear H.
  exists v, vs. split; [reflexivity|]. split; [|reflexivity].
  intros s Hs. apply (as_numeric_number c _ s A Hs).
Qed.

End Arithmetic.

End EqualWidth.

Module FigureTheorems.

Import Pandas Plotly CSV Py Dashboard Spec Facts Table Cleaning Means Drops EqualWidth.
Import CallbackTheorems.

Section Arithmetic.

Context {fl : Float64}.

Lemma nth_map_error {A B} (f : A -> B) l i k d :
  nth_error l i = Some k -> nth i (map f l) d = f k.
Proof.
  intros H.
  assert (L : i < List.length l) by (apply nth_error_Some; rewrite H; discriminate).
  rewrite (nth_map_lt f l i d k L). f_equal. now apply nth_error_nth.
Qed.

(** *** The five figures *)

Lemma express_inv kind df x y color facet wrap hover labels barmode cdm f :
  express kind df x y color facet wrap hover labels barmode cdm = Ok f ->
  f = mkFigure kind df x y color facet wrap hover labels barmode cdm [].
Proof.
  unfold express, rbind. destruct (check_columns _ _); [|discriminate]. now inversion 1.
Qed.

(** The table of means, from the frame it is computed from: its rows
    are the sexes of the frame, each once, with the rounded means of
    the four columns over the rows of that sex. *)
Lemma table_fig_explicit observed g tf :
  ready g -> table_fig observed g = Ok tf ->
  fig_kind tf = table_chart /\
  names (df_cols (fig_data tf)) =
    [ "Sex"; "Mean Income"; "Mean Job Prestige"; "Mean Socioeconomic Index";
      "Mean Education (Years)" ] /\
  means_by_sex g (fig_data tf) /\
  every_sex_listed g (fig_data tf) /\
  (forall i i' s s',
     cell_at "Sex" (fig_data tf) i = Some s ->
     cell_at "Sex" (fig_data tf) i' = Some s' ->
     scalar_eqb s s' = true -> i = i').
Proof.
  intros R T.
  unfold table_fig, rbind in T.
  destruct (summary_df observed g) as [s|] eqn:E; [|discriminate].
  inversion T; subst tf; clear T.
  destruct (summary_explicit observed g s E)
    as (kc & c1 & c2 & c3 & c4 & x1 & x2 & x3 & x4 & K & (C1 & N1) & (C2 & N2)
        & (C3 & N3) & (C4 & N4) & Es).
  cbv zeta in Es. subst s. cbn [create_table fig_kind fig_data].
  pose proof (@ready_wf g R) as W.
  pose proof (@ready_plain g R _ _ K) as PK.
  split; [reflexivity|]. split; [reflexivity|].
  set (index := group_index observed [kc] (n_rows g)).
  assert (NR : forall rest c, n_rows (mkDF [] (("Sex",
                 mkColumn c (map (fun k : list scalar => nth_error k 0) index)) :: rest))
               = List.length index).
  { intros. unfold n_rows. simpl. apply length_map. }
  split; [|split].
  - intros i Hi. rewrite NR in Hi.
    destruct (nth_error index i) as [k|] eqn:Ek.
    2:{ apply nth_error_None in Ek. lia. }
    destruct (index_keys observed g "sex" kc W K PK k (nth_error_In _ _ Ek))
      as (s & j & -> & Lj & Cj).
    exists s. unfold cell_at. cbn [df_cols lookup String.eqb Ascii.eqb Bool.eqb cells].
    rewrite !map_map, !(nth_map_error _ _ _ _ _ Ek). cbn [nth_error]. cbv beta.
    split; [reflexivity|]. split; [eauto|].
    rewrite (group_mean g "sex" kc W K "income" c1 x1 s C1 N1).
    rewrite (group_mean g "sex" kc W K "job_prestige" c2 x2 s C2 N2).
    rewrite (group_mean g "sex" kc W K "socioeconomic_index" c3 x3 s C3 N3).
    rewrite (group_mean g "sex" kc W K "education" c4 x4 s C4 N4).
    unfold rounded_mean.
    repeat split;
      match goal with
      | |- context [group_values ?a ?b ?c ?d] => now destruct (group_values a b c d)
      end.
  - intros j s Lj Cj.
    destruct (index_complete observed g "sex" kc W K PK j s Lj Cj) as (i & s' & Hi & Es).
    exists i, s'. rewrite NR.
    split; [apply nth_error_Some; intro Hn;
            pose proof (eq_trans (eq_sym Hn) Hi) as X; discriminate X|].
    split; [|exact Es].
    unfold cell_at. cbn [df_cols lookup String.eqb Ascii.eqb Bool.eqb cells].
    fold index in Hi. now rewrite (nth_map_error _ _ _ _ _ Hi).
  - assert (Key : forall rest n a,
               cell_at "Sex"
                 (mkDF []
                    (("Sex", mkColumn (col_dtype kc)
                               (map (fun k : list scalar => nth_error k 0) index))
                     :: rest)) n = Some a ->
               nth_error index n = Some [a]).
    { intros rest n a. unfold cell_at.
      cbn [df_cols lookup String.eqb Ascii.eqb Bool.eqb cells].
      destruct (nth_error index n) as [k|] eqn:Ek.
      - rewrite (nth_map_error _ _ _ _ _ Ek).
        destruct (index_keys observed g "sex" kc W K PK k (nth_error_In _ _ Ek))
          as (s0 & j & -> & _). simpl. now inversion 1.
      - apply nth_error_None in Ek.
        rewrite nth_overflow by now rewrite length_map. discriminate. }
    intros i i' s s' A A' E'.
    apply (Order.group_index_unique observed [kc] (n_rows g) i i' [s] [s']
             (Key _ _ _ A) (Key _ _ _ A')).
    simpl. now rewrite E'.
Qed.

(** The numbers of a column of the frame, row by row. *)
Lemma present_column n c g :
  well_formed g = true -> column n g = Ok c ->
  present (map number (cells c)) = numbers_at n g (seq 0 (n_rows g)).
Proof.
  intros W H. rewrite <- present_numbers. f_equal.
  rewrite (column_cells _ _ _ W H), map_map. reflexivity.
Qed.

(** The frame of the faceted plot, from the frame it is computed from:
    the job prestige scores are cut at the seven edges laid between
    their least and their greatest, and the rows drawn are those with
    an income, a sex and a score that lies in one of the six bins. *)
Lemma facet_fig_explicit g ff :
  ready g -> facet_fig g = Ok ff ->
  fig_kind ff = box_chart /\
  fig_x ff = Some "sex" /\ fig_y ff = Some "income" /\
  fig_facet_col ff = Some "prestige_category" /\
  names (df_cols (fig_data ff)) = [ "income"; "sex"; "job_prestige"; "prestige_category" ] /\
  exists mn mx cats,
    least (numbers_at "job_prestige" g (seq 0 (n_rows g))) mn /\
    greatest (numbers_at "job_prestige" g (seq 0 (n_rows g))) mx /\
    dtype_at "prestige_category" (fig_data ff) = category cats /\
    List.length cats = 6 /\
    n_rows (fig_data ff) = List.length (faceted (map (cut_edge mn mx 6) (seq 0 7)) g) /\
    forall k, k < n_rows (fig_data ff) ->
      (forall c, In c [ "income"; "sex"; "job_prestige" ] ->
         cell_at c (fig_data ff) k =
         cell_at c g (nth k (faceted (map (cut_edge mn mx 6) (seq 0 7)) g) 0)) /\
      exists q code,
        cell_at "job_prestige" (fig_data ff) k = Some (SNum q) /\
        cell_at "prestige_category" (fig_data ff) k = Some (SCat code) /\
        code < 6 /\
        in_bin (map (cut_edge mn mx 6) (seq 0 7)) code q = true.
Proof.
  intros R Ff. pose proof (@ready_wf g R) as W.
  unfold facet_fig, rbind in Ff. destruct (facet_df g) as [d|] eqn:D; [|discriminate].
  apply express_inv in Ff. subst ff.
  cbn [fig_kind fig_x fig_y fig_facet_col fig_data].
  repeat (split; [reflexivity|]).
  unfold facet_df, rbind in D.
  destruct (select _ g) as [[idx cols]|] eqn:Sel; [|discriminate].
  apply select_inv in Sel as [_ Sel]. simpl in Sel. invert_columns.
  match goal with H : lookup "income" _ = Some ?a |- _ => rename H into Ki; rename a into ci end.
  match goal with H : lookup "sex" _ = Some ?a |- _ => rename H into Ks; rename a into cs end.
  match goal with H : lookup "job_prestige" _ = Some ?a |- _ =>
    rename H into Kp; rename a into cp end.
  unfold column in D. cbn [lookup df_cols String.eqb Ascii.eqb Bool.eqb] in D.
  destruct (cut_equal_width cp 6) as [cat|] eqn:Cut; [|discriminate].
  inversion D; subst d; clear D.
  destruct (cut_equal_width_inv cp 6 cat Cut) as (v & vs & P & Num & Ecat).
  assert (Hp : column "job_prestige" g = Ok cp) by now apply column_lookup.
  rewrite (present_column "job_prestige" cp g W Hp) in P.
  set (mn := fold_left Qmin' vs v) in *. set (mx := fold_left Qmax' vs v) in *.
  change (cut_edges mn mx 6) with (map (cut_edge mn mx 6) (seq 0 7)) in Ecat.
  set (edges := map (cut_edge mn mx 6) (seq 0 7)) in *.
  assert (Le : List.length edges = 7) by (unfold edges; now rewrite length_map).
  set (df := mkDF idx [ ("income", ci); ("sex", cs); ("job_prestige", cp);
                        ("prestige_category", cat) ]).
  change (setitem "prestige_category" cat
            (mkDF idx [ ("income", ci); ("sex", cs); ("job_prestige", cp) ])) with df in *.
  assert (Li : List.length (cells ci) = n_rows g)
    by (apply (well_formed_length g "income" ci W); now apply column_lookup).
  assert (Ls : List.length (cells cs) = n_rows g)
    by (apply (well_formed_length g "sex" cs W); now apply column_lookup).
  assert (Lp : List.length (cells cp) = n_rows g)
    by (apply (well_formed_length g "job_prestige" cp W); exact Hp).
  assert (Lc : List.length (cells cat) = n_rows g)
    by (rewrite Ecat; simpl; now rewrite !length_map).
  assert (NR : n_rows df = n_rows g) by exact Li.
  assert (Wd : well_formed df = true).
  { unfold well_formed. rewrite NR. simpl. now rewrite Li, Ls, Lp, Lc, Nat.eqb_refl. }
  assert (Nd : NoDup (names (df_cols df)))
    by (simpl; repeat (constructor; [simpl; intuition discriminate|]); constructor).
  assert (Cg : forall c i, In c [ "income"; "sex"; "job_prestige" ] ->
                           cell_at c df i = cell_at c g i).
  { intros c i [<-|[<-|[<-|[]]]]; unfold cell_at; simpl.
    - now rewrite Ki.
    - now rewrite Ks.
    - now rewrite Kp. }
  assert (Cp : forall i, i < n_rows g ->
                 cell_at "prestige_category" df i =
                 cut_cell edges (number (cell_at "job_prestige" g i))).
  { intros i Hi. unfold cell_at. rewrite Kp. simpl. rewrite Ecat. simpl.
    rewrite map_map.
    apply (nth_map_lt (fun x => cut_cell edges (number x)) (cells cp) i None None). lia. }
  assert (Ce : complete (names (df_cols df)) df = faceted edges g).
  { unfold complete, faceted. rewrite NR. apply filter_ext_in. intros i Hi.
    apply in_seq in Hi.
    cbn [names map fst df_cols df forallb].
    rewrite !Cg by (simpl; tauto). rewrite (Cp i) by lia.
    rewrite notna_cut_cell, andb_true_r.
    destruct (notna (cell_at "income" g i)); [|reflexivity].
    destruct (notna (cell_at "sex" g i)); [|reflexivity].
    cbn [andb].
    destruct (cell_at "job_prestige" g i) as [[s|q|k]|]; reflexivity. }
  assert (Hci : column "income" df = Ok ci) by reflexivity.
  assert (Hcs : column "sex" df = Ok cs) by reflexivity.
  assert (Hcp : column "job_prestige" df = Ok cp) by reflexivity.
  assert (Hcat : column "prestige_category" df = Ok cat) by reflexivity.
  split.
  { unfold dropna, filter_rows, names. simpl. reflexivity. }
  exists mn, mx. eexists.
  split; [rewrite P; apply fold_min_least|].
  split; [rewrite P; apply fold_max_greatest|].
  split.
  { rewrite (Grouping.dtype_at_column (dropna df) "prestige_category" _
               (column_dropna_complete df Wd Nd "prestige_category" cat Hcat)).
    rewrite Ecat. reflexivity. }
  split; [rewrite length_intervals, length_map; exact (f_equal pred Le)|].
  split; [rewrite (n_rows_dropna df Wd Nd); now rewrite Ce|].
  intros k Hk. split.
  - intros c Hc.
    assert (X : exists col, column c df = Ok col).
    { destruct Hc as [<-|[<-|[<-|[]]]]; eauto. }
    destruct X as (col & X).
    rewrite (cell_at_dropna df Wd Nd c col k X Hk), Ce. now apply Cg.
  - assert (Hk' := Hk). rewrite (n_rows_dropna df Wd Nd), Ce in Hk'.
    pose proof (nth_In _ 0 Hk') as I.
    rewrite (cell_at_dropna df Wd Nd "job_prestige" cp k Hcp Hk), Ce.
    rewrite (cell_at_dropna df Wd Nd "prestige_category" cat k Hcat Hk), Ce.
    set (i := nth k (faceted edges g) 0) in *.
    unfold faceted in I. apply filter_In in I as [I J]. apply in_seq in I.
    apply andb_prop in J as [_ J].
    rewrite Cg by (simpl; tauto). rewrite (Cp i) by lia.
    destruct (cell_at "job_prestige" g i) as [[s|q|c]|]; try discriminate J.
    rewrite <- notna_cut_cell in J. cbn [number] in J |- *.
    destruct (cut_cell edges (Some q)) as [[s|q'|code]|] eqn:B; try discriminate J.
    + cbn [cut_cell] in B. destruct (bin_of edges q 0); discriminate B.
    + cbn [cut_cell] in B. destruct (bin_of edges q 0); discriminate B.
    + destruct (cut_cell_bin edges q code B) as (L & In').
      exists q, code. rewrite Le in L. repeat split; auto.
Qed.


(** C6: the script computes five static figures and no more, and they
    are the five figures the layout shows.  The first is the table of
    means by sex: one row per sex of the cleaned table, with the rounded
    means of the four columns over the rows of that sex.  Then a scatter
    plot of income against job prestige coloured by sex, a box plot of
    income by sex and a box plot of job prestige by sex.  The last is a
    box plot of income by sex with one facet per job prestige category:
    the categories are the six bins between the seven edges [pd.cut]
    lays from the least to the greatest job prestige score, the plot
    draws the rows with an income, a sex and a score in one of the
    bins, and each row is in the category whose bin holds its score. *)
Theorem five_static_figures observed name csv st :
  startup observed name csv empty_state = (Ok tt, st) ->
  exists g tf sf bi bp ff a,
    gss_clean_frame st = Some g /\
    figures_in st = [ "table_fig"; "scatter_fig"; "income_boxplot_fig";
                      "prestige_boxplot_fig"; "facet_fig" ] /\
    (figure_named "table_fig" st = Some tf /\ fig_kind tf = table_chart /\
     names (df_cols (fig_data tf)) =
       [ "Sex"; "Mean Income"; "Mean Job Prestige"; "Mean Socioeconomic Index";
         "Mean Education (Years)" ] /\
     means_by_sex g (fig_data tf) /\
     every_sex_listed g (fig_data tf)) /\
    (figure_named "scatter_fig" st = Some sf /\ fig_kind sf = scatter_chart /\
     fig_x sf = Some "job_prestige" /\ fig_y sf = Some "income" /\
     fig_color sf = Some "sex") /\
    (figure_named "income_boxplot_fig" st = Some bi /\ fig_kind bi = box_chart /\
     fig_x bi = Some "sex" /\ fig_y bi = Some "income" /\ fig_facet_col bi = None) /\
    (figure_named "prestige_boxplot_fig" st = Some bp /\ fig_kind bp = box_chart /\
     fig_x bp = Some "sex" /\ fig_y bp = Some "job_prestige" /\ fig_facet_col bp = None) /\
    (figure_named "facet_fig" st = Some ff /\ fig_kind ff = box_chart /\
     fig_x ff = Some "sex" /\ fig_y ff = Some "income" /\
     fig_facet_col ff = Some "prestige_category" /\
     names (df_cols (fig_data ff)) =
       [ "income"; "sex"; "job_prestige"; "prestige_category" ] /\
     exists mn mx cats,
       least (numbers_at "job_prestige" g (seq 0 (n_rows g))) mn /\
       greatest (numbers_at "job_prestige" g (seq 0 (n_rows g))) mx /\
       dtype_at "prestige_category" (fig_data ff) = category cats /\
       List.length cats = 6 /\
       n_rows (fig_data ff) =
         List.length (faceted (map (cut_edge mn mx 6) (seq 0 7)) g) /\
       forall k, k < n_rows (fig_data ff) ->
         (forall c, In c [ "income"; "sex"; "job_prestige" ] ->
            cell_at c (fig_data ff) k =
            cell_at c g (nth k (faceted (map (cut_edge mn mx 6) (seq 0 7)) g) 0)) /\
         exists q code,
           cell_at "job_prestige" (fig_data ff) k = Some (SNum q) /\
           cell_at "prestige_category" (fig_data ff) k = Some (SCat code) /\
           code < 6 /\
           in_bin (map (cut_edge mn mx 6) (seq 0 7)) code q = true) /\
    app_of st = Some a /\
    option_map Dash.graphs (app_layout a) =
    Some [ (None, Some tf); (Some "interactive-bar-graph", None); (None, Some sf);
           (None, Some bi); (None, Some bp); (None, Some ff) ].
Proof.
  intros S.
  destruct (startup_facts _ _ _ _ S)
    as (g & tf & sf & bi & bp & ff & C & T & Sc & Bi & Bp & Ff & G & F1 & F2 & F3 & F4
        & F5 & Fs & A & _).
  pose proof (startup_ready observed csv g tf C T) as R.
  exists g, tf, sf, bi, bp, ff, (app name tf sf bi bp ff).
  split; [exact G|].
  split; [exact Fs|].
  split.
  { split; [exact F1|].
    destruct (table_fig_explicit observed g tf R T) as (K & N & M & E & _). auto. }
  split.
  { split; [exact F2|].
    unfold scatter_fig, rbind in Sc. destruct (scatter_data g); [|discriminate].
    apply express_inv in Sc. subst sf. repeat split. }
  split.
  { split; [exact F3|].
    unfold income_boxplot_fig, rbind in Bi. destruct (box_data g); [|discriminate].
    destruct (box _ _ _ _ _) eqn:E; [|discriminate].
    apply express_inv in E. inversion Bi; subst. repeat split. }
  split.
  { split; [exact F4|].
    unfold prestige_boxplot_fig, rbind in Bp. destruct (box_data g); [|discriminate].
    destruct (box _ _ _ _ _) eqn:E; [|discriminate].
    apply express_inv in E. inversion Bp; subst. repeat split. }
  split.
  { split; [exact F5|]. exact (facet_fig_explicit g ff R Ff). }
  split; [exact A|]. reflexivity.
Qed.

End Arithmetic.

End FigureTheorems.

Module ModuleTheorems.

Import Pandas Plotly CSV Py Dashboard Spec Facts Table Cleaning CallbackTheorems Startup.

Section Arithmetic.

Context {fl : Float64}.

Lemma load_and_clean_run csv :
  on_success (load_and_clean csv empty_state)
    (fun _ st =>
       exists g, gss_clean csv = Ok g /\ gss_clean_frame st = Some g).
Proof.
  run_script; auto.
  eexists. split; [|reflexivity].
  unfold gss_clean. use_equations. reflexivity.
Qed.

Lemma cleaned_age_cell (x y : cell) :
  cell_to_float
    match x with
    | Some (SStr s) =>
        match lookup s [("89 or older", "89")] with
        | Some s' => Some (SStr s')
        | None => x
        end
    | _ => x
    end = Ok y ->
  cleaned_age x = Some y.
Proof.
  destruct x as [[s|q|k]|]; intros H; unfold cleaned_age.
  - change (lookup s [("89 or older", "89")])
      with (if String.eqb "89 or older" s then Some "89" else @None string) in H.
    rewrite String.eqb_sym. destruct (String.eqb "89 or older" s).
    + assert (X : cell_to_float (Some (SStr "89")) = Ok (Some (SNum 89)))
        by (vm_compute; reflexivity).
      rewrite X in H. inversion H; subst. reflexivity.
    + unfold cell_to_float in H. destruct (PyStr.to_float s); [|discriminate].
      inversion H; subst. reflexivity.
  - inversion H; subst. reflexivity.
  - discriminate.
  - inversion H; subst. reflexivity.
Qed.

Lemma cleaned_age_cells (src : list cell) (out : list cell) :
  Forall2 (fun x y => cell_to_float x = Ok y)
          (cells (replace_values [("89 or older", "89")] (mkColumn object src))) out ->
  Forall2 (fun c c' => cleaned_age c = Some c') src out.
Proof.
  unfold replace_values. cbn [cells].
  revert out. induction src as [|x src IH]; intros out H.
  - inversion H. constructor.
  - rewrite map_cons in H. inversion H as [|a b l l' H2 F]; subst.
    constructor; [|now apply IH].
    exact (cleaned_age_cell x b H2).
Qed.

Lemma read_column_na na fields i m :
  nth_error fields i = Some m -> In m na ->
  nth_error (cells (read_column na fields)) i = Some None.
Proof.
  intros H I. unfold read_column.
  assert (N : is_na na m = true).
  { unfold is_na. apply orb_true_iff. left. now apply mem_In. }
  destruct (forallb _ fields); simpl; rewrite nth_error_map, H; simpl;
    unfold read_field_float, read_field_object; now rewrite N.
Qed.

(** C8: cleaning keeps exactly the seventeen listed columns of the
    file, under their new names and in the listed order; every column
    but age holds what the file held; age is a column of floats in which
    '89 or older' has become 89 and every other string the number it
    spells; and a field of the file that is one of the listed NA markers
    is read as a missing value. *)
Theorem cleaning_selects_renames_converts csv st :
  load_and_clean csv empty_state = (Ok tt, st) ->
  exists g,
    gss_clean_frame st = Some g /\
    names (df_cols g) = map snd cleaned_columns /\
    List.length (df_cols g) = 17 /\
    (forall s t, In (s, t) cleaned_columns -> t <> "age" ->
       exists col, lookup s (df_cols (read_csv na_values csv)) = Some col /\
                   lookup t (df_cols g) = Some col) /\
    (exists src age,
       lookup "age" (df_cols (read_csv na_values csv)) = Some src /\
       lookup "age" (df_cols g) = Some age /\
       col_dtype age = float64 /\
       Forall2 (fun c c' => cleaned_age c = Some c') (cells src) (cells age)) /\
    (forall j i r,
       j < List.length (header csv) ->
       nth_error (records csv) i = Some r ->
       In (nth j r EmptyString) na_values ->
       exists c,
         nth_error (df_cols (read_csv na_values csv)) j =
           Some (nth j (header csv) EmptyString, c) /\
         nth_error (cells c) i = Some None).
Proof.
  intros L. pose proof (load_and_clean_run csv) as R. rewrite L in R.
  destruct R as (g & C & G). exists g. split; [exact G|].
  destruct (clean_explicit _ _ C) as
    (id & wtss & sex & educ & region & age & coninc & prestg10 & mapres10 & papres10
     & sei10 & satjob & fechld & fefam & fepol & fepresch & meovrwrk & age' & S & A & ->).
  cbv zeta in S.
  destruct S as (S1 & S2 & S3 & S4 & S5 & S6 & S7 & S8 & S9 & S10 & S11 & S12 & S13
                 & S14 & S15 & S16 & S17).
  split; [reflexivity|]. split; [reflexivity|].
  split; [|split].
  - intros s t I NA. simpl in I.
    repeat (destruct I as [I|I];
            [inversion I; subst s t;
             first [exfalso; apply NA; reflexivity
                   | eexists; split; [eassumption | reflexivity]]|]).
    contradiction.
  - exists age, age'. split; [exact S6|]. split; [reflexivity|].
    apply astype_float_inv in A as [D F]. split; [exact D|].
    apply cleaned_age_cells. exact F.
  - intros j i r Lj Hr Hm.
    eexists. split.
    + unfold read_csv. simpl df_cols.
      rewrite nth_error_map, nth_error_seq.
      destruct (Nat.ltb_spec j (List.length (header csv))); [reflexivity | lia].
    + apply read_column_na with (m := nth j r EmptyString); auto.
      rewrite nth_error_map, Hr. reflexivity.
Qed.

(** C2: loading the module does not run to completion.  The statements
    up to the registration of the callback run, or raise what pandas
    and plotly raise on the file; when they have run, line 138 reads
    the name [app_final], which no statement has bound, and raises
    [NameError].  On the sample file, with exact arithmetic, that is
    what happens. *)
Theorem module_raises_name_error :
  (forall observed name csv,
     fst (module observed name csv empty_state) =
     match fst (startup observed name csv empty_state) with
     | Ok _ => Raise (NameError "app_final")
     | Raise e => Raise e
     end) /\
  fst (startup (fl := Ideal.arithmetic) true "app" Sample.csv empty_state) = Ok tt /\
  fst (module (fl := Ideal.arithmetic) true "app" Sample.csv empty_state) =
    Raise (NameError "app_final").
Proof.
  split; [|split].
  - intros observed name csv.
    destruct (module_run observed name csv) as (st & H). now rewrite H.
  - vm_compute. reflexivity.
  - vm_compute. reflexivity.
Qed.

End Arithmetic.

End ModuleTheorems.

Module DashTheorems.

Import Pandas Plotly Py Dashboard Dash CallbackTheorems.

Section Arithmetic.

Context {fl : Float64}.

Lemma on_change_xaxis observed a page st c v :
  app_callbacks a =
    [ mkCallback ("interactive-bar-graph", "figure")
                 [ ("xaxis-dropdown", "value"); ("color-dropdown", "value") ]
                 "update_graph" ] ->
  lookup "color-dropdown.value" page = Some (VText c) ->
  on_change observed a ("xaxis-dropdown", "value") (VText v) page st =
  match update_graph observed v c st with
  | (Ok fig, st') =>
      (Ok (store "interactive-bar-graph.figure" (VFigure fig)
                 (store "xaxis-dropdown.value" (VText v) page)), st')
  | (Raise e, st') => (Raise e, st')
  end.
Proof.
  intros Cb Hc. unfold on_change, triggered. rewrite Cb.
  cbn [filter existsb cb_inputs dep_eqb fst snd String.eqb Ascii.eqb Bool.eqb andb orb].
  unfold run_callbacks, run_callback.
  cbn [cb_inputs cb_output cb_function rmap prop_key fst snd String.append].
  rewrite lookup_store_eq.
  rewrite lookup_store_ne by name_neq. rewrite Hc.
  unfold call_function. cbn [String.eqb Ascii.eqb Bool.eqb].
  unfold bind, lift, ret.
  destruct (update_graph observed v c st) as [[fig|e] st']; reflexivity.
Qed.

Lemma on_change_color observed a page st x v :
  app_callbacks a =
    [ mkCallback ("interactive-bar-graph", "figure")
                 [ ("xaxis-dropdown", "value"); ("color-dropdown", "value") ]
                 "update_graph" ] ->
  lookup "xaxis-dropdown.value" page = Some (VText x) ->
  on_change observed a ("color-dropdown", "value") (VText v) page st =
  match update_graph observed x v st with
  | (Ok fig, st') =>
      (Ok (store "interactive-bar-graph.figure" (VFigure fig)
                 (store "color-dropdown.value" (VText v) page)), st')
  | (Raise e, st') => (Raise e, st')
  end.
Proof.
  intros Cb Hx. unfold on_change, triggered. rewrite Cb.
  cbn [filter existsb cb_inputs dep_eqb fst snd String.eqb Ascii.eqb Bool.eqb andb orb].
  unfold run_callbacks, run_callback.
  cbn [cb_inputs cb_output cb_function rmap prop_key fst snd String.append].
  rewrite lookup_store_ne by name_neq. rewrite Hx.
  rewrite lookup_store_eq.
  unfold call_function. cbn [String.eqb Ascii.eqb Bool.eqb].
  unfold bind, lift, ret.
  destruct (update_graph observed x v st) as [[fig|e] st']; reflexivity.
Qed.

(** C7: the layout has one graph with an id, 'interactive-bar-graph',
    and it has no figure of its own; it has two dropdowns, the x-axis
    one offering the six survey questions with 'male_breadwinner'
    selected, the colour one offering sex, region and education with
    'sex' selected; the application has one callback, from the values of
    the two dropdowns to the figure of that graph.  When the user picks
    a value in either dropdown, [update_graph] is called on the new
    value and the current value of the other dropdown, and what it
    returns becomes the figure of the graph. *)
Theorem one_interactive_chart_two_dropdowns observed name csv st :
  startup observed name csv empty_state = (Ok tt, st) ->
  exists a l,
    app_of st = Some a /\ app_layout a = Some l /\
    map (fun d => (fst (fst d), map snd (snd (fst d)), snd d)) (dropdowns l) =
      [ ("xaxis-dropdown",
         [ "satjob"; "relationship"; "male_breadwinner"; "men_bettersuited";
           "child_suffer"; "men_overwork" ],
         "male_breadwinner");
        ("color-dropdown", [ "sex"; "region"; "education" ], "sex") ] /\
    flat_map (fun g => match fst g with
                       | Some id => [ (id, snd g) ]
                       | None => []
                       end) (graphs l) = [ ("interactive-bar-graph", None) ] /\
    app_callbacks a =
      [ mkCallback ("interactive-bar-graph", "figure")
                   [ ("xaxis-dropdown", "value"); ("color-dropdown", "value") ]
                   "update_graph" ] /\
    forall page st' x c v,
      lookup "xaxis-dropdown.value" page = Some (VText x) ->
      lookup "color-dropdown.value" page = Some (VText c) ->
      on_change observed a ("xaxis-dropdown", "value") (VText v) page st' =
        match update_graph observed v c st' with
        | (Ok fig, s) =>
            (Ok (store "interactive-bar-graph.figure" (VFigure fig)
                       (store "xaxis-dropdown.value" (VText v) page)), s)
        | (Raise e, s) => (Raise e, s)
        end /\
      on_change observed a ("color-dropdown", "value") (VText v) page st' =
        match update_graph observed x v st' with
        | (Ok fig, s) =>
            (Ok (store "interactive-bar-graph.figure" (VFigure fig)
                       (store "color-dropdown.value" (VText v) page)), s)
        | (Raise e, s) => (Raise e, s)
        end.
Proof.
  intros S.
  destruct (startup_facts _ _ _ _ S)
    as (g & tf & sf & bi & bp & ff & _ & _ & _ & _ & _ & _ & _ & _ & _ & _ & _ & _ & _ & A & _).
  exists (app name tf sf bi bp ff). eexists.
  split; [exact A|]. split; [reflexivity|].
  split; [reflexivity|]. split; [reflexivity|]. split; [reflexivity|].
  intros page st' x c v Hx Hc. split.
  - now apply on_change_xaxis.
  - now apply on_change_color.
Qed.

End Arithmetic.

End DashTheorems.

(** ** The theorems at the sample file *)

Module Witnesses.

Import Pandas Plotly CSV Py Dashboard Spec Dash Ideal.
Import CallbackTheorems FigureTheorems ModuleTheorems DashTheorems.

Lemma update_graph_group_by_size_witness :
  startup true "app" Sample.csv empty_state = (Ok tt, Sample.state) /\
  gss_clean_frame Sample.state = gss_clean_frame Sample.state /\
  In "male_breadwinner" xaxis_options /\
  In "education" color_options /\
  exists fig,
    fst (update_graph true "male_breadwinner" "education" Sample.state) = Ok fig /\
    fig_kind fig = bar_chart /\ fig_y fig = Some "count".
Proof.
  assert (H1 : startup true "app" Sample.csv empty_state = (Ok tt, Sample.state))
    by (vm_compute; reflexivity).
  assert (H2 : gss_clean_frame Sample.state = gss_clean_frame Sample.state)
    by reflexivity.
  assert (H3 : In "male_breadwinner" xaxis_options) by (simpl; tauto).
  assert (H4 : In "education" color_options) by (simpl; tauto).
  repeat (split; [assumption|]).
  destruct (update_graph_group_by_size true "app" Sample.csv Sample.state Sample.state
              "male_breadwinner" "education" H1 H2 H3 H4)
    as (g & d & color & fig & _ & U & _ & (K & _ & Y & _) & _).
  exists fig. auto.
Defined.

Lemma update_graph_returns_witness :
  startup false "app" Sample.csv empty_state =
    (Ok tt, snd (startup false "app" Sample.csv empty_state)) /\
  gss_clean_frame Sample.state =
    gss_clean_frame (snd (startup false "app" Sample.csv empty_state)) /\
  In "satjob" xaxis_options /\
  In "region" color_options /\
  exists fig,
    fst (update_graph false "satjob" "region" Sample.state) = Ok fig /\
    fig_color fig = Some "region".
Proof.
  assert (H1 : startup false "app" Sample.csv empty_state =
               (Ok tt, snd (startup false "app" Sample.csv empty_state)))
    by (vm_compute; reflexivity).
  assert (H2 : gss_clean_frame Sample.state =
               gss_clean_frame (snd (startup false "app" Sample.csv empty_state)))
    by (vm_compute; reflexivity).
  assert (H3 : In "satjob" xaxis_options) by (simpl; tauto).
  assert (H4 : In "region" color_options) by (simpl; tauto).
  repeat (split; [assumption|]).
  destruct (update_graph_returns false "app" Sample.csv _ Sample.state
              "satjob" "region" H1 H2 H3 H4)
    as (g & fig & _ & U & _ & _ & C & _).
  exists fig. auto.
Defined.

Lemma education_bins_exclude_witness :
  startup true "app" Sample.csv empty_state = (Ok tt, Sample.state) /\
  gss_clean_frame Sample.state = gss_clean_frame Sample.state /\
  In "relationship" xaxis_options /\
  exists g d,
    gss_clean_frame Sample.state = Some g /\
    colored_frame "education" g = Ok (d, "education_binned") /\
    forall i, outside_bins (cell_at "education" g i) = true ->
              cell_at "education_binned" d i = None /\
              ~ In i (remaining "relationship" "education_binned" d).
Proof.
  assert (H1 : startup true "app" Sample.csv empty_state = (Ok tt, Sample.state))
    by (vm_compute; reflexivity).
  assert (H2 : gss_clean_frame Sample.state = gss_clean_frame Sample.state)
    by reflexivity.
  assert (H3 : In "relationship" xaxis_options) by (simpl; tauto).
  repeat (split; [assumption|]).
  destruct (education_bins_exclude true "app" Sample.csv Sample.state Sample.state
              "relationship" H1 H2 H3)
    as (g & d & fig & G & _ & C & _ & O & _).
  exists g, d. auto.
Defined.

Lemma gss_clean_not_mutated_witness :
  gss_clean_frame Sample.state = Some Sample.table /\
  gss_clean_frame (snd (update_graph true "satjob" "education" Sample.state)) =
    Some Sample.table /\
  gss_clean_frame (snd (static_figures true Sample.state)) = Some Sample.table.
Proof.
  assert (H : gss_clean_frame Sample.state = Some Sample.table)
    by (vm_compute; reflexivity).
  split; [assumption|].
  destruct (gss_clean_not_mutated true Sample.state Sample.table H)
    as (U & _ & _ & _ & _ & S).
  split; [exact (proj1 (U "satjob" "education")) | exact S].
Defined.

Lemma update_graph_deterministic_witness :
  gss_clean_frame Sample.state = Some Sample.table /\
  gss_clean_frame (snd (update_graph true "satjob" "education" Sample.state)) =
    Some Sample.table /\
  fst (update_graph true "men_overwork" "sex" Sample.state) =
  fst (update_graph true "men_overwork" "sex"
         (snd (update_graph true "satjob" "education" Sample.state))).
Proof.
  assert (H1 : gss_clean_frame Sample.state = Some Sample.table)
    by (vm_compute; reflexivity).
  assert (H2 : gss_clean_frame (snd (update_graph true "satjob" "education"
                                       Sample.state)) = Some Sample.table)
    by (vm_compute; reflexivity).
  repeat (split; [assumption|]).
  exact (proj1 (update_graph_deterministic true Sample.state
                  (snd (update_graph true "satjob" "education" Sample.state))
                  Sample.table "men_overwork" "sex" H1 H2)).
Defined.


Lemma five_static_figures_witness :
  startup true "app" Sample.csv empty_state = (Ok tt, Sample.state) /\
  figures_in Sample.state =
    [ "table_fig"; "scatter_fig"; "income_boxplot_fig"; "prestige_boxplot_fig";
      "facet_fig" ].
Proof.
  assert (H1 : startup true "app" Sample.csv empty_state = (Ok tt, Sample.state))
    by (vm_compute; reflexivity).
  split; [assumption|].
  destruct (five_static_figures true "app" Sample.csv Sample.state H1)
    as (g & tf & sf & bi & bp & ff & a & _ & F & _).
  exact F.
Defined.

Lemma one_interactive_chart_two_dropdowns_witness :
  startup true "app" Sample.csv empty_state = (Ok tt, Sample.state) /\
  exists a,
    app_of Sample.state = Some a /\
    app_callbacks a =
      [ mkCallback ("interactive-bar-graph", "figure")
                   [ ("xaxis-dropdown", "value"); ("color-dropdown", "value") ]
                   "update_graph" ] /\
    on_change true a ("xaxis-dropdown", "value") (VText "child_suffer") Sample.page
              Sample.state =
      match update_graph true "child_suffer" "region" Sample.state with
      | (Ok fig, s) =>
          (Ok (store "interactive-bar-graph.figure" (VFigure fig)
                     (store "xaxis-dropdown.value" (VText "child_suffer") Sample.page)), s)
      | (Raise e, s) => (Raise e, s)
      end.
Proof.
  assert (H1 : startup true "app" Sample.csv empty_state = (Ok tt, Sample.state))
    by (vm_compute; reflexivity).
  split; [assumption|].
  destruct (one_interactive_chart_two_dropdowns true "app" Sample.csv Sample.state H1)
    as (a & l & A & _ & _ & _ & C & O).
  exists a. split; [exact A|]. split; [exact C|].
  apply (O Sample.page Sample.state "satjob" "region" "child_suffer");
    reflexivity.
Defined.

Lemma cleaning_selects_renames_converts_witness :
  load_and_clean Sample.csv empty_state = (Ok tt, Sample.cleaned_state) /\
  exists g,
    gss_clean_frame Sample.cleaned_state = Some g /\
    names (df_cols g) = map snd cleaned_columns /\
    List.length (df_cols g) = 17.
Proof.
  assert (H1 : load_and_clean Sample.csv empty_state = (Ok tt, Sample.cleaned_state))
    by (vm_compute; reflexivity).
  split; [assumption|].
  destruct (cleaning_selects_renames_converts Sample.csv Sample.cleaned_state H1)
    as (g & G & N & L & _).
  exists g. auto.
Defined.

End Witnesses.

(** ** More on the group-by of the callback *)

Module Counting.

Import Pandas Spec Facts Order.

Lemma scalar_eqb_trans a b c :
  scalar_eqb a b = true -> scalar_eqb b c = true -> scalar_eqb a c = true.
Proof.
  destruct a, b, c; simpl; try discriminate.
  - intros H1 H2. apply String.eqb_eq in H1, H2. subst. apply String.eqb_refl.
  - apply Qeq_bool_trans.
  - intros H1 H2. apply Nat.eqb_eq in H1, H2. subst. apply Nat.eqb_refl.
Qed.

Lemma key_eqb_trans k1 : forall k2 k3,
  key_eqb k1 k2 = true -> key_eqb k2 k3 = true -> key_eqb k1 k3 = true.
Proof.
  induction k1 as [|a k1 IH]; intros [|b k2] [|c k3]; simpl; try discriminate; auto.
  intros H1 H2. apply andb_prop in H1 as [A1 B1]. apply andb_prop in H2 as [A2 B2].
  rewrite (scalar_eqb_trans _ _ _ A1 A2), (IH _ _ B1 B2). reflexivity.
Qed.

Lemma list_sum_add {A} (f g : A -> nat) l :
  list_sum (map (fun a => f a + g a) l) = list_sum (map f l) + list_sum (map g l).
Proof. induction l as [|a l IH]; simpl; auto. rewrite IH. lia. Qed.

(** Among keys in strict order, a row has at most one. *)
Lemma one_hit r index :
  StronglySorted key_lt index ->
  (exists k, In k index /\ row_has_key k r = true) ->
  list_sum (map (fun k => if row_has_key k r then 1 else 0) index) = 1.
Proof.
  intros S. induction S as [|k0 index S IH F]; intros (k & Hk & E).
  - destruct Hk.
  - simpl. destruct (row_has_key k0 r) eqn:E0.
    + assert (Z : list_sum (map (fun k => if row_has_key k r then 1 else 0) index) = 0).
      { clear IH Hk. rewrite Forall_forall in F.
        induction index as [|k1 index IH1]; simpl; auto.
        inversion S; subst.
        rewrite IH1; auto.
        2:{ intros y Hy. apply F. now right. }
        destruct (row_has_key k1 r) eqn:E1; auto.
        exfalso. unfold row_has_key in E0, E1.
        destruct (key_of r) as [kr|]; [|discriminate].
        assert (L : key_lt k0 k1) by (apply F; now left).
        apply key_lt_not_eqb in L.
        rewrite key_eqb_sym in E1.
        rewrite (key_eqb_trans _ _ _ E0 E1) in L. discriminate. }
      rewrite Z. reflexivity.
    + destruct Hk as [->|Hk]; [congruence|].
      simpl. apply IH. eauto.
Qed.

(** The sizes of the groups add up to the number of rows, when every
    row has a key among those of the result. *)
Lemma group_sizes_total rows index :
  StronglySorted key_lt index ->
  (forall r, In r rows -> exists k, In k index /\ row_has_key k r = true) ->
  list_sum (map (group_size rows) index) = List.length rows.
Proof.
  intros S. induction rows as [|r rows IH]; intros C.
  - unfold group_size. simpl. clear S C. induction index; simpl; auto.
  - transitivity (list_sum (map (fun k => (if row_has_key k r then 1 else 0)
                                          + group_size rows k) index)).
    + apply f_equal. apply map_ext. intros k. unfold group_size. simpl.
      destruct (row_has_key k r); reflexivity.
    + rewrite list_sum_add.
      rewrite IH by (intros r' H; apply C; now right).
      rewrite one_hit; auto. apply C. now left.
Qed.

End Counting.

(** ** The chart of the callback, written out *)

Module CallbackShape.

Import Pandas Plotly Py Dashboard Spec Facts Order Table Colored Callback CallbackTheorems.

Section Arithmetic.

Context {fl : Float64}.

(** In a state that holds the table a successful start has cleaned, the
    callback returns, for an offered pair, the bar chart of [grouped].
    [o0] is the pandas default the script started under, [o] the one the
    callback runs under. *)
Lemma callback_explicit o0 o name csv st0 st x c :
  startup o0 name csv empty_state = (Ok tt, st0) ->
  gss_clean_frame st = gss_clean_frame st0 ->
  In x xaxis_options -> In c color_options ->
  exists g d color X Y,
    gss_clean_frame st = Some g /\ ready g /\
    colored_frame c g = Ok (d, color) /\
    color = (if String.eqb c "education" then "education_binned" else c) /\
    well_formed d = true /\
    column x d = Ok X /\ column color d = Ok Y /\
    typed X = true /\ typed Y = true /\
    mem x [color; "count"] = false /\ mem color ["count"] = false /\
    fst (update_graph o x c st) =
    Ok (update_layout
          [ ("transition_duration", PInt 500); ("plot_bgcolor", PStr "#222222");
            ("paper_bgcolor", PStr "#111111"); ("font_color", PStr "#FFFFFF") ]
          (mkFigure bar_chart (grouped x color d (plot_index o x color d))
                    (Some x) (Some "count") (Some color) None None []
                    (dict_of [ (x, PyStr.title (PyStr.replace "_" " " x));
                               ("count", "Number of Respondents");
                               (color, PyStr.title (PyStr.replace "_binned" EmptyString c)) ])
                    (Some "group") [] [])).
Proof.
  intros S E Hx Hc.
  destruct (startup_table _ _ _ _ S) as (g & G & R). rewrite <- E in G.
  destruct (colored_ready g c R Hc) as
    (d & color & Y & C & Ecol & W & NR & HY & TY & HXs & Ny & Cc).
  destruct (HXs x Hx) as (X & HX & TX & Cx & Nx).
  destruct (run o x c st g G) as (ext & U).
  exists g, d, color, X, Y. rewrite U. simpl fst.
  rewrite (bar_figure_ready o g x c d color R Hx Hc C).
  repeat (split; [assumption|]). reflexivity.
Qed.

(** The key of a row of [grouped]. *)
Lemma grouped_key o d x y i a b :
  mem x [y; "count"] = false -> mem y ["count"] = false ->
  cell_at x (grouped x y d (plot_index o x y d)) i = Some a ->
  cell_at y (grouped x y d (plot_index o x y d)) i = Some b ->
  nth_error (plot_index o x y d) i = Some [a; b].
Proof.
  intros Nx Ny.
  destruct (Grouping.names_distinct x y Nx Ny) as (Exy & Exc & Eyc).
  unfold cell_at, grouped. simpl.
  rewrite String.eqb_refl, Exy, String.eqb_refl. simpl.
  destruct (nth_error (plot_index o x y d) i) as [k|] eqn:Ek.
  - rewrite !(nth_map_lt _ _ _ _ [])
      by (apply nth_error_Some; rewrite Ek; discriminate).
    rewrite (nth_error_nth _ _ _ Ek).
    destruct (Grouping.index_pairs o d x y k (nth_error_In _ _ Ek)) as (a0 & b0 & ->). simpl.
    intros A B. inversion A; inversion B; subst. reflexivity.
  - apply nth_error_None in Ek.
    rewrite nth_overflow by now rewrite length_map. discriminate.
Qed.

Lemma n_rows_grouped x y d index : n_rows (grouped x y d index) = List.length index.
Proof. unfold n_rows, grouped. simpl. apply length_map. Qed.

Lemma count_column x y d index :
  mem x [y; "count"] = false -> mem y ["count"] = false ->
  lookup "count" (df_cols (grouped x y d index)) =
  Some (mkColumn int64
          (map count_cell
               (map (group_size (map (fun j => [cell_at x d j; cell_at y d j])
                                     (remaining x y d))) index))).
Proof.
  intros Nx Ny.
  destruct (Grouping.names_distinct x y Nx Ny) as (Exy & Exc & Eyc).
  unfold grouped. simpl. rewrite Exc, Eyc. rewrite map_map. reflexivity.
Qed.

(** Without a categorical grouper the keys are those that occur,
    whatever [observed] says. *)
Lemma group_index_plain o1 o2 cols n :
  existsb is_categorical cols = false ->
  group_index o1 cols n = group_index o2 cols n.
Proof.
  intros H. unfold group_index. rewrite H. simpl.
  assert (L : map (levels o1) cols = map (levels o2) cols).
  { apply map_ext_in. intros c Hc.
    assert (P : is_categorical c = false).
    { destruct (is_categorical c) eqn:E; auto.
      assert (X : existsb is_categorical cols = true)
        by (apply existsb_exists; eauto).
      congruence. }
    unfold levels. unfold is_categorical in P.
    destruct (col_dtype c); auto; discriminate. }
  now rewrite L.
Qed.

End Arithmetic.

End CallbackShape.

(** ** The callback beyond the offered pairs, and more on its counts *)

Module CallbackExtras.

Import Pandas Plotly Py Dashboard Spec Facts Order Table Colored Callback CallbackTheorems.
Import CallbackRows Counting CallbackShape.

Section Arithmetic.

Context {fl : Float64}.

(** X1: the counts of the chart add up to the number of respondents
    that miss neither the answer to the survey question nor the colour
    value: every such respondent is in exactly one bar, and nobody else
    is in any. *)
Theorem update_graph_counts_total observed name csv st0 st x c :
  startup observed name csv empty_state = (Ok tt, st0) ->
  gss_clean_frame st = gss_clean_frame st0 ->
  In x xaxis_options -> In c color_options ->
  exists g d color fig counts,
    gss_clean_frame st = Some g /\
    colored_frame c g = Ok (d, color) /\
    fst (update_graph observed x c st) = Ok fig /\
    lookup "count" (df_cols (fig_data fig)) = Some (mkColumn int64 (map count_cell counts)) /\
    list_sum counts = List.length (remaining x color d).
Proof.
  intros S E Hx Hc.
  destruct (callback_explicit observed observed name csv st0 st x c S E Hx Hc)
    as (g & d & color & X & Y & G & R & C & Ecol & W & HX & HY & TX & TY & Nx & Ny & U).
  exists g, d, color. eexists. eexists.
  split; [exact G|]. split; [exact C|]. split; [exact U|].
  rewrite fig_data_update_layout. cbn [fig_data].
  split; [apply (count_column x color d _ Nx Ny)|].
  rewrite group_sizes_total.
  - apply length_map.
  - apply group_index_sorted.
  - intros r Hr. apply in_map_iff in Hr as (j & <- & Hj).
    destruct (Grouping.grouped_complete observed d x color X Y W HX HY j TX TY Hj)
      as (i & xv & cv & Hi & A & B).
    exists [xv; cv]. split; [eapply nth_error_In; eauto|].
    rewrite row_has_key_two. now rewrite A, B.
Qed.

(** X2: the rows of the chart's data come in the order of their keys,
    first by the answer to the survey question, then by the colour
    value (strings by code point, education bins from the lowest). *)
Theorem update_graph_rows_sorted observed name csv st0 st x c :
  startup observed name csv empty_state = (Ok tt, st0) ->
  gss_clean_frame st = gss_clean_frame st0 ->
  In x xaxis_options -> In c color_options ->
  exists fig color,
    fst (update_graph observed x c st) = Ok fig /\
    fig_color fig = Some color /\
    forall i j, i < j -> j < n_rows (fig_data fig) ->
      exists xi ci xj cj,
        cell_at x (fig_data fig) i = Some xi /\
        cell_at color (fig_data fig) i = Some ci /\
        cell_at x (fig_data fig) j = Some xj /\
        cell_at color (fig_data fig) j = Some cj /\
        (scalar_ltb xi xj = true \/
         (scalar_eqb xi xj = true /\ scalar_ltb ci cj = true)).
Proof.
  intros S E Hx Hc.
  destruct (callback_explicit observed observed name csv st0 st x c S E Hx Hc)
    as (g & d & color & X & Y & G & R & C & Ecol & W & HX & HY & TX & TY & Nx & Ny & U).
  eexists. exists color. split; [exact U|]. split; [reflexivity|].
  rewrite fig_data_update_layout. cbn [fig_data].
  intros i j L Hj.
  assert (P : forall k, In k (plot_index observed x color d) -> exists a b, k = [a; b])
    by (intros k Hk; apply (Grouping.index_pairs observed d x color k Hk)).
  destruct (Grouping.grouped_rows d x color Nx Ny _ i P) as (xi & ci & Ki & Ai & Bi & _);
    [lia|].
  destruct (Grouping.grouped_rows d x color Nx Ny _ j P) as (xj & cj & Kj & Aj & Bj & _);
    [lia|].
  exists xi, ci, xj, cj. repeat (split; [assumption|]).
  pose proof (StronglySorted_nth _ _ _ _ _ _ (group_index_sorted _ _ _) L Ki Kj) as O.
  simpl in O. tauto.
Qed.

(** X3: for the colours 'sex' and 'region' the chart is the same under
    either default of pandas for [observed]: no grouper is categorical,
    so only the keys that occur are reported. *)
Theorem update_graph_plain_colours observed name csv st0 st x c :
  startup observed name csv empty_state = (Ok tt, st0) ->
  gss_clean_frame st = gss_clean_frame st0 ->
  In x xaxis_options -> In c [ "sex"; "region" ] ->
  exists fig,
    fst (update_graph true x c st) = Ok fig /\
    fst (update_graph false x c st) = Ok fig.
Proof.
  intros S E Hx Hc.
  assert (Hc' : In c color_options) by (simpl in *; tauto).
  destruct (callback_explicit observed true name csv st0 st x c S E Hx Hc')
    as (g & d & color & X & Y & G & R & C & Ecol & W & HX & HY & TX & TY & Nx & Ny & U).
  destruct (callback_explicit observed false name csv st0 st x c S E Hx Hc')
    as (g' & d' & color' & _ & _ & G' & _ & C' & _ & _ & _ & _ & _ & _ & _ & _ & U').
  rewrite G in G'. inversion G'; subst g'. rewrite C in C'. inversion C'; subst d' color'.
  eexists. split; [exact U|]. rewrite U'.
  assert (D : d = g).
  { unfold colored_frame in C.
    destruct Hc as [<-|[<-|[]]]; simpl in C; now inversion C. }
  subst d.
  assert (I : plot_index false x color g = plot_index true x color g).
  { unfold plot_index. apply group_index_plain. simpl.
    rewrite (Grouping.dtype_at_column g x X HX), (Grouping.dtype_at_column g color Y HY).
    pose proof (@ready_plain g R x X HX) as PX.
    pose proof (@ready_plain g R color Y HY) as PY.
    unfold is_categorical in *. simpl.
    destruct (col_dtype X), (col_dtype Y); auto; discriminate. }
  rewrite I. reflexivity.
Qed.

(** X4: when pandas reports observed keys only, or the colour is not
    'education', every bar of the chart counts at least one
    respondent. *)
Theorem update_graph_counts_positive observed name csv st0 st x c :
  startup observed name csv empty_state = (Ok tt, st0) ->
  gss_clean_frame st = gss_clean_frame st0 ->
  In x xaxis_options -> In c color_options ->
  observed || negb (String.eqb c "education") = true ->
  exists fig,
    fst (update_graph observed x c st) = Ok fig /\
    forall i, i < n_rows (fig_data fig) ->
      exists n, cell_at "count" (fig_data fig) i = count_cell n /\ 0 < n.
Proof.
  intros S E Hx Hc O.
  destruct (callback_explicit observed observed name csv st0 st x c S E Hx Hc)
    as (g & d & color & X & Y & G & R & C & Ecol & W & HX & HY & TX & TY & Nx & Ny & U).
  eexists. split; [exact U|].
  rewrite fig_data_update_layout. cbn [fig_data].
  intros i Hi.
  assert (P : forall k, In k (plot_index observed x color d) -> exists a b, k = [a; b])
    by (intros k Hk; apply (Grouping.index_pairs observed d x color k Hk)).
  destruct (Grouping.grouped_rows d x color Nx Ny _ i P Hi) as (xv & cv & K & _ & _ & Cn).
  exists (rows_with x color d xv cv). split; [exact Cn|].
  apply nth_error_In in K. unfold plot_index, group_index in K.
  assert (F : existsb is_categorical
                [ mkColumn (dtype_at x d) (map (cell_at x d) (remaining x color d));
                  mkColumn (dtype_at color d) (map (cell_at color d) (remaining x color d)) ]
              && negb observed = false).
  { destruct observed; [apply andb_false_r|]. simpl in O.
    apply negb_true_iff in O. rewrite O in Ecol. subst color.
    unfold colored_frame in C. rewrite O in C. inversion C; subst d.
    rewrite (Grouping.dtype_at_column g x X HX), (Grouping.dtype_at_column g c Y HY).
    pose proof (@ready_plain g R x X HX) as PX.
    pose proof (@ready_plain g R c Y HY) as PY.
    unfold is_categorical in *. simpl.
    destruct (col_dtype X), (col_dtype Y); auto; discriminate. }
  rewrite F in K. apply filter_In in K as [_ K].
  rewrite rows_of_two in K.
  rewrite (Grouping.count_rows_with d x color) in K.
  now apply Nat.ltb_lt in K.
Qed.

(** X5: under the older default of pandas ([observed=False]) and with
    the colour 'education', every answer that the chart reports has a
    row for each of the four education bins, whether or not a
    respondent is in it. *)
Theorem update_graph_all_education_bins name csv st0 st x :
  startup false name csv empty_state = (Ok tt, st0) ->
  gss_clean_frame st = gss_clean_frame st0 ->
  In x xaxis_options ->
  exists fig,
    fst (update_graph false x "education" st) = Ok fig /\
    dtype_at "education_binned" (fig_data fig) = category (map LStr education_labels) /\
    forall i xv, cell_at x (fig_data fig) i = Some xv ->
      forall b, b < 4 ->
        exists i', i' < n_rows (fig_data fig) /\
                   cell_at x (fig_data fig) i' = Some xv /\
                   cell_at "education_binned" (fig_data fig) i' = Some (SCat b).
Proof.
  intros S E Hx.
  assert (Hc : In "education" color_options) by (simpl; tauto).
  destruct (callback_explicit false false name csv st0 st x "education" S E Hx Hc)
    as (g & d & color & X & Y & G & R & C & Ecol & W & HX & HY & TX & TY & Nx & Ny & U).
  simpl in Ecol. subst color.
  eexists. split; [exact U|].
  rewrite fig_data_update_layout. cbn [fig_data].
  destruct (Grouping.names_distinct x "education_binned" Nx Ny) as (Exy & Exc & Eyc).
  assert (DY : dtype_at "education_binned" d = category (map LStr education_labels)).
  { rewrite (Grouping.dtype_at_column d _ Y HY).
    unfold colored_frame, rbind in C. simpl in C.
    destruct (column "education" g) as [ed|]; [|discriminate].
    destruct (cut ed education_bins education_labels) as [b|] eqn:B; [|discriminate].
    inversion C; subst d. rewrite column_setitem_same in HY. inversion HY; subst Y.
    apply cut_cells in B. subst b. reflexivity. }
  split.
  { unfold dtype_at at 1. unfold grouped. cbn [df_cols lookup].
    rewrite Exy, String.eqb_refl. exact DY. }
  intros i xv Hi b Hb.
  assert (P : forall k, In k (plot_index false x "education_binned" d) ->
                        exists a b, k = [a; b])
    by (intros k Hk; apply (Grouping.index_pairs false d x _ k Hk)).
  assert (Li : i < List.length (plot_index false x "education_binned" d)).
  { destruct (Nat.lt_ge_cases i (List.length (plot_index false x "education_binned" d)));
      auto.
    unfold cell_at, grouped in Hi. simpl in Hi. rewrite String.eqb_refl in Hi. simpl in Hi.
    rewrite nth_overflow in Hi by now rewrite length_map. discriminate. }
  destruct (Grouping.grouped_rows d x _ Nx Ny _ i P) as (xv' & cv & K & A & _);
    [now rewrite n_rows_grouped|].
  rewrite Hi in A. inversion A; subst xv'. clear A.
  assert (I : plot_index false x "education_binned" d =
              product
                [ levels false (mkColumn (dtype_at x d)
                                  (map (cell_at x d) (remaining x "education_binned" d)));
                  map SCat (seq 0 4) ]).
  { unfold plot_index, group_index. rewrite DY. simpl existsb.
    rewrite orb_true_r. reflexivity. }
  apply nth_error_In in K. rewrite I in K.
  apply product_two in K as (a & b0 & Eab & La & _). inversion Eab; subst a b0.
  assert (K' : In [xv; SCat b] (plot_index false x "education_binned" d)).
  { rewrite I. apply product_two. exists xv, (SCat b). repeat split; auto.
    apply in_map, in_seq. lia. }
  apply In_nth_error in K' as (i' & K').
  assert (Li' : i' < List.length (plot_index false x "education_binned" d))
    by (apply nth_error_Some; congruence).
  exists i'. rewrite n_rows_grouped. split; [exact Li'|].
  destruct (Grouping.grouped_rows d x _ Nx Ny _ i' P) as (a & b' & Ka & A & B & _);
    [now rewrite n_rows_grouped|].
  rewrite K' in Ka. inversion Ka; subst. auto.
Qed.

(** X6: a first argument that names no column of the table makes the
    callback raise [KeyError] on that name, for each of the three
    colours: the drop of the rows with missing values is the first
    statement to look the column up. *)
Theorem update_graph_unknown_column observed name csv st0 st x c :
  startup observed name csv empty_state = (Ok tt, st0) ->
  gss_clean_frame st = gss_clean_frame st0 ->
  mem x ("education_binned" :: map snd cleaned_columns) = false ->
  In c color_options ->
  fst (update_graph observed x c st) = Raise (KeyError x).
Proof.
  intros S E Hx Hc.
  destruct (startup_table _ _ _ _ S) as (g & G & R). rewrite <- E in G.
  destruct (colored_ready g c R Hc) as (d & color & Y & C & Ecol & _).
  destruct (run observed x c st g G) as (ext & U). rewrite U. simpl fst.
  assert (Hx' : x <> "education_binned" /\ ~ In x (map snd cleaned_columns)).
  { change (mem x ("education_binned" :: map snd cleaned_columns))
      with (String.eqb x "education_binned" || mem x (map snd cleaned_columns)) in Hx.
    apply orb_false_elim in Hx as [A B]. split.
    - now apply String.eqb_neq.
    - intros H. apply mem_In in H. congruence. }
  destruct Hx' as [Ne Nin].
  assert (K : column x d = Raise (KeyError x)).
  { unfold colored_frame, rbind in C.
    destruct (String.eqb c "education").
    - destruct (column "education" g) as [ed|]; [|discriminate].
      destruct (cut ed education_bins education_labels) as [b|]; [|discriminate].
      inversion C; subst d. rewrite column_setitem_other by congruence.
      now apply ready_fresh.
    - inversion C; subst d. now apply ready_fresh. }
  unfold bar_figure, grouped_frame, dropna_subset. rewrite C.
  cbn [rbind fst snd rmap]. rewrite K. reflexivity.
Qed.

(** X7: asked to group by one column on both axes, the callback raises
    [ValueError]: [reset_index] cannot insert the same column name
    twice. *)
Theorem update_graph_same_column observed name csv st0 st c :
  startup observed name csv empty_state = (Ok tt, st0) ->
  gss_clean_frame st = gss_clean_frame st0 ->
  In c [ "sex"; "region" ] ->
  fst (update_graph observed c c st) =
  Raise (ValueError ("cannot insert " ++ c ++ ", already exists")).
Proof.
  intros S E Hc.
  destruct (startup_table _ _ _ _ S) as (g & G & R). rewrite <- E in G.
  destruct (run observed c c st g G) as (ext & U). rewrite U. simpl fst.
  destruct (@ready_color g R c Hc) as (Y & HY).
  assert (C : colored_frame c g = Ok (g, c)).
  { unfold colored_frame. destruct Hc as [<-|[<-|[]]]; reflexivity. }
  assert (Nc : String.eqb c "count" = false).
  { destruct Hc as [<-|[<-|[]]]; reflexivity. }
  unfold bar_figure, grouped_frame. rewrite C. cbn [rbind fst snd].
  rewrite (dropna_two g c c Y Y HY HY). cbn [rbind].
  unfold groupby_size. cbn [rmap].
  rewrite (column_filter_rows g (@ready_wf g R) _ c Y HY).
  cbn [rbind].
  unfold series_reset_index, key_columns.
  cbn [s_index s_values List.length seq map nth insert_levels rbind names fst snd mem existsb].
  rewrite Nc. cbn [orb rbind names map fst mem existsb].
  rewrite String.eqb_refl. reflexivity.
Qed.

(** X8: the titles the chart gives its axes and legend.  For every
    offered pair the three keys of [labels] are distinct, and the
    removal of '_binned' from the colour value changes nothing: the
    legend is titled by the dropdown value in title case, 'Education'
    for the binned column. *)
Theorem update_graph_labels observed name csv st0 st x c :
  startup observed name csv empty_state = (Ok tt, st0) ->
  gss_clean_frame st = gss_clean_frame st0 ->
  In x xaxis_options -> In c color_options ->
  exists fig color,
    fst (update_graph observed x c st) = Ok fig /\
    fig_color fig = Some color /\
    fig_labels fig =
      [ (x, PyStr.title (PyStr.replace "_" " " x));
        ("count", "Number of Respondents");
        (color, PyStr.title c) ].
Proof.
  intros S E Hx Hc.
  destruct (callback_explicit observed observed name csv st0 st x c S E Hx Hc)
    as (g & d & color & X & Y & G & R & C & Ecol & W & HX & HY & TX & TY & Nx & Ny & U).
  eexists. exists color. split; [exact U|]. split; [reflexivity|].
  cbn [fig_labels update_layout]. subst color. clear - Hx Hc.
  simpl in Hx, Hc.
  repeat (destruct Hx as [<-|Hx]; [|]); try contradiction;
    repeat (destruct Hc as [<-|Hc]; [|]); try contradiction; reflexivity.
Qed.

End Arithmetic.

End CallbackExtras.

(** ** More on loading and cleaning *)

Module CleaningExtras.

Import Pandas Plotly CSV Py Dashboard Spec Facts Cleaning Startup.

Section Arithmetic.

Context {fl : Float64}.

Lemma names_read_csv na csv : names (df_cols (read_csv na csv)) = header csv.
Proof.
  unfold read_csv, names. simpl. rewrite map_map. simpl.
  apply map_nth_seq.
Qed.

Lemma lookup_absent {A} n (l : list (string * A)) :
  mem n (names l) = false -> lookup n l = None.
Proof.
  induction l as [|[m a] l IH]; simpl; auto.
  rewrite String.eqb_sym. destruct (String.eqb m n); simpl; [discriminate | exact IH].
Qed.

(** Selecting a column the frame does not have raises [KeyError]. *)
Lemma select_missing cols df :
  forallb (fun c => mem c (names (df_cols df))) cols = false ->
  exists k, In k cols /\ mem k (names (df_cols df)) = false /\
            select cols df = Raise (KeyError k).
Proof.
  unfold select. induction cols as [|c cols IH]; simpl; [discriminate|].
  destruct (mem c (names (df_cols df))) eqn:M; simpl.
  - intros H. destruct (IH H) as (k & Hk & Mk & E).
    exists k. split; [auto|]. split; [exact Mk|].
    unfold column at 1. destruct (lookup c (df_cols df)) eqn:L; simpl.
    + unfold rbind in E |- *. destruct (rmap _ cols); [discriminate | exact E].
    + apply mem_In, lookup_in_names in M. congruence.
  - intros _. exists c. split; [auto|]. split; [exact M|].
    unfold column. now rewrite (lookup_absent _ _ M).
Qed.

(** X9: a file that lacks one of the seventeen columns the script
    selects makes the load raise [KeyError] on a missing column; the
    name [gss_clean] is then never bound. *)
Theorem load_and_clean_missing_column csv :
  forallb (fun c => mem c (header csv)) mycols = false ->
  exists k,
    In k mycols /\ mem k (header csv) = false /\
    fst (load_and_clean csv empty_state) = Raise (KeyError k) /\
    lookup "gss_clean" (globals (snd (load_and_clean csv empty_state))) = None.
Proof.
  intros H. rewrite <- (names_read_csv na_values csv) in H.
  destruct (select_missing _ _ H) as (k & Hk & Mk & E).
  exists k. split; [exact Hk|]. split; [now rewrite <- (names_read_csv na_values csv)|].
  compute_state. rewrite E. compute_state. split; reflexivity.
Qed.

(** Every column of the cleaned table has one cell per record of the
    file. *)
Lemma clean_lengths csv g n col :
  gss_clean csv = Ok g -> column n g = Ok col ->
  List.length (cells col) = List.length (records csv).
Proof.
  intros C H.
  destruct (clean_explicit _ _ C) as
    (id & wtss & sex & educ & region & age & coninc & prestg10 & mapres10 & papres10
     & sei10 & satjob & fechld & fefam & fepol & fepresch & meovrwrk & age' & S & A & ->).
  cbv zeta in S.
  assert (LA : List.length (cells age') = List.length (records csv)).
  { apply astype_float_inv in A as [_ F]. apply Forall2_length in F.
    rewrite <- F, replace_values_length.
    now apply (read_csv_column na_values csv "age" age). }
  apply column_lookup, lookup_In in H. simpl in H.
  repeat (destruct H as [H|H];
          [inversion H; subst n col;
           first [ exact LA
                 | eapply read_csv_column; apply S ]|]).
  contradiction.
Qed.

(** X10: cleaning drops no respondent and adds none: the cleaned table
    has one row per record of the file, in every one of its columns. *)
Theorem cleaning_keeps_every_record csv st :
  load_and_clean csv empty_state = (Ok tt, st) ->
  exists g,
    gss_clean_frame st = Some g /\
    n_rows g = List.length (records csv) /\
    forall n col, column n g = Ok col ->
                  List.length (cells col) = List.length (records csv).
Proof.
  intros L. pose proof (ModuleTheorems.load_and_clean_run csv) as R. rewrite L in R.
  destruct R as (g & C & G). exists g. split; [exact G|].
  split; [|intros n col; apply (clean_lengths csv g n col C)].
  destruct (clean_explicit _ _ C) as
    (id & wtss & sex & educ & region & age & coninc & prestg10 & mapres10 & papres10
     & sei10 & satjob & fechld & fefam & fepol & fepresch & meovrwrk & age' & S & A & E).
  transitivity (List.length (cells id)); [subst g; reflexivity|].
  apply (clean_lengths csv g "id" id C). subst g. reflexivity.
Qed.

(** X11: nothing the script runs changes the table it has read: when
    the callback is registered, [gss] still refers to the frame
    [read_csv] returned, with the columns that were not selected and
    the age column as read, and [gss_clean] refers to another object. *)
Theorem startup_leaves_gss observed name csv st :
  startup observed name csv empty_state = (Ok tt, st) ->
  exists l l',
    lookup "gss" (globals st) = Some (PFrame l) /\
    nth_error (heap st) l = Some (read_csv na_values csv) /\
    lookup "gss_clean" (globals st) = Some (PFrame l') /\
    l <> l'.
Proof.
  intros H.
  assert (R : on_success (startup observed name csv empty_state)
                (fun _ st =>
                   lookup "gss" (globals st) = Some (PFrame 0) /\
                   nth_error (heap st) 0 = Some (read_csv na_values csv) /\
                   lookup "gss_clean" (globals st) = Some (PFrame 2))).
  { run_script; auto. }
  rewrite H in R. destruct R as (A & B & C).
  exists 0, 2. repeat split; auto.
Qed.

End Arithmetic.

End CleaningExtras.

(** ** The rows the scatter plot and the box plots draw *)

Module PlotRows.

Import Pandas Plotly Py Dashboard Spec Facts Table Drops CallbackTheorems.

Ltac distinct_names :=
  repeat (constructor; [simpl; intuition discriminate|]); constructor.

Section Arithmetic.

Context {fl : Float64}.

(** X12: the scatter plot draws exactly the respondents for whom job
    prestige, income, sex, education and the socioeconomic index are
    all known, in the order of the table and with the values of the
    table; its frame has these five columns and no missing value. *)
Theorem scatter_draws_complete_rows observed name csv st :
  startup observed name csv empty_state = (Ok tt, st) ->
  exists g fig,
    gss_clean_frame st = Some g /\
    figure_named "scatter_fig" st = Some fig /\
    fig_hover_data fig = [ "education"; "socioeconomic_index" ] /\
    names (df_cols (fig_data fig)) =
      [ "job_prestige"; "income"; "sex"; "education"; "socioeconomic_index" ] /\
    n_rows (fig_data fig) =
      List.length (complete [ "job_prestige"; "income"; "sex"; "education";
                              "socioeconomic_index" ] g) /\
    forall c k,
      In c [ "job_prestige"; "income"; "sex"; "education"; "socioeconomic_index" ] ->
      k < n_rows (fig_data fig) ->
      cell_at c (fig_data fig) k =
        cell_at c g (nth k (complete [ "job_prestige"; "income"; "sex"; "education";
                                       "socioeconomic_index" ] g) 0) /\
      notna (cell_at c (fig_data fig) k) = true.
Proof.
  intros S.
  destruct (startup_facts _ _ _ _ S)
    as (g & tf & sf & _ & _ & _ & C & T & Sc & _ & _ & _ & G & _ & F & _).
  pose proof (startup_ready observed csv g tf C T) as R.
  exists g, sf. split; [exact G|]. split; [exact F|].
  unfold scatter_fig, scatter_data, rbind in Sc.
  destruct (select _ g) as [sel|] eqn:Sel; [|discriminate].
  apply FigureTheorems.express_inv in Sc. subst sf. cbn [fig_data fig_hover_data].
  split; [reflexivity|].
  apply (dropna_select _ g sel (@ready_wf g R)); auto.
  - discriminate.
  - distinct_names.
Qed.

(** X13: the two box plots draw one frame, the respondents for whom
    income, job prestige and sex are all known, in the order of the
    table; the frame has no missing value and neither plot shows a
    legend. *)
Theorem box_plots_draw_complete_rows observed name csv st :
  startup observed name csv empty_state = (Ok tt, st) ->
  exists g bi bp,
    gss_clean_frame st = Some g /\
    figure_named "income_boxplot_fig" st = Some bi /\
    figure_named "prestige_boxplot_fig" st = Some bp /\
    fig_data bi = fig_data bp /\
    fig_layout bi = [ ("showlegend", PBool false) ] /\
    fig_layout bp = [ ("showlegend", PBool false) ] /\
    names (df_cols (fig_data bi)) = [ "income"; "job_prestige"; "sex" ] /\
    n_rows (fig_data bi) = List.length (complete [ "income"; "job_prestige"; "sex" ] g) /\
    forall c k,
      In c [ "income"; "job_prestige"; "sex" ] ->
      k < n_rows (fig_data bi) ->
      cell_at c (fig_data bi) k =
        cell_at c g (nth k (complete [ "income"; "job_prestige"; "sex" ] g) 0) /\
      notna (cell_at c (fig_data bi) k) = true.
Proof.
  intros S.
  destruct (startup_facts _ _ _ _ S)
    as (g & tf & _ & bi & bp & _ & C & T & _ & Bi & Bp & _ & G & _ & _ & F1 & F2 & _).
  pose proof (startup_ready observed csv g tf C T) as R.
  exists g, bi, bp. split; [exact G|]. split; [exact F1|]. split; [exact F2|].
  unfold income_boxplot_fig, prestige_boxplot_fig, box_data, rbind in Bi, Bp.
  destruct (select _ g) as [sel|] eqn:Sel; [|discriminate].
  destruct (box (dropna sel) "sex" "income" _ _) as [f1|] eqn:E1; [|discriminate].
  destruct (box (dropna sel) "sex" "job_prestige" _ _) as [f2|] eqn:E2; [|discriminate].
  apply FigureTheorems.express_inv in E1, E2.
  inversion Bi; inversion Bp; subst.
  cbn [fig_data fig_layout update_layout fold_left store fst snd].
  repeat (split; [reflexivity|]).
  apply (dropna_select _ g sel (@ready_wf g R)); auto.
  - discriminate.
  - distinct_names.
Qed.

End Arithmetic.

End PlotRows.

(** ** The faceted box plot *)

Module Facets.

Import Pandas Plotly Py Dashboard Spec Facts Table Cleaning EqualWidth CallbackTheorems.

Section Arithmetic.

Context {fl : Float64}.

(** X15: a table in which no respondent has a job prestige score, in
    particular the table of a file without records, stops the script:
    [pd.cut] has no range to cut, and the start ends in an exception
    instead of a served application. *)
Theorem startup_needs_job_prestige observed name csv g :
  gss_clean csv = Ok g ->
  forallb (fun i => negb (notna (cell_at "job_prestige" g i))) (seq 0 (n_rows g)) = true ->
  exists e, fst (startup observed name csv empty_state) = Raise e.
Proof.
  intros C H.
  destruct (startup observed name csv empty_state) as [[[]|e] st] eqn:S; [|simpl; eauto].
  exfalso.
  destruct (startup_facts _ _ _ _ S)
    as (g' & tf & _ & _ & _ & ff & C' & T & _ & _ & _ & Ff & _).
  rewrite C in C'. inversion C'; subst g'.
  pose proof (startup_ready observed csv g tf C T) as R.
  pose proof (@ready_wf g R) as W.
  unfold facet_fig, facet_df, rbind in Ff.
  destruct (select _ g) as [[idx cols]|] eqn:Sel; [|discriminate].
  apply select_inv in Sel as [_ Sel]. simpl in Sel. invert_columns.
  match goal with H : lookup "job_prestige" _ = Some ?a |- _ =>
    rename H into Kp; rename a into cp end.
  unfold column in Ff. cbn [lookup df_cols String.eqb Ascii.eqb Bool.eqb] in Ff.
  destruct (cut_equal_width cp 6) as [cat|] eqn:Cut; [|discriminate].
  destruct (cut_equal_width_inv cp 6 cat Cut) as (q & vs & P & _).
  assert (Hq : In (Some (SNum q)) (cells cp)).
  { assert (I : In (Some q) (map number (cells cp)))
      by (apply present_In; rewrite P; now left).
    apply in_map_iff in I as ([[s|q'|k]|] & E & I); try discriminate.
    inversion E; subst. exact I. }
  apply In_nth_error in Hq as (i & Hi).
  assert (Li : i < n_rows g).
  { rewrite <- (well_formed_length g "job_prestige" cp W) by now apply column_lookup.
    apply nth_error_Some. intros Hn.
    pose proof (eq_trans (eq_sym Hn) Hi) as X. discriminate X. }
  rewrite forallb_forall in H. specialize (H i). 
  assert (X : cell_at "job_prestige" g i = Some (SNum q)).
  { unfold cell_at. rewrite Kp. now apply nth_error_nth. }
  rewrite X in H. simpl in H. 
  assert (Y : false = true) by (apply H; apply in_seq; lia). discriminate.
Qed.

End Arithmetic.

End Facets.

(** ** The page: loading it, and changes that are no input *)

Module PageExtras.

Import Pandas Plotly Py Dashboard Dash CallbackTheorems CallbackShape.

Section Arithmetic.

Context {fl : Float64}.

(** X17: when the page loads, Dash calls the callback once on the
    values the layout selects, 'male_breadwinner' and 'sex'; the call
    returns, so the interactive graph, to which the layout gives no
    figure, shows the bar chart of these two from the start. *)
Theorem page_load_draws_defaults observed name csv st :
  startup observed name csv empty_state = (Ok tt, st) ->
  exists a fig page,
    app_of st = Some a /\
    fst (update_graph observed "male_breadwinner" "sex" st) = Ok fig /\
    fst (on_load observed a st) = Ok page /\
    lookup "interactive-bar-graph.figure" page = Some (VFigure fig) /\
    lookup "xaxis-dropdown.value" page = Some (VText "male_breadwinner") /\
    lookup "color-dropdown.value" page = Some (VText "sex").
Proof.
  intros S.
  destruct (startup_facts _ _ _ _ S)
    as (g & tf & sf & bi & bp & ff & _ & _ & _ & _ & _ & _ & _ & _ & _ & _ & _ & _ & _ & A & _).
  assert (Hx : In "male_breadwinner" xaxis_options) by (simpl; tauto).
  assert (Hc : In "sex" color_options) by (simpl; tauto).
  destruct (callback_explicit observed observed name csv st st _ _ S eq_refl Hx Hc)
    as (g' & d & color & X & Y & _ & _ & _ & _ & _ & _ & _ & _ & _ & _ & _ & U).
  exists (app name tf sf bi bp ff). eexists. eexists.
  split; [exact A|]. split; [exact U|].
  unfold on_load, app. cbn [app_layout app_callbacks].
  unfold run_callbacks, run_callback.
  cbn [cb_inputs cb_output cb_function rmap prop_key fst snd String.append].
  unfold initial_props, layout.
  cbn [components flat_map own_props Datatypes.app map xaxis_options color_options
       prop_key fst snd String.append lookup String.eqb Ascii.eqb Bool.eqb].
  unfold call_function. cbn [String.eqb Ascii.eqb Bool.eqb].
  unfold bind, lift, ret.
  destruct (update_graph observed "male_breadwinner" "sex" st) as [r st'].
  cbn [fst] in U. subst r. cbn [fst].
  split; [reflexivity|].
  repeat split.
Qed.

(** X18: only the two dropdown values are inputs of a callback.  A
    change of any other property of the page is stored and nothing
    else happens: [update_graph] is not called, and neither the state
    nor the figure of the interactive graph changes. *)
Theorem other_changes_fire_nothing observed name csv st0 st dep v page :
  startup observed name csv empty_state = (Ok tt, st0) ->
  dep_eqb dep ("xaxis-dropdown", "value") = false ->
  dep_eqb dep ("color-dropdown", "value") = false ->
  exists a,
    app_of st0 = Some a /\
    on_change observed a dep v page st = (Ok (store (prop_key dep) v page), st).
Proof.
  intros S Nx Nc.
  destruct (startup_facts _ _ _ _ S)
    as (g & tf & sf & bi & bp & ff & _ & _ & _ & _ & _ & _ & _ & _ & _ & _ & _ & _ & _ & A & _).
  exists (app name tf sf bi bp ff). split; [exact A|].
  unfold on_change, triggered, app. cbn [app_callbacks filter cb_inputs existsb].
  rewrite Nx, Nc. reflexivity.
Qed.

End Arithmetic.

End PageExtras.

(** ** The table of metrics, and the missing values of the file *)

Module TableExtras.

Import Pandas Plotly CSV Py Dashboard Spec Facts Order Table Cleaning Means.
Import CallbackTheorems CallbackShape.

Section Arithmetic.

Context {fl : Float64}.

(** X19: the table of metrics lists the sexes in increasing order
    (strings by code point, so 'female' before 'male'), and it is the
    same table under either default of pandas for [observed]: the
    grouper is not categorical. *)
Theorem metrics_table_order observed name csv st :
  startup observed name csv empty_state = (Ok tt, st) ->
  exists g tf,
    gss_clean_frame st = Some g /\
    figure_named "table_fig" st = Some tf /\
    table_fig true g = Ok tf /\
    table_fig false g = Ok tf /\
    forall i j, i < j -> j < n_rows (fig_data tf) ->
      exists si sj,
        cell_at "Sex" (fig_data tf) i = Some si /\
        cell_at "Sex" (fig_data tf) j = Some sj /\
        scalar_ltb si sj = true.
Proof.
  intros S.
  destruct (startup_facts _ _ _ _ S)
    as (g & tf & _ & _ & _ & _ & C & T & _ & _ & _ & _ & G & F & _).
  pose proof (startup_ready observed csv g tf C T) as R.
  exists g, tf. split; [exact G|]. split; [exact F|].
  assert (T' := T). unfold table_fig, rbind in T'.
  destruct (summary_df observed g) as [s|] eqn:E; [|discriminate].
  inversion T'; subst tf; clear T'.
  destruct (summary_explicit observed g s E)
    as (kc & c1 & c2 & c3 & c4 & x1 & x2 & x3 & x4 & K & _ & _ & _ & _ & Es).
  cbv zeta in Es.
  pose proof (@ready_plain g R "sex" kc K) as PK.
  assert (I : forall o, group_index o [kc] (n_rows g) = group_index observed [kc] (n_rows g)).
  { intros o. apply group_index_plain. simpl. now rewrite PK. }
  assert (Same : forall o, table_fig o g = table_fig observed g).
  { intros o. unfold table_fig, summary_df, groupby_agg. rewrite K.
    cbn [rbind]. rewrite (I o). reflexivity. }
  split; [now rewrite Same|]. split; [now rewrite Same|].
  cbn [create_table fig_data]. subst s.
  intros i j L Hj.
  unfold n_rows at 1 in Hj. cbn [df_cols cells] in Hj. rewrite length_map in Hj.
  destruct (nth_error (group_index observed [kc] (n_rows g)) i) as [ki|] eqn:Ei.
  2:{ apply nth_error_None in Ei. lia. }
  destruct (nth_error (group_index observed [kc] (n_rows g)) j) as [kj|] eqn:Ej.
  2:{ apply nth_error_None in Ej. lia. }
  pose proof (StronglySorted_nth _ _ _ _ _ _ (group_index_sorted _ _ _) L Ei Ej) as O.
  destruct (index_keys observed g "sex" kc (@ready_wf g R) K PK ki (nth_error_In _ _ Ei))
    as (si & _ & -> & _).
  destruct (index_keys observed g "sex" kc (@ready_wf g R) K PK kj (nth_error_In _ _ Ej))
    as (sj & _ & -> & _).
  exists si, sj.
  unfold cell_at. cbn [df_cols lookup String.eqb Ascii.eqb Bool.eqb cells].
  rewrite !(nth_map_lt (fun k : list scalar => nth_error k 0) _ _ None []) by lia.
  rewrite (nth_error_nth _ _ _ Ei), (nth_error_nth _ _ _ Ej).
  repeat split. simpl in O. tauto.
Qed.

(** X20: a cell of the table read from the file is missing exactly
    when its field is one of the seven markers the script lists, or one
    of the nineteen markers pandas always reads as missing, the empty
    field among them; a record too short for the column counts as an
    empty field.  No record is longer than the header, or pandas would
    not read the file. *)
Theorem missing_iff_marker csv j i r :
  forallb (fun r' => (List.length r' <=? List.length (header csv))%nat) (records csv) = true ->
  j < List.length (header csv) ->
  nth_error (records csv) i = Some r ->
  exists c,
    nth_error (df_cols (read_csv na_values csv)) j =
      Some (nth j (header csv) EmptyString, c) /\
    exists x, nth_error (cells c) i = Some x /\
              (notna x = false <->
               In (nth j r EmptyString)
                  [ "IAP"; "IAP,DK,NA,uncodeable"; "NOT SURE"; "DK";
                    "IAP, DK, NA, uncodeable"; ".a"; "CAN'T CHOOSE";
                    EmptyString; "#N/A"; "#N/A N/A"; "#NA"; "-1.#IND"; "-1.#QNAN";
                    "-NaN"; "-nan"; "1.#IND"; "1.#QNAN"; "<NA>"; "N/A"; "NA"; "NULL";
                    "NaN"; "None"; "n/a"; "nan"; "null" ]).
Proof.
  intros _ Lj Hr.
  set (fields := map (fun r0 : list string => nth j r0 EmptyString) (records csv)).
  assert (Hf : nth_error fields i = Some (nth j r EmptyString))
    by (unfold fields; rewrite nth_error_map, Hr; reflexivity).
  assert (M : forall f,
             is_na na_values f = true <->
             In f [ "IAP"; "IAP,DK,NA,uncodeable"; "NOT SURE"; "DK";
                    "IAP, DK, NA, uncodeable"; ".a"; "CAN'T CHOOSE";
                    EmptyString; "#N/A"; "#N/A N/A"; "#NA"; "-1.#IND"; "-1.#QNAN";
                    "-NaN"; "-nan"; "1.#IND"; "1.#QNAN"; "<NA>"; "N/A"; "NA"; "NULL";
                    "NaN"; "None"; "n/a"; "nan"; "null" ]).
  { intros f. unfold is_na. rewrite orb_true_iff, !mem_In.
    change (In f na_values \/ In f default_na_values <->
            In f (na_values ++ default_na_values)).
    rewrite in_app_iff. tauto. }
  exists (read_column na_values fields). split.
  - unfold read_csv. simpl df_cols.
    rewrite nth_error_map, nth_error_seq.
    destruct (Nat.ltb_spec j (List.length (header csv))); [reflexivity | lia].
  - unfold read_column.
    destruct (forallb (fun f => is_na na_values f
                                || notna (option_map SNum (PyStr.to_float f))) fields) eqn:A;
      cbn [cells]; rewrite nth_error_map, Hf; cbn [option_map];
      eexists; (split; [reflexivity|]); rewrite <- M.
    + rewrite forallb_forall in A. specialize (A _ (nth_error_In _ _ Hf)).
      unfold read_field_float.
      destruct (is_na na_values (nth j r EmptyString)); [tauto|].
      simpl in A. rewrite A. split; discriminate.
    + unfold read_field_object.
      destruct (is_na na_values (nth j r EmptyString)); [tauto|].
      split; discriminate.
Qed.

End Arithmetic.

End TableExtras.

(** ** The further theorems at the sample file *)

Module MoreWitnesses.

Import Pandas Plotly CSV Py Dashboard Spec Dash Ideal.
Import CallbackExtras CleaningExtras PlotRows Facets PageExtras TableExtras.

Lemma update_graph_counts_total_witness :
  startup true "app" Sample.csv empty_state = (Ok tt, Sample.state) /\
  gss_clean_frame Sample.state = gss_clean_frame Sample.state /\
  In "satjob" xaxis_options /\
  In "education" color_options /\
  exists d color fig counts,
    colored_frame "education" Sample.table = Ok (d, color) /\
    fst (update_graph true "satjob" "education" Sample.state) = Ok fig /\
    lookup "count" (df_cols (fig_data fig)) = Some (mkColumn int64 (map count_cell counts)) /\
    list_sum counts = List.length (remaining "satjob" color d).
Proof.
  assert (H1 : startup true "app" Sample.csv empty_state = (Ok tt, Sample.state))
    by (vm_compute; reflexivity).
  assert (H2 : gss_clean_frame Sample.state = gss_clean_frame Sample.state)
    by reflexivity.
  assert (H3 : In "satjob" xaxis_options) by (simpl; tauto).
  assert (H4 : In "education" color_options) by (simpl; tauto).
  repeat (split; [assumption|]).
  destruct (update_graph_counts_total true "app" Sample.csv Sample.state Sample.state
              "satjob" "education" H1 H2 H3 H4)
    as (g & d & color & fig & counts & G & C & U & K & T).
  assert (E : g = Sample.table).
  { unfold Sample.table. rewrite G. reflexivity. }
  rewrite E in C.
  exists d, color, fig, counts. auto.
Defined.

Lemma update_graph_rows_sorted_witness :
  startup true "app" Sample.csv empty_state = (Ok tt, Sample.state) /\
  gss_clean_frame Sample.state = gss_clean_frame Sample.state /\
  In "relationship" xaxis_options /\
  In "region" color_options /\
  exists fig, fst (update_graph true "relationship" "region" Sample.state) = Ok fig /\
              fig_color fig = Some "region".
Proof.
  assert (H1 : startup true "app" Sample.csv empty_state = (Ok tt, Sample.state))
    by (vm_compute; reflexivity).
  assert (H2 : gss_clean_frame Sample.state = gss_clean_frame Sample.state)
    by reflexivity.
  assert (H3 : In "relationship" xaxis_options) by (simpl; tauto).
  assert (H4 : In "region" color_options) by (simpl; tauto).
  repeat (split; [assumption|]).
  destruct (update_graph_rows_sorted true "app" Sample.csv Sample.state Sample.state
              "relationship" "region" H1 H2 H3 H4)
    as (fig & color & U & C & _).
  exists fig. split; [exact U|].
  assert (E : fst (update_graph true "relationship" "region" Sample.state) = Ok fig ->
              fig_color fig = Some "region").
  { vm_compute. intros X. inversion X. reflexivity. }
  exact (E U).
Defined.

Lemma update_graph_plain_colours_witness :
  startup true "app" Sample.csv empty_state = (Ok tt, Sample.state) /\
  gss_clean_frame Sample.state = gss_clean_frame Sample.state /\
  In "child_suffer" xaxis_options /\
  In "sex" [ "sex"; "region" ] /\
  exists fig,
    fst (update_graph true "child_suffer" "sex" Sample.state) = Ok fig /\
    fst (update_graph false "child_suffer" "sex" Sample.state) = Ok fig.
Proof.
  assert (H1 : startup true "app" Sample.csv empty_state = (Ok tt, Sample.state))
    by (vm_compute; reflexivity).
  assert (H2 : gss_clean_frame Sample.state = gss_clean_frame Sample.state)
    by reflexivity.
  assert (H3 : In "child_suffer" xaxis_options) by (simpl; tauto).
  assert (H4 : In "sex" [ "sex"; "region" ]) by (simpl; tauto).
  repeat (split; [assumption|]).
  exact (update_graph_plain_colours true "app" Sample.csv Sample.state Sample.state
           "child_suffer" "sex" H1 H2 H3 H4).
Defined.

Lemma update_graph_counts_positive_witness :
  startup true "app" Sample.csv empty_state = (Ok tt, Sample.state) /\
  gss_clean_frame Sample.state = gss_clean_frame Sample.state /\
  In "men_bettersuited" xaxis_options /\
  In "education" color_options /\
  true || negb (String.eqb "education" "education") = true /\
  exists fig,
    fst (update_graph true "men_bettersuited" "education" Sample.state) = Ok fig /\
    forall i, i < n_rows (fig_data fig) ->
      exists n, cell_at "count" (fig_data fig) i = count_cell n /\ 0 < n.
Proof.
  assert (H1 : startup true "app" Sample.csv empty_state = (Ok tt, Sample.state))
    by (vm_compute; reflexivity).
  assert (H2 : gss_clean_frame Sample.state = gss_clean_frame Sample.state)
    by reflexivity.
  assert (H3 : In "men_bettersuited" xaxis_options) by (simpl; tauto).
  assert (H4 : In "education" color_options) by (simpl; tauto).
  assert (H5 : true || negb (String.eqb "education" "education") = true) by reflexivity.
  repeat (split; [assumption|]).
  exact (update_graph_counts_positive true "app" Sample.csv Sample.state Sample.state
           "men_bettersuited" "education" H1 H2 H3 H4 H5).
Defined.

Lemma update_graph_all_education_bins_witness :
  startup false "app" Sample.csv empty_state =
    (Ok tt, snd (startup false "app" Sample.csv empty_state)) /\
  gss_clean_frame Sample.state =
    gss_clean_frame (snd (startup false "app" Sample.csv empty_state)) /\
  In "men_overwork" xaxis_options /\
  exists fig,
    fst (update_graph false "men_overwork" "education" Sample.state) = Ok fig /\
    dtype_at "education_binned" (fig_data fig) = category (map LStr education_labels).
Proof.
  assert (H1 : startup false "app" Sample.csv empty_state =
               (Ok tt, snd (startup false "app" Sample.csv empty_state)))
    by (vm_compute; reflexivity).
  assert (H2 : gss_clean_frame Sample.state =
               gss_clean_frame (snd (startup false "app" Sample.csv empty_state)))
    by (vm_compute; reflexivity).
  assert (H3 : In "men_overwork" xaxis_options) by (simpl; tauto).
  repeat (split; [assumption|]).
  destruct (update_graph_all_education_bins "app" Sample.csv _ Sample.state
              "men_overwork" H1 H2 H3)
    as (fig & U & D & _).
  exists fig. auto.
Defined.

Lemma update_graph_unknown_column_witness :
  startup true "app" Sample.csv empty_state = (Ok tt, Sample.state) /\
  gss_clean_frame Sample.state = gss_clean_frame Sample.state /\
  mem "fehire" ("education_binned" :: map snd cleaned_columns) = false /\
  In "region" color_options /\
  fst (update_graph true "fehire" "region" Sample.state) = Raise (KeyError "fehire").
Proof.
  assert (H1 : startup true "app" Sample.csv empty_state = (Ok tt, Sample.state))
    by (vm_compute; reflexivity).
  assert (H2 : gss_clean_frame Sample.state = gss_clean_frame Sample.state)
    by reflexivity.
  assert (H3 : mem "fehire" ("education_binned" :: map snd cleaned_columns) = false)
    by reflexivity.
  assert (H4 : In "region" color_options) by (simpl; tauto).
  repeat (split; [assumption|]).
  exact (update_graph_unknown_column true "app" Sample.csv Sample.state Sample.state
           "fehire" "region" H1 H2 H3 H4).
Defined.

Lemma update_graph_same_column_witness :
  startup true "app" Sample.csv empty_state = (Ok tt, Sample.state) /\
  gss_clean_frame Sample.state = gss_clean_frame Sample.state /\
  In "sex" [ "sex"; "region" ] /\
  fst (update_graph true "sex" "sex" Sample.state) =
  Raise (ValueError ("cannot insert " ++ "sex" ++ ", already exists")).
Proof.
  assert (H1 : startup true "app" Sample.csv empty_state = (Ok tt, Sample.state))
    by (vm_compute; reflexivity).
  assert (H2 : gss_clean_frame Sample.state = gss_clean_frame Sample.state)
    by reflexivity.
  assert (H3 : In "sex" [ "sex"; "region" ]) by (simpl; tauto).
  repeat (split; [assumption|]).
  exact (update_graph_same_column true "app" Sample.csv Sample.state Sample.state
           "sex" H1 H2 H3).
Defined.

Lemma update_graph_labels_witness :
  startup true "app" Sample.csv empty_state = (Ok tt, Sample.state) /\
  gss_clean_frame Sample.state = gss_clean_frame Sample.state /\
  In "male_breadwinner" xaxis_options /\
  In "education" color_options /\
  exists fig,
    fst (update_graph true "male_breadwinner" "education" Sample.state) = Ok fig /\
    fig_labels fig =
      [ ("male_breadwinner", "Male Breadwinner"); ("count", "Number of Respondents");
        ("education_binned", "Education") ].
Proof.
  assert (H1 : startup true "app" Sample.csv empty_state = (Ok tt, Sample.state))
    by (vm_compute; reflexivity).
  assert (H2 : gss_clean_frame Sample.state = gss_clean_frame Sample.state)
    by reflexivity.
  assert (H3 : In "male_breadwinner" xaxis_options) by (simpl; tauto).
  assert (H4 : In "education" color_options) by (simpl; tauto).
  repeat (split; [assumption|]).
  destruct (update_graph_labels true "app" Sample.csv Sample.state Sample.state
              "male_breadwinner" "education" H1 H2 H3 H4)
    as (fig & color & U & C & L).
  exists fig. split; [exact U|].
  assert (E : fig_color fig = Some color -> color = "education_binned").
  { assert (X : fst (update_graph true "male_breadwinner" "education" Sample.state) = Ok fig ->
                fig_color fig = Some "education_binned").
    { vm_compute. intros Y. inversion Y. reflexivity. }
    rewrite (X U). intros Y. inversion Y. reflexivity. }
  rewrite (E C) in L. exact L.
Defined.

Lemma load_and_clean_missing_column_witness :
  forallb (fun c => mem c (header (mkCSV [ "id"; "sex"; "age" ] [ [ "1"; "male"; "43" ] ])))
          mycols = false /\
  exists k,
    In k mycols /\
    fst (load_and_clean (mkCSV [ "id"; "sex"; "age" ] [ [ "1"; "male"; "43" ] ]) empty_state)
      = Raise (KeyError k).
Proof.
  assert (H1 : forallb (fun c => mem c (header (mkCSV [ "id"; "sex"; "age" ]
                                                  [ [ "1"; "male"; "43" ] ])))
                       mycols = false) by reflexivity.
  split; [exact H1|].
  destruct (load_and_clean_missing_column _ H1) as (k & I & _ & E & _).
  exists k. auto.
Defined.

Lemma cleaning_keeps_every_record_witness :
  load_and_clean Sample.csv empty_state = (Ok tt, Sample.cleaned_state) /\
  exists g,
    gss_clean_frame Sample.cleaned_state = Some g /\
    n_rows g = 6.
Proof.
  assert (H1 : load_and_clean Sample.csv empty_state = (Ok tt, Sample.cleaned_state))
    by (vm_compute; reflexivity).
  split; [exact H1|].
  destruct (cleaning_keeps_every_record Sample.csv Sample.cleaned_state H1)
    as (g & G & N & _).
  exists g. auto.
Defined.

Lemma startup_leaves_gss_witness :
  startup true "app" Sample.csv empty_state = (Ok tt, Sample.state) /\
  exists l,
    lookup "gss" (globals Sample.state) = Some (PFrame l) /\
    nth_error (heap Sample.state) l = Some (read_csv na_values Sample.csv).
Proof.
  assert (H1 : startup true "app" Sample.csv empty_state = (Ok tt, Sample.state))
    by (vm_compute; reflexivity).
  split; [exact H1|].
  destruct (startup_leaves_gss true "app" Sample.csv Sample.state H1)
    as (l & l' & A & B & _).
  exists l. auto.
Defined.

Lemma scatter_draws_complete_rows_witness :
  startup true "app" Sample.csv empty_state = (Ok tt, Sample.state) /\
  exists fig,
    figure_named "scatter_fig" Sample.state = Some fig /\
    names (df_cols (fig_data fig)) =
      [ "job_prestige"; "income"; "sex"; "education"; "socioeconomic_index" ].
Proof.
  assert (H1 : startup true "app" Sample.csv empty_state = (Ok tt, Sample.state))
    by (vm_compute; reflexivity).
  split; [exact H1|].
  destruct (scatter_draws_complete_rows true "app" Sample.csv Sample.state H1)
    as (g & fig & _ & F & _ & N & _).
  exists fig. auto.
Defined.

Lemma box_plots_draw_complete_rows_witness :
  startup true "app" Sample.csv empty_state = (Ok tt, Sample.state) /\
  exists bi bp,
    figure_named "income_boxplot_fig" Sample.state = Some bi /\
    figure_named "prestige_boxplot_fig" Sample.state = Some bp /\
    fig_data bi = fig_data bp.
Proof.
  assert (H1 : startup true "app" Sample.csv empty_state = (Ok tt, Sample.state))
    by (vm_compute; reflexivity).
  split; [exact H1|].
  destruct (box_plots_draw_complete_rows true "app" Sample.csv Sample.state H1)
    as (g & bi & bp & _ & F1 & F2 & E & _).
  exists bi, bp. auto.
Defined.

Lemma startup_needs_job_prestige_witness :
  gss_clean (mkCSV (header Sample.csv) []) = Ok (rename rename_mapping
    (mkDF [] (map (fun n => (n, mkColumn float64 [])) mycols))) /\
  forallb (fun i => negb (notna (cell_at "job_prestige"
             (rename rename_mapping (mkDF [] (map (fun n => (n, mkColumn float64 [])) mycols)))
             i)))
          (seq 0 (n_rows (rename rename_mapping
                            (mkDF [] (map (fun n => (n, mkColumn float64 [])) mycols)))))
    = true /\
  exists e, fst (startup true "app" (mkCSV (header Sample.csv) []) empty_state) = Raise e.
Proof.
  assert (H1 : gss_clean (mkCSV (header Sample.csv) []) =
               Ok (rename rename_mapping
                     (mkDF [] (map (fun n => (n, mkColumn float64 [])) mycols))))
    by (vm_compute; reflexivity).
  assert (H2 : forallb (fun i => negb (notna (cell_at "job_prestige"
             (rename rename_mapping (mkDF [] (map (fun n => (n, mkColumn float64 [])) mycols)))
             i)))
          (seq 0 (n_rows (rename rename_mapping
                            (mkDF [] (map (fun n => (n, mkColumn float64 [])) mycols)))))
    = true) by reflexivity.
  split; [exact H1|]. split; [exact H2|].
  exact (startup_needs_job_prestige true "app" _ _ H1 H2).
Defined.

Lemma page_load_draws_defaults_witness :
  startup true "app" Sample.csv empty_state = (Ok tt, Sample.state) /\
  exists a fig page,
    app_of Sample.state = Some a /\
    fst (on_load true a Sample.state) = Ok page /\
    lookup "interactive-bar-graph.figure" page = Some (VFigure fig).
Proof.
  assert (H1 : startup true "app" Sample.csv empty_state = (Ok tt, Sample.state))
    by (vm_compute; reflexivity).
  split; [exact H1|].
  destruct (page_load_draws_defaults true "app" Sample.csv Sample.state H1)
    as (a & fig & page & A & _ & L & F & _).
  exists a, fig, page. auto.
Defined.

Lemma other_changes_fire_nothing_witness :
  startup true "app" Sample.csv empty_state = (Ok tt, Sample.state) /\
  dep_eqb ("xaxis-dropdown", "options") ("xaxis-dropdown", "value") = false /\
  dep_eqb ("xaxis-dropdown", "options") ("color-dropdown", "value") = false /\
  exists a,
    app_of Sample.state = Some a /\
    on_change true a ("xaxis-dropdown", "options") (VText "none") Sample.page Sample.state =
    (Ok (store (prop_key ("xaxis-dropdown", "options")) (VText "none") Sample.page),
     Sample.state).
Proof.
  assert (H1 : startup true "app" Sample.csv empty_state = (Ok tt, Sample.state))
    by (vm_compute; reflexivity).
  assert (H2 : dep_eqb ("xaxis-dropdown", "options") ("xaxis-dropdown", "value") = false)
    by reflexivity.
  assert (H3 : dep_eqb ("xaxis-dropdown", "options") ("color-dropdown", "value") = false)
    by reflexivity.
  repeat (split; [assumption|]).
  exact (other_changes_fire_nothing true "app" Sample.csv Sample.state Sample.state
           ("xaxis-dropdown", "options") (VText "none") Sample.page H1 H2 H3).
Defined.

Lemma metrics_table_order_witness :
  startup true "app" Sample.csv empty_state = (Ok tt, Sample.state) /\
  exists g tf,
    figure_named "table_fig" Sample.state = Some tf /\
    table_fig true g = Ok tf /\
    table_fig false g = Ok tf.
Proof.
  assert (H1 : startup true "app" Sample.csv empty_state = (Ok tt, Sample.state))
    by (vm_compute; reflexivity).
  split; [exact H1|].
  destruct (metrics_table_order true "app" Sample.csv Sample.state H1)
    as (g & tf & _ & F & A & B & _).
  exists g, tf. auto.
Defined.

Lemma missing_iff_marker_witness :
  forallb (fun r' => (List.length r' <=? List.length (header Sample.csv))%nat)
          (records Sample.csv) = true /\
  9 < List.length (header Sample.csv) /\
  nth_error (records Sample.csv) 1 = Some (nth 1 (records Sample.csv) []) /\
  exists c x,
    nth_error (df_cols (read_csv na_values Sample.csv)) 9 = Some ("mapres10", c) /\
    nth_error (cells c) 1 = Some x /\
    notna x = false.
Proof.
  assert (H0 : forallb (fun r' => (List.length r' <=? List.length (header Sample.csv))%nat)
                       (records Sample.csv) = true) by reflexivity.
  assert (H1 : 9 < List.length (header Sample.csv)) by (simpl; lia).
  assert (H2 : nth_error (records Sample.csv) 1 = Some (nth 1 (records Sample.csv) []))
    by reflexivity.
  split; [exact H0|]. split; [exact H1|]. split; [exact H2|].
  destruct (missing_iff_marker Sample.csv 9 1 _ H0 H1 H2) as (c & Hc & x & Hx & N).
  exists c, x. split; [exact Hc|]. split; [exact Hx|].
  apply (proj2 N). simpl. repeat first [left; reflexivity | right].
Defined.

End MoreWitnesses.
